(** * XRename: a shallow embedding of the batch renamer

    Sources embedded here:
    - [src/renamer.py]: class [FileRenamer] ([__init__],
      [_should_process_file], [_generate_new_name], [_rename_file],
      [rename_files]);
    - [src/xrename.py]: [main] (the logging setup, the validation of the
      path, the construction of the renamer from the parsed arguments, the
      summary printed on stdout, the exit status);
    - [src/utils.py]: [setup_logging], [validate_path],
      [sanitize_filename].

    Conventions.
    - A Python [str] is a Rocq [string]: the bytes of its UTF-8 encoding,
      so that ASCII text is itself and comparison by character code is
      comparison of the byte lists.  [str.lower] depends on the Unicode
      tables and is taken from the host ([str_lower]); [PyStr.lower] is
      its restriction to ASCII text.  The whitespace of [str.split] is
      recognised on the bytes ([PyStr.is_space] for the ASCII characters,
      [PyStr.is_space2] and [PyStr.is_space3] for the others).
    - A Python [int] is a [Z].
    - A [pathlib.Path] is the list of its [parts]; an absolute path starts
      with the root part ["/"] (or ["//"]).
    - The operating system, [str.format] and [str.lower] are not part of
      the repository.  They are taken as an interface ([Host]); every
      general theorem holds for every implementation of it.  A small
      concrete host ([simple_host]) is used to run the program on concrete
      directories.
    - Python exceptions are modelled by their class ([exn]).  Only
      subclasses of [Exception] occur; [KeyboardInterrupt] is outside the
      model.
    - The log of a run holds every call made to the logger, whatever the
      level that [setup_logging] configures.  The handlers write the
      records of level INFO and above to stdout and, when a log file is
      given, to that file: the text of the log file is read from the log,
      the file system records that the file exists. *)

From Stdlib Require Import String Ascii List ZArith Lia Bool Permutation Sorted.
Import ListNotations.
Local Open Scope string_scope.
Local Open Scope Z_scope.

(** ** Python strings *)

Module PyStr.

(** [c.lower()] on one ASCII character; other bytes are kept. *)
Definition lower_ascii (c : ascii) : ascii :=
  let n := nat_of_ascii c in
  if (Nat.leb 65 n && Nat.leb n 90)%bool then ascii_of_nat (n + 32) else c.

(** [s.lower()] for ASCII text [s]. *)
Fixpoint lower (s : string) : string :=
  match s with
  | EmptyString => EmptyString
  | String c s' => String (lower_ascii c) (lower s')
  end.

(** [s.lstrip(ch)] for a one-character argument. *)
Fixpoint lstrip (ch : ascii) (s : string) : string :=
  match s with
  | EmptyString => EmptyString
  | String c s' => if Ascii.eqb c ch then lstrip ch s' else s
  end.

(** [ch in s] *)
Fixpoint contains (ch : ascii) (s : string) : bool :=
  match s with
  | EmptyString => false
  | String c s' => (Ascii.eqb c ch || contains ch s')%bool
  end.

(** [s.rfind(ch)]: index of the last occurrence, [None] for Python's -1. *)
Fixpoint rfind (ch : ascii) (s : string) : option nat :=
  match s with
  | EmptyString => None
  | String c s' =>
      match rfind ch s' with
      | Some i => Some (S i)
      | None => if Ascii.eqb c ch then Some O else None
      end
  end.

(** [s[:i]] and [s[i:]] for [0 <= i]. *)
Fixpoint take (i : nat) (s : string) : string :=
  match i, s with
  | S i', String c s' => String c (take i' s')
  | _, _ => EmptyString
  end.

Fixpoint drop (i : nat) (s : string) : string :=
  match i, s with
  | S i', String _ s' => drop i' s'
  | _, _ => s
  end.

(** [s.split(sep)] for a one-character separator: always at least one
    piece, empty pieces kept. *)
Fixpoint split_aux (sep : ascii) (cur : string) (s : string) : list string :=
  match s with
  | EmptyString => [cur]
  | String c s' =>
      if Ascii.eqb c sep then cur :: split_aux sep EmptyString s'
      else split_aux sep (cur ++ String c EmptyString) s'
  end.

Definition split (sep : ascii) (s : string) : list string :=
  split_aux sep EmptyString s.

(** Truthiness of a [str]: non-empty. *)
Definition truthy (s : string) : bool :=
  match s with EmptyString => false | _ => true end.

(** [x in l] for a list of strings. *)
Definition mem (x : string) (l : list string) : bool :=
  existsb (String.eqb x) l.

(** [ch * n] *)
Fixpoint replicate (n : nat) (ch : ascii) : string :=
  match n with
  | O => EmptyString
  | S n' => String ch (replicate n' ch)
  end.

(** [s.replace(old, new)] for one-character [old] and [new]. *)
Fixpoint replace_char (old new : ascii) (s : string) : string :=
  match s with
  | EmptyString => EmptyString
  | String c s' =>
      String (if Ascii.eqb c old then new else c) (replace_char old new s')
  end.

(** [c in chars] for a string of characters given as a list. *)
Definition in_chars (c : ascii) (chars : list ascii) : bool :=
  existsb (Ascii.eqb c) chars.

(** [s.lstrip(chars)], [s.rstrip(chars)] and [s.strip(chars)]. *)
Fixpoint lstrip_chars (chars : list ascii) (s : string) : string :=
  match s with
  | EmptyString => EmptyString
  | String c s' => if in_chars c chars then lstrip_chars chars s' else s
  end.

Fixpoint rstrip_chars (chars : list ascii) (s : string) : string :=
  match s with
  | EmptyString => EmptyString
  | String c s' =>
      match rstrip_chars chars s' with
      | EmptyString => if in_chars c chars then EmptyString
                       else String c EmptyString
      | r => String c r
      end
  end.

Definition strip_chars (chars : list ascii) (s : string) : string :=
  rstrip_chars chars (lstrip_chars chars s).

(** [c.isspace()] for an ASCII character: tab, line feed, vertical tab,
    form feed, carriage return, the four separators 28..31, and the
    space. *)
Definition is_space (c : ascii) : bool :=
  let n := nat_of_ascii c in
  ((Nat.leb 9 n && Nat.leb n 13) || (Nat.leb 28 n && Nat.leb n 32))%bool.

(** The whitespace characters outside ASCII, by the bytes of their UTF-8
    encoding.  Two bytes: U+0085 (C2 85) and U+00A0 (C2 A0).  Three
    bytes: U+1680 (E1 9A 80); U+2000 to U+200A, U+2028, U+2029 and U+202F
    (E2 80 followed by 80..8A, A8, A9, AF); U+205F (E2 81 9F); U+3000
    (E3 80 80). *)
Definition is_space2 (c1 c2 : ascii) : bool :=
  let n1 := nat_of_ascii c1 in
  let n2 := nat_of_ascii c2 in
  (Nat.eqb n1 194 && (Nat.eqb n2 133 || Nat.eqb n2 160))%bool.

Definition is_space3 (c1 c2 c3 : ascii) : bool :=
  let n1 := nat_of_ascii c1 in
  let n2 := nat_of_ascii c2 in
  let n3 := nat_of_ascii c3 in
  ((Nat.eqb n1 225 && Nat.eqb n2 154 && Nat.eqb n3 128)
   || (Nat.eqb n1 226 && Nat.eqb n2 128
       && ((Nat.leb 128 n3 && Nat.leb n3 138)
           || Nat.eqb n3 168 || Nat.eqb n3 169 || Nat.eqb n3 175))
   || (Nat.eqb n1 226 && Nat.eqb n2 129 && Nat.eqb n3 159)
   || (Nat.eqb n1 227 && Nat.eqb n2 128 && Nat.eqb n3 128))%bool.

(** The word read so far ends: it is kept when it is not empty. *)
Definition flush (cur : string) (rest : list string) : list string :=
  if truthy cur then cur :: rest else rest.

(** [s.split()]: the maximal runs of characters that are not whitespace.
    The text is read byte by byte; a whitespace character of one, two or
    three bytes ends the word read so far. *)
Fixpoint split_ws_aux (cur : string) (s : string) : list string :=
  match s with
  | EmptyString => flush cur []
  | String c s' =>
      if is_space c then flush cur (split_ws_aux EmptyString s')
      else
        match s' with
        | String c2 s2 =>
            if is_space2 c c2 then flush cur (split_ws_aux EmptyString s2)
            else
              match s2 with
              | String c3 s3 =>
                  if is_space3 c c2 c3
                  then flush cur (split_ws_aux EmptyString s3)
                  else split_ws_aux (cur ++ String c EmptyString) s'
              | EmptyString => split_ws_aux (cur ++ String c EmptyString) s'
              end
        | EmptyString => split_ws_aux (cur ++ String c EmptyString) s'
        end
  end.

Definition split_ws (s : string) : list string :=
  split_ws_aux EmptyString s.

End PyStr.

(** ** Python integers as text: [str(n)] and [format(n, "0{w}d")] *)

Module PyInt.

Definition digit_char (d : Z) : ascii :=
  ascii_of_nat (48 + Z.to_nat d).

(** Decimal digits of a non-negative integer, most significant first.
    The fuel bounds the number of digits. *)
Fixpoint digits_fuel (fuel : nat) (n : Z) (acc : string) : string :=
  let acc' := String (digit_char (n mod 10)) acc in
  match fuel with
  | O => acc'
  | S f => if n <? 10 then acc' else digits_fuel f (n / 10) acc'
  end.

Definition decimal (n : Z) : string :=
  digits_fuel (Z.to_nat n) n EmptyString.

(** [str(n)] *)
Definition str (n : Z) : string :=
  if n <? 0 then String "-" (decimal (- n)) else decimal n.

(** [len(str(n))] *)
Definition len_str (n : Z) : nat := String.length (str n).

(** Left padding with ["0"] up to [width] characters. *)
Definition zfill (width : nat) (s : string) : string :=
  PyStr.replicate (width - String.length s) "0" ++ s.

(** [format(n, "0{width}d")]: zero padding goes between the sign and the
    digits, and the sign counts in the width. *)
Definition format_0d (width : nat) (n : Z) : string :=
  if n <? 0 then String "-" (zfill (width - 1) (decimal (- n)))
  else zfill width (decimal n).

(** [format(n, "{width}d")]: numbers are right-aligned with spaces. *)
Definition format_d (width : nat) (n : Z) : string :=
  PyStr.replicate (width - String.length (str n)) " " ++ str n.

(** Reading a digit string back (used to state that [decimal] is right). *)
Definition digit_val (c : ascii) : Z := Z.of_nat (nat_of_ascii c) - 48.

Fixpoint value_acc (acc : Z) (s : string) : Z :=
  match s with
  | EmptyString => acc
  | String c s' => value_acc (10 * acc + digit_val c) s'
  end.

Definition value (s : string) : Z := value_acc 0 s.

End PyInt.

(** ** [pathlib] paths (POSIX flavour) *)

Definition path := list string.

Module PyPath.

Definition is_root_part (s : string) : bool :=
  (String.eqb s "/" || String.eqb s "//")%bool.

(** Number of leading ["/"] characters. *)
Fixpoint leading_slashes (s : string) : nat :=
  match s with
  | String c s' => if Ascii.eqb c "/" then S (leading_slashes s') else O
  | EmptyString => O
  end.

(** The root of a path text: [""], ["/"], or ["//"] when the text starts
    with exactly two slashes. *)
Definition root_of (s : string) : list string :=
  match leading_slashes s with
  | O => []
  | 2%nat => ["//"]
  | _ => ["/"]
  end.

Definition keep_component (c : string) : bool :=
  negb (String.eqb c "" || String.eqb c ".")%bool.

(** [Path(s).parts]: the text is cut at ["/"]; empty and ["."] pieces are
    dropped; [".."] pieces are kept as they are. *)
Definition parse (s : string) : path :=
  (root_of s ++ filter keep_component (PyStr.split "/" s))%list.

(** [p.name]: the last part, or [""] when the path has no part besides
    its root. *)
Definition name (p : path) : string :=
  match p with
  | [] => ""
  | [r] => if is_root_part r then "" else r
  | _ => last p ""
  end.

(** Position of the dot that starts the suffix of a name: the last dot,
    unless it is the first or the last character of the name
    ([0 < i < len(name) - 1] in [pathlib], up to Python 3.13). *)
Definition suffix_start (nm : string) : option nat :=
  match PyStr.rfind "." nm with
  | Some i =>
      if (Nat.ltb 0 i && Nat.ltb i (String.length nm - 1))%bool
      then Some i else None
  | None => None
  end.

(** [PurePath.suffix] and [PurePath.stem], on the name. *)
Definition suffix_of_name (nm : string) : string :=
  match suffix_start nm with
  | Some i => PyStr.drop i nm
  | None => ""
  end.

Definition stem_of_name (nm : string) : string :=
  match suffix_start nm with
  | Some i => PyStr.take i nm
  | None => nm
  end.

Definition suffix (p : path) : string := suffix_of_name (name p).
Definition stem (p : path) : string := stem_of_name (name p).

(** [p.parent] *)
Definition parent (p : path) : path :=
  match p with
  | [r] => if is_root_part r then p else []
  | _ => removelast p
  end.

(** [p / s]: a rooted right operand replaces the left one. *)
Definition join (p : path) (s : string) : path :=
  match root_of s with
  | [] => (p ++ parse s)%list
  | _ => parse s
  end.

(** Order of paths: Python compares the lists of parts, each part as a
    string, by character code. *)
Fixpoint compare (p q : path) : comparison :=
  match p, q with
  | [], [] => Eq
  | [], _ :: _ => Lt
  | _ :: _, [] => Gt
  | a :: p', b :: q' =>
      match String.compare a b with
      | Eq => compare p' q'
      | c => c
      end
  end.

Definition ltb (p q : path) : bool :=
  match compare p q with Lt => true | _ => false end.

Definition leb (p q : path) : bool := negb (ltb q p).

Definition eqb (p q : path) : bool :=
  match compare p q with Eq => true | _ => false end.

(** [files.sort()].  Python's sort is stable; so is this insertion sort,
    which places an element after the elements that are not greater. *)
Fixpoint insert (x : path) (l : list path) : list path :=
  match l with
  | [] => [x]
  | y :: l' => if ltb x y then x :: l else y :: insert x l'
  end.

Fixpoint sort (l : list path) : list path :=
  match l with
  | [] => []
  | x :: l' => insert x (sort l')
  end.

End PyPath.

(** ** Exceptions, log records, the host interface *)

(** Exception classes that the program can meet.  All are subclasses of
    [Exception]; none is a subclass of another one listed here, except the
    file-system ones, which are subclasses of [OSError]. *)
Inductive exn : Type :=
| KeyError | ValueError | IndexError | AttributeError | TypeError
| OverflowError
| OSError | FileNotFoundError | PermissionError
| IsADirectoryError | NotADirectoryError.

(** Outcome of [pattern.format(index=.., original=.., total=..)]. *)
Inductive fmt_result : Type :=
| FmtOk (rendered : string)
| FmtRaise (e : exn).

Inductive level : Type := DEBUG | INFO | WARNING | ERROR.

(** One constructor per logging call of [renamer.py]; the text of each
    f-string is given with the constructor. *)
Inductive message : Type :=
| PatternError (e : exn)
    (* "Pattern processing error: {e}. Using default method." *)
| SkipSame (name : string)
    (* "Skip (name is the same): {file_path.name}" *)
| SkipExists (new_name : string)
    (* "Skip (file already exists): {new_name}" *)
| Preview (name new_name : string)
    (* "[Preview] {file_path.name} -> {new_name}" *)
| Changed (name new_name : string)
    (* "Change completed: {file_path.name} -> {new_name}" *)
| RenameFailed (name : string) (e : exn)
    (* "File name change failed ({file_path.name}): {e}" *)
| TotalFiles (total : Z)
    (* "Total {total} files to process..." *)
| ProcessError (name : string) (e : exn).
    (* "Error processing file ({file_path.name}): {e}" *)

Definition log_record : Type := level * message.

(** What the program asks of its environment: the file system calls made
    through [pathlib] and [logging.FileHandler], [str.format] applied to
    the pattern with the keyword arguments [index], [original] and
    [total], and [str.lower].

    [Path.exists], [Path.is_file] and [Path.is_dir] call [stat]; they
    answer [False] when it fails with ENOENT, ENOTDIR, EBADF or ELOOP and
    let any other [OSError] out.  [fs_stat_error] gives that exception for
    a path, if there is one; [fs_exists], [fs_is_file] and [fs_is_dir]
    give the answer of a call that returns.

    [Path.iterdir] and [Path.rglob] give generators: a walk either yields
    all its entries, or yields some and then raises.

    A Python string is read as the list of the bytes of its UTF-8
    encoding; [str_lower] is [str.lower] on it. *)
Definition walk : Type := (list path * exn) + list path.

Class Host : Type := {
  FS : Type;
  fs_stat_error : FS -> path -> option exn;     (* stat fails, not ignored *)
  fs_exists : FS -> path -> bool;               (* Path.exists *)
  fs_is_file : FS -> path -> bool;              (* Path.is_file *)
  fs_is_dir : FS -> path -> bool;               (* Path.is_dir *)
  fs_mode : FS -> path -> Z;                    (* Path.stat().st_mode *)
  fs_iterdir : FS -> path -> walk;              (* Path.iterdir, any order *)
  fs_rglob : FS -> path -> walk;                (* Path.rglob("*") *)
  fs_rename : FS -> path -> path -> exn + FS;   (* Path.rename *)
  fs_open_log : FS -> path -> exn + FS;         (* logging.FileHandler *)
  str_format : string -> Z -> string -> Z -> fmt_result;
  str_lower : string -> string                  (* str.lower *)
}.

(** ** State and exceptions *)

Section Monad.
Context {H : Host}.

(** A call of [Path.rename], with the file system it was issued on. *)
Record rename_call : Type := {
  rc_fs : FS;
  rc_src : path;
  rc_dst : path
}.

(** The state threaded through the program: the file system, the log
    records emitted so far (latest first) and the [Path.rename] calls
    issued so far (latest first). *)
Record world : Type := {
  w_fs : FS;
  w_log : list log_record;
  w_renames : list rename_call
}.

Definition M (A : Type) : Type := world -> (exn + A) * world.

Definition ret {A} (a : A) : M A := fun w => (inr a, w).

Definition raise {A} (e : exn) : M A := fun w => (inl e, w).

Definition bind {A B} (m : M A) (k : A -> M B) : M B :=
  fun w =>
    match m w with
    | (inr a, w') => k a w'
    | (inl e, w') => (inl e, w')
    end.

(** [try: m  except Exception as e: h e] *)
Definition try_except {A} (m : M A) (h : exn -> M A) : M A :=
  fun w =>
    match m w with
    | (inl e, w') => h e w'
    | r => r
    end.

Definition logger (l : level) (msg : message) : M unit :=
  fun w => (inr tt, {| w_fs := w_fs w; w_log := (l, msg) :: w_log w;
                       w_renames := w_renames w |}).

Definition read_fs {A} (f : FS -> A) : M A :=
  fun w => (inr (f (w_fs w)), w).

(** [p.exists()], [p.is_file()], [p.is_dir()]: the exception of [stat]
    that is not ignored, or the answer. *)
Definition path_test (test : FS -> path -> bool) (p : path) : M bool :=
  fun w =>
    match fs_stat_error (w_fs w) p with
    | Some e => (inl e, w)
    | None => (inr (test (w_fs w) p), w)
    end.

(** A call that changes the file system, or raises and leaves it. *)
Definition update_fs (f : FS -> exn + FS) : M unit :=
  fun w =>
    match f (w_fs w) with
    | inr fs' =>
        (inr tt, {| w_fs := fs'; w_log := w_log w; w_renames := w_renames w |})
    | inl e => (inl e, w)
    end.

(** [src.rename(dst)] *)
Definition path_rename (src dst : path) : M unit :=
  fun w =>
    let calls := {| rc_fs := w_fs w; rc_src := src; rc_dst := dst |}
                 :: w_renames w in
    match fs_rename (w_fs w) src dst with
    | inr fs' => (inr tt, {| w_fs := fs'; w_log := w_log w; w_renames := calls |})
    | inl e => (inl e, {| w_fs := w_fs w; w_log := w_log w; w_renames := calls |})
    end.

End Monad.

Declare Scope py_scope.
Delimit Scope py_scope with py.
Notation "x <- m ;; k" := (bind m (fun x => k))
  (at level 61, m at next level, right associativity) : py_scope.
Notation "m ;; k" := (bind m (fun _ => k))
  (at level 61, right associativity) : py_scope.

(** ** [renamer.py] *)

Module Renamer.

(** The attributes set by [FileRenamer.__init__]. *)
Record FileRenamer : Type := {
  prefix : string;
  suffix : string;
  add_number : bool;
  new_ext : option string;
  pattern : string;
  recursive : bool;
  filter_ext : option (list string);
  dry_run : bool
}.

(** [ext.lower().lstrip('.')] *)
Definition normalize_ext {H : Host} (ext : string) : string :=
  PyStr.lstrip "." (str_lower ext).

(** [FileRenamer.__init__]; [filter_ext_arg] is [None] or a list. *)
Definition __init__ {H : Host}
    (prefix_arg suffix_arg : string) (add_number_arg : bool)
    (new_ext_arg pattern_arg : string) (recursive_arg : bool)
    (filter_ext_arg : option (list string)) (dry_run_arg : bool)
    : FileRenamer :=
  {| prefix := prefix_arg;
     suffix := suffix_arg;
     add_number := add_number_arg;
     new_ext := if PyStr.truthy new_ext_arg
                then Some (normalize_ext new_ext_arg) else None;
     pattern := pattern_arg;
     recursive := recursive_arg;
     filter_ext := match filter_ext_arg with
                   | Some (e :: l) => Some (map normalize_ext (e :: l))
                   | _ => None
                   end;
     dry_run := dry_run_arg |}.

(** [if self.new_ext:] gives the extension to use when it is neither
    [None] nor empty. *)
Definition new_ext_set (self : FileRenamer) : option string :=
  match new_ext self with
  | Some e => if PyStr.truthy e then Some e else None
  | None => None
  end.

(** [if self.filter_ext:] gives the list when it is neither [None] nor
    empty. *)
Definition filter_ext_set (self : FileRenamer) : option (list string) :=
  match filter_ext self with
  | Some (e :: l) => Some (e :: l)
  | _ => None
  end.

Section Methods.
Context {H : Host}.
Local Open Scope py_scope.

(** [FileRenamer._should_process_file] *)
Definition _should_process_file
    (self : FileRenamer) (fs : FS) (file_path : path) : bool :=
  if negb (fs_is_file fs file_path) then false
  else
    match filter_ext_set self with
    | Some exts =>
        let file_ext := normalize_ext (PyPath.suffix file_path) in
        if negb (PyStr.mem file_ext exts) then false else true
    | None => true
    end.

(** The part of [_generate_new_name] under "Generate the default name". *)
Definition default_name
    (self : FileRenamer) (stem ext : string) (index total : Z) : string :=
  let new_stem := stem in
  let new_stem :=
    if PyStr.truthy (prefix self) then prefix self ++ new_stem
    else new_stem in
  let new_stem :=
    if add_number self then
      let digits := PyInt.len_str total in
      let number_format := "_" ++ PyInt.format_0d digits (index + 1) in
      new_stem ++ number_format
    else new_stem in
  let new_stem :=
    if PyStr.truthy (suffix self) then new_stem ++ suffix self
    else new_stem in
  let new_ext' :=
    match new_ext_set self with
    | Some e => "." ++ e
    | None => ext
    end in
  new_stem ++ new_ext'.

(** [except (KeyError, ValueError)] *)
Definition is_key_or_value_error (e : exn) : bool :=
  match e with
  | KeyError | ValueError => true
  | _ => false
  end.

(** [FileRenamer._generate_new_name] *)
Definition _generate_new_name
    (self : FileRenamer) (original_name : string) (index total : Z)
    : M string :=
  let stem := PyPath.stem (PyPath.parse original_name) in
  let ext := PyPath.suffix (PyPath.parse original_name) in
  if PyStr.truthy (pattern self) then
    match str_format (pattern self) index stem total with
    | FmtOk new_name =>
        match new_ext_set self with
        | Some e => ret (new_name ++ "." ++ e)
        | None => ret (new_name ++ ext)
        end
    | FmtRaise e =>
        if is_key_or_value_error e then
          logger WARNING (PatternError e) ;;
          ret (default_name self stem ext index total)
        else raise e
    end
  else ret (default_name self stem ext index total).

(** [FileRenamer._rename_file] *)
Definition _rename_file
    (self : FileRenamer) (file_path : path) (new_name : string) : M bool :=
  try_except
    (let new_path := PyPath.join (PyPath.parent file_path) new_name in
     if String.eqb (PyPath.name file_path) new_name then
       logger DEBUG (SkipSame (PyPath.name file_path)) ;;
       ret false
     else
       present <- path_test fs_exists new_path ;;
       if present then
         logger WARNING (SkipExists new_name) ;;
         ret false
       else
         (if dry_run self then
            logger INFO (Preview (PyPath.name file_path) new_name)
          else
            path_rename file_path new_path ;;
            logger INFO (Changed (PyPath.name file_path) new_name)) ;;
         ret true)
    (fun e =>
       logger ERROR (RenameFailed (PyPath.name file_path) e) ;;
       ret false).

(** The counters of [rename_files] and the dictionary it returns. *)
Record counters : Type := {
  c_renamed : Z;
  c_skipped : Z;
  c_errors : Z
}.

Record result : Type := {
  total : Z;
  renamed : Z;
  skipped : Z;
  errors : Z
}.

(** One iteration of the [for index, file_path in enumerate(files)] loop. *)
Definition loop_body
    (self : FileRenamer) (total : Z) (index : Z) (file_path : path)
    (c : counters) : M counters :=
  try_except
    (new_name <- _generate_new_name self (PyPath.name file_path) index total ;;
     ok <- _rename_file self file_path new_name ;;
     if ok then
       ret {| c_renamed := c_renamed c + 1; c_skipped := c_skipped c;
              c_errors := c_errors c |}
     else
       ret {| c_renamed := c_renamed c; c_skipped := c_skipped c + 1;
              c_errors := c_errors c |})
    (fun e =>
       logger ERROR (ProcessError (PyPath.name file_path) e) ;;
       ret {| c_renamed := c_renamed c; c_skipped := c_skipped c;
              c_errors := c_errors c + 1 |}).

(** The loop, from position [index] on. *)
Fixpoint loop
    (self : FileRenamer) (total : Z) (index : Z) (files : list path)
    (c : counters) : M counters :=
  match files with
  | [] => ret c
  | file_path :: rest =>
      c' <- loop_body self total index file_path c ;;
      loop self total (index + 1) rest c'
  end.

(** The list [files] of [rename_files] after [files.sort()], from the
    entries that the directory listing produced. *)
Definition collect (self : FileRenamer) (fs : FS) (entries : list path)
    : list path :=
  PyPath.sort (filter (_should_process_file self fs) entries).

(** The exception that the comprehension
    [[f for f in ... if self._should_process_file(f)]] lets out: that of
    the first entry, in the order of the listing, on which [is_file]
    raises. *)
Fixpoint first_stat_error (fs : FS) (entries : list path) : option exn :=
  match entries with
  | [] => None
  | p :: rest =>
      match fs_stat_error fs p with
      | Some e => Some e
      | None => first_stat_error fs rest
      end
  end.

(** The comprehension over the entries that the walk yields, followed by
    [files.sort()]. *)
Definition select_files (self : FileRenamer) (entries : list path)
    : M (list path) :=
  fun w =>
    match first_stat_error (w_fs w) entries with
    | Some e => (inl e, w)
    | None => (inr (collect self (w_fs w) entries), w)
    end.

(** [FileRenamer.rename_files] *)
Definition rename_files (self : FileRenamer) (target_path : path)
    : M result :=
  is_dir <- path_test fs_is_dir target_path ;;
  if negb is_dir then raise ValueError
  else
    walked <- read_fs (fun fs => if recursive self
                                 then fs_rglob fs target_path
                                 else fs_iterdir fs target_path) ;;
    files <- match walked with
             | inr entries => select_files self entries
             | inl (yielded, e) => select_files self yielded ;; raise e
             end ;;
    let total := Z.of_nat (length files) in
    logger INFO (TotalFiles total) ;;
    c <- loop self total 0 files
           {| c_renamed := 0; c_skipped := 0; c_errors := 0 |} ;;
    ret {| total := total;
           renamed := c_renamed c;
           skipped := c_skipped c;
           errors := c_errors c |}.

End Methods.

End Renamer.

(** ** [utils.py] and [xrename.py] *)

Definition newline : string := String (ascii_of_nat 10) EmptyString.

(** [str(path)] *)
Definition path_str (p : path) : string :=
  match p with
  | [] => "."
  | r :: rest =>
      if PyPath.is_root_part r then r ++ String.concat "/" rest
      else String.concat "/" p
  end.

(** Lines written to [sys.stderr]. *)
Inductive err_line : Type :=
| ErrPathDoesNotExist (p : string)      (* "Error: Path does not exist: {path}" *)
| ErrNotADirectory (p : string)         (* "Error: Not a directory: {path}" *)
| WarnReadPermission (p : string)
    (* "Warning: Path may not have read permission: {path}" *)
| ErrOccurred (e : exn)                 (* "\nError occurred: {e}" *)
| Traceback (e : exn).
    (* the traceback of an exception that nothing catches *)

Module Utils.

(** The nine characters of [invalid_chars]: less-than, greater-than,
    colon, double quote (code 34), slash, backslash (code 92), bar,
    question mark, star. *)
Definition invalid_chars : list ascii :=
  [ "<"; ">"; ":"; ascii_of_nat 34; "/"; ascii_of_nat 92; "|"; "?"; "*" ]%char.

(** [sanitize_filename] *)
Definition sanitize_filename (filename : string) : string :=
  let filename :=
    fold_left (fun name char => PyStr.replace_char char "_" name)
              invalid_chars filename in
  let filename := PyStr.strip_chars [" "; "."]%char filename in
  let filename := String.concat " " (PyStr.split_ws filename) in
  filename.

Section Utils.
Context {H : Host}.

(** [setup_logging]: records go to stdout, and to [log_file] when one is
    given; [logging.FileHandler] opens that file for appending, which
    creates it. *)
Definition setup_logging (log_file : string) : M unit :=
  if PyStr.truthy log_file
  then update_fs (fun fs => fs_open_log fs (PyPath.parse log_file))
  else ret tt.

(** [validate_path]: the answer and what it prints, or the exception that
    [path.exists()] lets out. *)
Definition validate_path (fs : FS) (p : path)
    : exn + (bool * list err_line) :=
  match fs_stat_error fs p with
  | Some e => inl e
  | None =>
      inr (if negb (fs_exists fs p)
           then (false, [ErrPathDoesNotExist (path_str p)])
           else if negb (fs_is_dir fs p)
           then (false, [ErrNotADirectory (path_str p)])
           else if (negb (fs_is_dir fs p)
                    || (Z.land (fs_mode fs p) 292 =? 0))%bool   (* 0o444 *)
           then (true, [WarnReadPermission (path_str p)])
           else (true, []))
  end.

End Utils.
End Utils.

Module XRename.
Import Renamer.

(** The namespace returned by [parser.parse_args()]. *)
Record Args : Type := {
  a_path : string;
  a_prefix : string;
  a_suffix : string;
  a_number : bool;
  a_ext : string;
  a_pattern : string;
  a_recursive : bool;
  a_dry_run : bool;
  a_filter : string;
  a_log : string
}.

(** What a run of [main] shows: the lines printed on stdout, those printed
    on stderr, and the argument of [sys.exit]. *)
Record outcome : Type := {
  out_stdout : list string;
  out_stderr : list err_line;
  out_exit : Z
}.

(** The [print] calls of [main] after [rename_files] has returned. *)
Definition summary (dry : bool) (res : result) : list string :=
  if dry then
    [newline ++ "[Preview mode] " ++ PyInt.str (total res)
       ++ " files are expected to be changed."]
  else
    let line_renamed :=
      newline ++ "Successfully changed the names of "
        ++ PyInt.str (renamed res) ++ " files." in
    let line_skipped := PyInt.str (skipped res) ++ " files were skipped." in
    let line_errors :=
      PyInt.str (errors res) ++ " files processing failed." in
    line_renamed
      :: app (if 0 <? skipped res then [line_skipped] else [])
             (if 0 <? errors res then [line_errors] else []).

Section Main.
Context {H : Host}.

(** The renamer that [main] builds from the arguments. *)
Definition make_renamer (args : Args) : FileRenamer :=
  __init__ (a_prefix args) (a_suffix args) (a_number args) (a_ext args)
    (a_pattern args) (a_recursive args)
    (if PyStr.truthy (a_filter args)
     then Some (PyStr.split "," (a_filter args)) else None)
    (a_dry_run args).

(** The end of a run on an exception that [main] does not catch: the
    interpreter prints the traceback and exits with status 1. *)
Definition uncaught (e : exn) : outcome :=
  {| out_stdout := []; out_stderr := [Traceback e]; out_exit := 1 |}.

(** [main], from the parsed arguments on. *)
Definition main (args : Args) (w : world) : outcome * world :=
  match Utils.setup_logging (a_log args) w with
  | (inl e, w0) => (uncaught e, w0)
  | (inr _, w0) =>
      let target_path := PyPath.parse (a_path args) in
      match Utils.validate_path (w_fs w0) target_path with
      | inl e => (uncaught e, w0)
      | inr (false, err) =>
          ({| out_stdout := []; out_stderr := err; out_exit := 1 |}, w0)
      | inr (true, err) =>
          let renamer := make_renamer args in
          match rename_files renamer target_path w0 with
          | (inr res, w') =>
              ({| out_stdout := summary (a_dry_run args) res;
                  out_stderr := err;
                  out_exit := if errors res =? 0 then 0 else 1 |}, w')
          | (inl e, w') =>
              ({| out_stdout := [];
                  out_stderr := (err ++ [ErrOccurred e])%list;
                  out_exit := 1 |}, w')
          end
      end
  end.

End Main.
End XRename.

(** ** A fragment of [str.format]

    [format_fragment] follows the scanning of a format string by CPython:
    literal text, the escapes ["{{"] and ["}}"], and replacement fields
    [{name}] and [{name:spec}], looked up among the keyword arguments
    [index], [original], [total] (there are no positional arguments).
    It answers [None] where the pattern leaves the fragment: attribute and
    item access, conversions ([!r]), nested fields, and format
    specifications other than [[0][width][d]] on an integer and the empty
    one on a string. *)

Module PyFormat.

Inductive value : Type :=
| VInt (n : Z)
| VStr (s : string).

Definition is_digit (c : ascii) : bool :=
  let n := nat_of_ascii c in (Nat.leb 48 n && Nat.leb n 57)%bool.

Fixpoint all_digits (s : string) : bool :=
  match s with
  | EmptyString => true
  | String c s' => (is_digit c && all_digits s')%bool
  end.

(** The object a field name denotes.  An empty name or a number asks for a
    positional argument, and there is none; a name is looked up among the
    keyword arguments. *)
Definition get_field
    (name : string) (index : Z) (original : string) (total : Z)
    : option (exn + value) :=
  if (PyStr.contains "." name || PyStr.contains "[" name
      || PyStr.contains "!" name)%bool then None
  else if all_digits name then
    if Nat.leb (String.length name) 18 then Some (inl IndexError) else None
  else if String.eqb name "index" then Some (inr (VInt index))
  else if String.eqb name "original" then Some (inr (VStr original))
  else if String.eqb name "total" then Some (inr (VInt total))
  else Some (inl KeyError).

(** Digits at the front of a text, and what follows them. *)
Fixpoint span_digits (s : string) : string * string :=
  match s with
  | String c s' =>
      if is_digit c then
        let (d, r) := span_digits s' in (String c d, r)
      else (EmptyString, s)
  | EmptyString => (EmptyString, EmptyString)
  end.

(** [format(n, spec)] for [spec] of the shape [[0][width][d]]. *)
Definition format_int (spec : string) (n : Z) : option string :=
  let (zero, rest) :=
    match spec with
    | String "0" r => (true, r)
    | _ => (false, spec)
    end in
  let (w, rest') := span_digits rest in
  if negb (String.eqb rest' "" || String.eqb rest' "d")%bool then None
  else if Nat.ltb 4 (String.length w) then None
  else
    let width := Z.to_nat (PyInt.value w) in
    Some (if zero then PyInt.format_0d width n else PyInt.format_d width n).

Definition format_value (v : value) (spec : string) : option string :=
  match v with
  | VInt n => format_int spec n
  | VStr s => if String.eqb spec "" then Some s else None
  end.

(** The text between the braces of a field, cut at the first [":"]. *)
Fixpoint cut_colon (s : string) : string * string :=
  match s with
  | String c s' =>
      if Ascii.eqb c ":" then (EmptyString, s')
      else let (a, b) := cut_colon s' in (String c a, b)
  | EmptyString => (EmptyString, EmptyString)
  end.

Definition render_field
    (field : string) (index : Z) (original : string) (total : Z)
    : option (exn + string) :=
  let (name, spec) := cut_colon field in
  match get_field name index original total with
  | None => None
  | Some (inl e) => Some (inl e)
  | Some (inr v) =>
      match format_value v spec with
      | Some s => Some (inr s)
      | None => None
      end
  end.

Inductive mode : Type :=
| Literal                       (* in literal text *)
| AfterOpen                     (* just after a ["{"] *)
| AfterClose                    (* just after a ["}"] in literal text *)
| InField (field : string).     (* inside a field, with the text read so far *)

Fixpoint scan
    (index : Z) (original : string) (total : Z)
    (m : mode) (out : string) (s : string) : option fmt_result :=
  let field_end field rest :=
    match render_field field index original total with
    | None => None
    | Some (inl e) => Some (FmtRaise e)
    | Some (inr text) => scan index original total Literal (out ++ text) rest
    end in
  match s with
  | EmptyString =>
      match m with
      | Literal => Some (FmtOk out)
      | _ => Some (FmtRaise ValueError)
      end
  | String c rest =>
      match m with
      | Literal =>
          if Ascii.eqb c "{" then scan index original total AfterOpen out rest
          else if Ascii.eqb c "}" then
            scan index original total AfterClose out rest
          else scan index original total Literal (out ++ String c "") rest
      | AfterOpen =>
          if Ascii.eqb c "{" then
            scan index original total Literal (out ++ "{") rest
          else if Ascii.eqb c "}" then field_end "" rest
          else scan index original total (InField (String c "")) out rest
      | AfterClose =>
          if Ascii.eqb c "}" then
            scan index original total Literal (out ++ "}") rest
          else Some (FmtRaise ValueError)
      | InField field =>
          if Ascii.eqb c "}" then field_end field rest
          else if Ascii.eqb c "{" then None
          else
            scan index original total (InField (field ++ String c "")) out rest
      end
  end.

Definition format_fragment
    (pattern : string) (index : Z) (original : string) (total : Z)
    : option fmt_result :=
  scan index original total Literal "" pattern.

(** A total formatter: the fragment, completed by [rest] outside it. *)
Definition complete
    (rest : string -> Z -> string -> Z -> fmt_result)
    (pattern : string) (index : Z) (original : string) (total : Z)
    : fmt_result :=
  match format_fragment pattern index original total with
  | Some r => r
  | None => rest pattern index original total
  end.

End PyFormat.

(** ** A concrete host

    A file system given by the list of its entries, in the order in which
    a directory listing returns them, and the directories that cannot be
    written to.  There are no symbolic links and no [".."] entries.  The
    current directory (the empty path) and the roots always exist. *)

Module SimpleFS.

Inductive node : Type :=
| File (content : string)
| Dir.

Record t : Type := {
  nodes : list (path * node);
  readonly : list path
}.

Fixpoint find_node (l : list (path * node)) (p : path) : option node :=
  match l with
  | [] => None
  | (k, n) :: l' => if PyPath.eqb k p then Some n else find_node l' p
  end.

Definition lookup (fs : t) (p : path) : option node :=
  match p with
  | [] => Some Dir
  | [r] => if PyPath.is_root_part r then Some Dir else find_node (nodes fs) p
  | _ => find_node (nodes fs) p
  end.

Definition exists_ (fs : t) (p : path) : bool :=
  match lookup fs p with Some _ => true | None => false end.

Definition is_file (fs : t) (p : path) : bool :=
  match lookup fs p with Some (File _) => true | _ => false end.

Definition is_dir (fs : t) (p : path) : bool :=
  match lookup fs p with Some Dir => true | _ => false end.

(** [st_mode]: 0o040755 for a directory (0o040555 when it is read-only),
    0o100644 for a file, 0 for a missing path. *)
Definition mode (fs : t) (p : path) : Z :=
  match lookup fs p with
  | Some Dir => if existsb (PyPath.eqb p) (readonly fs) then 16749 else 16877
  | Some (File _) => 33188
  | None => 0
  end.

(** [p] is a proper prefix of [k], and what follows it. *)
Fixpoint strip_prefix (p k : path) : option path :=
  match p, k with
  | [], _ => Some k
  | a :: p', b :: k' => if String.eqb a b then strip_prefix p' k' else None
  | _ :: _, [] => None
  end.

Definition is_child (p k : path) : bool :=
  match strip_prefix p k with Some [_] => true | _ => false end.

Definition is_descendant (p k : path) : bool :=
  match strip_prefix p k with Some (_ :: _) => true | _ => false end.

Definition iterdir (fs : t) (p : path) : walk :=
  match lookup fs p with
  | Some Dir => inr (filter (is_child p) (map fst (nodes fs)))
  | Some (File _) => inl ([], NotADirectoryError)
  | None => inl ([], FileNotFoundError)
  end.

Definition rglob (fs : t) (p : path) : walk :=
  inr (filter (is_descendant p) (map fst (nodes fs))).

Definition move_key (src dst k : path) : path :=
  match strip_prefix src k with
  | Some rest => (dst ++ rest)%list
  | None => k
  end.

(** The key of an entry after the node [n] at [src] was moved to [dst]: a
    file changes its own entry, a directory takes its descendants along. *)
Definition new_key (n : node) (src dst k : path) : path :=
  match n with
  | File _ => if PyPath.eqb k src then dst else k
  | Dir => move_key src dst k
  end.

(** The entries after the node [n] at [src] was moved to [dst]; what was
    at [dst] is gone. *)
Definition moved_nodes (n : node) (src dst : path) (l : list (path * node))
    : list (path * node) :=
  map (fun kn => (new_key n src dst (fst kn), snd kn))
      (filter (fun kn => negb (PyPath.eqb (fst kn) dst)) l).

(** [os.rename(src, dst)]: an existing file at [dst] is replaced. *)
Definition rename (fs : t) (src dst : path) : exn + t :=
  let denied d := existsb (PyPath.eqb d) (readonly fs) in
  match lookup fs src with
  | None => inl FileNotFoundError
  | Some n =>
      let moved :=
        {| nodes := moved_nodes n src dst (nodes fs);
           readonly := readonly fs |} in
      if negb (is_dir fs (PyPath.parent dst)) then
        if is_file fs (PyPath.parent dst) then inl NotADirectoryError
        else inl FileNotFoundError
      else if PyPath.eqb src dst then inr fs
      else if (denied (PyPath.parent src) || denied (PyPath.parent dst))%bool
      then inl PermissionError
      else
        match n, lookup fs dst with
        | File _, Some Dir => inl IsADirectoryError
        | Dir, Some (File _) => inl NotADirectoryError
        | Dir, Some Dir =>
            if existsb (is_descendant dst) (map fst (nodes fs))
            then inl OSError else inr moved
        | Dir, None =>
            if is_descendant src dst then inl OSError else inr moved
        | File _, _ => inr moved
        end
  end.

(** [open(p, "a")], as [logging.FileHandler] does it: an existing file is
    opened as it is; a missing one is created, empty, when its directory
    exists and can be written to. *)
Definition open_log (fs : t) (p : path) : exn + t :=
  match lookup fs p with
  | Some (File _) => inr fs
  | Some Dir => inl IsADirectoryError
  | None =>
      if negb (is_dir fs (PyPath.parent p)) then
        if is_file fs (PyPath.parent p) then inl NotADirectoryError
        else inl FileNotFoundError
      else if existsb (PyPath.eqb (PyPath.parent p)) (readonly fs)
      then inl PermissionError
      else inr {| nodes := (nodes fs ++ [(p, File "")])%list;
                  readonly := readonly fs |}
  end.

End SimpleFS.

(** The concrete host: [SimpleFS], on which [stat] fails only for a
    missing path; the fragment of [str.format], completed by [rest]; and
    [PyStr.lower], which is [str.lower] on ASCII text. *)
Definition simple_host
    (rest : string -> Z -> string -> Z -> fmt_result) : Host :=
  {| FS := SimpleFS.t;
     fs_stat_error := fun _ _ => None;
     fs_exists := SimpleFS.exists_;
     fs_is_file := SimpleFS.is_file;
     fs_is_dir := SimpleFS.is_dir;
     fs_mode := SimpleFS.mode;
     fs_iterdir := SimpleFS.iterdir;
     fs_rglob := SimpleFS.rglob;
     fs_rename := SimpleFS.rename;
     fs_open_log := SimpleFS.open_log;
     str_format := PyFormat.complete rest;
     str_lower := PyStr.lower |}.

(** The same host, on which [stat] is denied (EACCES) for the paths of
    [guarded]. *)
Definition guarded_host
    (guarded : list path)
    (rest : string -> Z -> string -> Z -> fmt_result) : Host :=
  {| FS := SimpleFS.t;
     fs_stat_error := fun _ p =>
       if existsb (PyPath.eqb p) guarded then Some PermissionError else None;
     fs_exists := SimpleFS.exists_;
     fs_is_file := SimpleFS.is_file;
     fs_is_dir := SimpleFS.is_dir;
     fs_mode := SimpleFS.mode;
     fs_iterdir := SimpleFS.iterdir;
     fs_rglob := SimpleFS.rglob;
     fs_rename := SimpleFS.rename;
     fs_open_log := SimpleFS.open_log;
     str_format := PyFormat.complete rest;
     str_lower := PyStr.lower |}.

(** The world a run starts from: nothing logged, no call issued. *)
Definition initial_world {H : Host} (fs : FS) : world :=
  {| w_fs := fs; w_log := []; w_renames := [] |}.

(** The name that [_generate_new_name] returns, or the exception it lets
    out, without the log: used to state what the loop does. *)
Definition new_name_of {H : Host}
    (self : Renamer.FileRenamer) (original_name : string) (index total : Z)
    : exn + string :=
  let stem := PyPath.stem (PyPath.parse original_name) in
  let ext := PyPath.suffix (PyPath.parse original_name) in
  if PyStr.truthy (Renamer.pattern self) then
    match str_format (Renamer.pattern self) index stem total with
    | FmtOk new_name =>
        match Renamer.new_ext_set self with
        | Some e => inr (new_name ++ "." ++ e)
        | None => inr (new_name ++ ext)
        end
    | FmtRaise e =>
        if Renamer.is_key_or_value_error e
        then inr (Renamer.default_name self stem ext index total)
        else inl e
    end
  else inr (Renamer.default_name self stem ext index total).

(** [enumerate(files)], from [start] on. *)
Fixpoint enumerate_from (start : Z) (files : list path) : list (Z * path) :=
  match files with
  | [] => []
  | p :: rest => (start, p) :: enumerate_from (start + 1) rest
  end.

(** The pairs (file, generated name) of a run over [files]. *)
Definition name_mapping {H : Host}
    (self : Renamer.FileRenamer) (files : list path)
    : list (path * (exn + string)) :=
  map (fun ip => (snd ip,
                  new_name_of self (PyPath.name (snd ip)) (fst ip)
                              (Z.of_nat (length files))))
      (enumerate_from 0 files).

(** The test [new_path.exists()] returns and finds nothing. *)
Definition is_free {H : Host} (fs : FS) (p : path) : bool :=
  match fs_stat_error fs p with
  | Some _ => false
  | None => negb (fs_exists fs p)
  end.

(** The path that the file at a position of the run is to be renamed to,
    when a name is generated for it. *)
Definition destination {H : Host}
    (self : Renamer.FileRenamer) (total : Z) (ip : Z * path) : option path :=
  match new_name_of self (PyPath.name (snd ip)) (fst ip) total with
  | inr nm => Some (PyPath.join (PyPath.parent (snd ip)) nm)
  | inl _ => None
  end.

(** The rename that a run over the file system [fs] announces for the file
    at a position: the file and its new path when a name is generated, it
    differs from the current one, and the test of existence finds nothing
    under it in the parent directory; none otherwise. *)
Definition planned_move {H : Host}
    (self : Renamer.FileRenamer) (fs : FS) (total : Z) (ip : Z * path)
    : list (path * path) :=
  match new_name_of self (PyPath.name (snd ip)) (fst ip) total with
  | inr nm =>
      let dst := PyPath.join (PyPath.parent (snd ip)) nm in
      if (negb (String.eqb (PyPath.name (snd ip)) nm) && is_free fs dst)%bool
      then [(snd ip, dst)] else []
  | inl _ => []
  end.

(** The renames that a run over [files] announces on [fs], in the order of
    the run. *)
Definition planned_moves {H : Host}
    (self : Renamer.FileRenamer) (fs : FS) (files : list path)
    : list (path * path) :=
  flat_map (planned_move self fs (Z.of_nat (length files)))
           (enumerate_from 0 files).

(** Two paths that may be missing are the same path. *)
Definition same_path (a b : option path) : bool :=
  match a, b with
  | Some x, Some y => PyPath.eqb x y
  | _, _ => false
  end.

(** Two positions of a run clash: the files are the same path, or their
    destinations are, or the destination of one is the path of the
    other. *)
Definition clash {H : Host}
    (self : Renamer.FileRenamer) (total : Z) (ip ip' : Z * path) : bool :=
  (same_path (Some (snd ip')) (Some (snd ip))
   || same_path (destination self total ip') (Some (snd ip))
   || same_path (Some (snd ip')) (destination self total ip)
   || same_path (destination self total ip') (destination self total ip))%bool.

Fixpoint clash_free {H : Host}
    (self : Renamer.FileRenamer) (total : Z) (ips : list (Z * path)) : bool :=
  match ips with
  | [] => true
  | ip :: rest =>
      (forallb (fun ip' => negb (clash self total ip ip')) rest
       && clash_free self total rest)%bool
  end.

(** No two candidates of a run over [files] clash. *)
Definition collision_free {H : Host}
    (self : Renamer.FileRenamer) (files : list path) : bool :=
  clash_free self (Z.of_nat (length files)) (enumerate_from 0 files).

(** A host on which renaming a regular file changes nothing at the other
    paths: what is neither the source nor the destination is tested as
    before. *)
Definition rename_frame_law (H : Host) : Prop :=
  forall (fs fs' : FS) (src dst q : path),
    fs_is_file fs src = true ->
    fs_rename fs src dst = inr fs' ->
    q <> src -> q <> dst ->
    fs_stat_error fs' q = fs_stat_error fs q
    /\ fs_exists fs' q = fs_exists fs q
    /\ fs_is_file fs' q = fs_is_file fs q.

(** The sum of the three counters. *)
Definition count_sum (c : Renamer.counters) : Z :=
  Renamer.c_renamed c + Renamer.c_skipped c + Renamer.c_errors c.

(** The listing call that [rename_files] makes. *)
Definition listing {H : Host}
    (self : Renamer.FileRenamer) (fs : FS) (target : path) : walk :=
  if Renamer.recursive self then fs_rglob fs target else fs_iterdir fs target.

(** The exception that the comprehension of [rename_files] lets out over
    a walk: that of the first [is_file] that raises on a yielded entry,
    else that of the walk itself. *)
Definition walk_error {H : Host} (fs : FS) (walked : walk) : option exn :=
  match walked with
  | inl (yielded, e) =>
      match Renamer.first_stat_error fs yielded with
      | Some e' => Some e'
      | None => Some e
      end
  | inr entries => Renamer.first_stat_error fs entries
  end.

Definition zero_counters : Renamer.counters :=
  {| Renamer.c_renamed := 0; Renamer.c_skipped := 0; Renamer.c_errors := 0 |}.

Definition logged {H : Host} (l : level) (msg : message) (w : world) : world :=
  {| w_fs := w_fs w; w_log := (l, msg) :: w_log w; w_renames := w_renames w |}.

(** A [Path.rename] call is safe when nothing existed at its destination
    on the file system it was issued on. *)
Definition safe_call {H : Host} (call : rename_call) : Prop :=
  fs_exists (rc_fs call) (rc_dst call) = false.

(** The state after a [Path.rename] call that succeeded with [fs'], and
    after one that failed. *)
Definition renamed_world {H : Host}
    (w : world) (src dst : path) (fs' : FS) (msg : message) : world :=
  {| w_fs := fs';
     w_log := (INFO, msg) :: w_log w;
     w_renames := {| rc_fs := w_fs w; rc_src := src; rc_dst := dst |}
                  :: w_renames w |}.

Definition failed_world {H : Host}
    (w : world) (src dst : path) (msg : message) : world :=
  {| w_fs := w_fs w;
     w_log := (ERROR, msg) :: w_log w;
     w_renames := {| rc_fs := w_fs w; rc_src := src; rc_dst := dst |}
                  :: w_renames w |}.

(** The same options with another value of [dry_run]. *)
Definition with_dry_run (b : bool) (self : Renamer.FileRenamer)
    : Renamer.FileRenamer :=
  {| Renamer.prefix := Renamer.prefix self;
     Renamer.suffix := Renamer.suffix self;
     Renamer.add_number := Renamer.add_number self;
     Renamer.new_ext := Renamer.new_ext self;
     Renamer.pattern := Renamer.pattern self;
     Renamer.recursive := Renamer.recursive self;
     Renamer.filter_ext := Renamer.filter_ext self;
     Renamer.dry_run := b |}.

(** A rename call that carries out one pair of the name mapping. *)
Definition call_of_mapping
    (mapping : list (path * (exn + string))) {H : Host} (call : rename_call)
    : Prop :=
  exists nm,
    In (rc_src call, inr nm) mapping
    /\ rc_dst call = PyPath.join (PyPath.parent (rc_src call)) nm.

(** The pairs (file, generated name) of a loop over [files] from position
    [index] on, for a given total. *)
Definition mapping_from {H : Host}
    (self : Renamer.FileRenamer) (total index : Z) (files : list path)
    : list (path * (exn + string)) :=
  map (fun ip => (snd ip, new_name_of self (PyPath.name (snd ip)) (fst ip) total))
      (enumerate_from index files).

(** ** Concrete directories and options used in the examples *)

Module Examples.

(** A completion of the fragment of [str.format], for closed examples;
    none of them leaves the fragment. *)
Definition no_rest : string -> Z -> string -> Z -> fmt_result :=
  fun _ _ _ _ => FmtRaise ValueError.

(** The host of the closed examples. *)
Definition host : Host := simple_host no_rest.

(** A directory [docs] holding [x.txt] and [y.txt]; the listing returns
    [y.txt] first. *)
Definition fs_xy : SimpleFS.t :=
  {| SimpleFS.nodes :=
       [ (["docs"], SimpleFS.Dir);
         (["docs"; "y.txt"], SimpleFS.File "content of y");
         (["docs"; "x.txt"], SimpleFS.File "content of x") ];
     SimpleFS.readonly := [] |}.

(** The same directory after the two files received the prefix ["N_"]. *)
Definition fs_xy_renamed : SimpleFS.t :=
  {| SimpleFS.nodes :=
       [ (["docs"], SimpleFS.Dir);
         (["docs"; "N_y.txt"], SimpleFS.File "content of y");
         (["docs"; "N_x.txt"], SimpleFS.File "content of x") ];
     SimpleFS.readonly := [] |}.

(** [FileRenamer(prefix="N_", dry_run=True)] *)
Definition prefix_dry : Renamer.FileRenamer :=
  Renamer.__init__ (H := host) "N_" "" false "" "" false None true.

(** [FileRenamer(prefix="N_")] *)
Definition prefix_real : Renamer.FileRenamer :=
  Renamer.__init__ (H := host) "N_" "" false "" "" false None false.

(** Three entries of a directory, as a listing may return them. *)
Definition unsorted_entries : list path :=
  [ ["docs"; "file2.txt"]; ["docs"; "sub"; "a.txt"]; ["docs"; "file10.txt"];
    ["docs"; "File3.txt"] ].

(** [FileRenamer(add_number=True)] *)
Definition numbered : Renamer.FileRenamer :=
  Renamer.__init__ (H := host) "" "" true "" "" false None false.

(** [FileRenamer(prefix="P_", suffix="_s", add_number=True,
    new_ext=".JPG")] *)
Definition full_rule : Renamer.FileRenamer :=
  Renamer.__init__ (H := host) "P_" "_s" true ".JPG" "" false None false.

(** [FileRenamer(add_number=True, new_ext=".")]: the new extension is
    empty once normalised. *)
Definition ext_dot : Renamer.FileRenamer :=
  Renamer.__init__ (H := host) "" "" true "." "" false None false.

(** [FileRenamer(prefix="a")] *)
Definition prefix_a : Renamer.FileRenamer :=
  Renamer.__init__ (H := host) "a" "" false "" "" false None false.

(** The indices of a run over five files, and over fifteen. *)
Definition indices_5 : list Z := [0; 1; 2; 3; 4].
Definition indices_15 : list Z :=
  [0; 1; 2; 3; 4; 5; 6; 7; 8; 9; 10; 11; 12; 13; 14].

(** A directory holding a.jpg, b.txt, c.PNG, the file d without
    extension, .gitignore, and a subdirectory. *)
Definition fs_mixed : SimpleFS.t :=
  {| SimpleFS.nodes :=
       [ (["pics"], SimpleFS.Dir);
         (["pics"; "d"], SimpleFS.File "4");
         (["pics"; "c.PNG"], SimpleFS.File "3");
         (["pics"; "b.txt"], SimpleFS.File "2");
         (["pics"; "a.jpg"], SimpleFS.File "1");
         (["pics"; ".gitignore"], SimpleFS.File "5");
         (["pics"; "old.jpg"], SimpleFS.Dir) ];
     SimpleFS.readonly := [] |}.

(** [FileRenamer(filter_ext=["jpg", "png"], dry_run=True)] *)
Definition only_images : Renamer.FileRenamer :=
  Renamer.__init__ (H := host) "" "" false "" "" false
    (Some ["jpg"; "png"]) true.

(** [FileRenamer(filter_ext=["."])], as built for [--filter "."]. *)
Definition filter_dot : Renamer.FileRenamer :=
  Renamer.__init__ (H := host) "" "" false "" "" false (Some ["."]) false.

(** The directory [docs] of [fs_xy], without write permission. *)
Definition fs_locked : SimpleFS.t :=
  {| SimpleFS.nodes := SimpleFS.nodes fs_xy;
     SimpleFS.readonly := [ ["docs"] ] |}.

(** [FileRenamer(pattern="file_{}")]: a field without a name. *)
Definition pattern_positional : Renamer.FileRenamer :=
  Renamer.__init__ (H := host) "" "" false "" "file_{}" false None false.

(** [FileRenamer(pattern="file_{nope}")]: a field with an unknown name. *)
Definition pattern_unknown : Renamer.FileRenamer :=
  Renamer.__init__ (H := host) "" "" false "" "file_{nope}" false None false.

(** [xrename.py docs --dry-run] *)
Definition args_preview : XRename.Args :=
  {| XRename.a_path := "docs";
     XRename.a_prefix := "";
     XRename.a_suffix := "";
     XRename.a_number := false;
     XRename.a_ext := "";
     XRename.a_pattern := "";
     XRename.a_recursive := false;
     XRename.a_dry_run := true;
     XRename.a_filter := "";
     XRename.a_log := "" |}.

(** [xrename.py docs --prefix N_] *)
Definition args_prefix : XRename.Args :=
  {| XRename.a_path := "docs";
     XRename.a_prefix := "N_";
     XRename.a_suffix := "";
     XRename.a_number := false;
     XRename.a_ext := "";
     XRename.a_pattern := "";
     XRename.a_recursive := false;
     XRename.a_dry_run := false;
     XRename.a_filter := "";
     XRename.a_log := "" |}.

(** A directory in which the name that x.txt would get is taken. *)
Definition fs_collision : SimpleFS.t :=
  {| SimpleFS.nodes :=
       [ (["docs"], SimpleFS.Dir);
         (["docs"; "x.txt"], SimpleFS.File "content of x");
         (["docs"; "N_x.txt"], SimpleFS.File "already here") ];
     SimpleFS.readonly := [] |}.

(** The worlds that the closed examples start from. *)
Definition w_xy : @world host := @initial_world host fs_xy.
Definition w_collision : @world host := @initial_world host fs_collision.

End Examples.

(** The order in which [files.sort()] arranges paths. *)
Definition path_le (p q : path) : Prop := PyPath.leb p q = true.

(** ** Shapes of text, used to state what [sanitize_filename] returns

    Whitespace here is that of the ASCII range ([PyStr.is_space]). *)

(** The text does not begin with a whitespace character. *)
Definition starts_with_word (s : string) : bool :=
  match s with
  | String c _ => negb (PyStr.is_space c)
  | EmptyString => false
  end.

(** Every whitespace character of the text is a space that stands between
    two characters that are not whitespace; [prev] tells whether the
    character before the text is such a character. *)
Fixpoint single_spaced (prev : bool) (s : string) : bool :=
  match s with
  | EmptyString => true
  | String c s' =>
      if PyStr.is_space c then
        (Ascii.eqb c " " && prev && starts_with_word s'
         && single_spaced false s')%bool
      else single_spaced true s'
  end.

(** No character of the text is whitespace. *)
Fixpoint space_free (s : string) : bool :=
  match s with
  | EmptyString => true
  | String c s' => (negb (PyStr.is_space c) && space_free s')%bool
  end.

(** The text is ASCII: every character code is below 128. *)
Fixpoint is_ascii_text (s : string) : bool :=
  match s with
  | EmptyString => true
  | String c s' => (Nat.ltb (nat_of_ascii c) 128 && is_ascii_text s')%bool
  end.

(** ** Notions used to state properties of runs *)

(** A name as a directory listing gives it: not empty, not the single dot,
    without a slash. *)
Definition is_plain_name (nm : string) : bool :=
  (negb (String.eqb nm "") && negb (String.eqb nm ".")
   && negb (PyStr.contains "/" nm))%bool.

(** [l1] is [l2] with some elements left out, the order kept. *)
Inductive subsequence {A : Type} : list A -> list A -> Prop :=
| subsequence_nil : subsequence [] []
| subsequence_skip x l1 l2 : subsequence l1 l2 -> subsequence l1 (x :: l2)
| subsequence_take x l1 l2 :
    subsequence l1 l2 -> subsequence (x :: l1) (x :: l2).

(** The sources of the rename calls of a trace, earliest first. *)
Definition renamed_sources {H : Host} (calls : list rename_call) : list path :=
  rev (map rc_src calls).

(** A renamer that asks for no change of name. *)
Definition no_option (self : Renamer.FileRenamer) : Prop :=
  Renamer.prefix self = "" /\ Renamer.suffix self = ""
  /\ Renamer.add_number self = false /\ Renamer.new_ext_set self = None
  /\ Renamer.pattern self = "".

(** Name generation raises for the file at a position of the run. *)
Definition generation_raises {H : Host}
    (self : Renamer.FileRenamer) (total : Z) (ip : Z * path) : bool :=
  match new_name_of self (PyPath.name (snd ip)) (fst ip) total with
  | inl _ => true
  | inr _ => false
  end.

(** The source and the destination of a recorded [Path.rename] call. *)
Definition call_pair {H : Host} (call : rename_call) : path * path :=
  (rc_src call, rc_dst call).

(** A recorded [Path.rename] call succeeded on the file system it was
    issued on. *)
Definition call_succeeded {H : Host} (call : rename_call) : bool :=
  match fs_rename (rc_fs call) (rc_src call) (rc_dst call) with
  | inr _ => true
  | inl _ => false
  end.

(** The same options with other values of [prefix], [suffix] and
    [add_number]. *)
Definition with_default_rule
    (pre suf : string) (num : bool) (self : Renamer.FileRenamer)
    : Renamer.FileRenamer :=
  {| Renamer.prefix := pre;
     Renamer.suffix := suf;
     Renamer.add_number := num;
     Renamer.new_ext := Renamer.new_ext self;
     Renamer.pattern := Renamer.pattern self;
     Renamer.recursive := Renamer.recursive self;
     Renamer.filter_ext := Renamer.filter_ext self;
     Renamer.dry_run := Renamer.dry_run self |}.

(** ** More concrete options and arguments *)

Module Cases.

(** [FileRenamer()] *)
Definition no_options : Renamer.FileRenamer :=
  Renamer.__init__ (H := Examples.host) "" "" false "" "" false None false.

(** [FileRenamer(new_ext=".JPG")] *)
Definition to_jpg : Renamer.FileRenamer :=
  Renamer.__init__ (H := Examples.host) "" "" false ".JPG" "" false None false.

(** [xrename.py docs --filter .jpg,PNG] *)
Definition args_filter : XRename.Args :=
  {| XRename.a_path := "docs";
     XRename.a_prefix := "";
     XRename.a_suffix := "";
     XRename.a_number := false;
     XRename.a_ext := "";
     XRename.a_pattern := "";
     XRename.a_recursive := false;
     XRename.a_dry_run := false;
     XRename.a_filter := ".jpg,PNG";
     XRename.a_log := "" |}.

(** [xrename.py nowhere] *)
Definition args_missing : XRename.Args :=
  {| XRename.a_path := "nowhere";
     XRename.a_prefix := "";
     XRename.a_suffix := "";
     XRename.a_number := false;
     XRename.a_ext := "";
     XRename.a_pattern := "";
     XRename.a_recursive := false;
     XRename.a_dry_run := false;
     XRename.a_filter := "";
     XRename.a_log := "" |}.

(** [xrename.py docs --dry-run --log docs/run.log] *)
Definition args_dry_log : XRename.Args :=
  {| XRename.a_path := "docs";
     XRename.a_prefix := "";
     XRename.a_suffix := "";
     XRename.a_number := false;
     XRename.a_ext := "";
     XRename.a_pattern := "";
     XRename.a_recursive := false;
     XRename.a_dry_run := true;
     XRename.a_filter := "";
     XRename.a_log := "docs/run.log" |}.

(** [xrename.py docs --prefix N_ --log nodir/run.log] *)
Definition args_log_nowhere : XRename.Args :=
  {| XRename.a_path := "docs";
     XRename.a_prefix := "N_";
     XRename.a_suffix := "";
     XRename.a_number := false;
     XRename.a_ext := "";
     XRename.a_pattern := "";
     XRename.a_recursive := false;
     XRename.a_dry_run := false;
     XRename.a_filter := "";
     XRename.a_log := "nodir/run.log" |}.

(** A host on which the test of docs/x.txt is denied. *)
Definition guard_x : Host :=
  guarded_host [ ["docs"; "x.txt"] ] Examples.no_rest.

(** The entries of [docs] in [Examples.fs_xy], as listed. *)
Definition entries_xy : list path :=
  [ ["docs"; "y.txt"]; ["docs"; "x.txt"] ].

End Cases.

(** * Theorems *)

Import Renamer.

Ltac run :=
  unfold _rename_file, loop_body, _generate_new_name, new_name_of,
    try_except, bind, ret, raise, logger, read_fs, path_test, path_rename
    in *; simpl in *.

Ltac split_matches :=
  repeat match goal with
    | |- context [match ?x with _ => _ end] => destruct x eqn:?; simpl
    | |- context [if ?x then _ else _] => destruct x eqn:?; simpl
    end.

(** ** The library models on small inputs *)

Example str_examples :
  PyInt.str 42 = "42" /\ PyInt.str 0 = "0" /\ PyInt.str (-7) = "-7"
  /\ PyInt.len_str 15 = 2%nat /\ PyInt.len_str 1 = 1%nat.
Proof. repeat split. Qed.

Example format_examples :
  PyInt.format_0d 3 7 = "007" /\ PyInt.format_0d 3 (-7) = "-07"
  /\ PyInt.format_0d 1 12 = "12" /\ PyInt.format_d 4 12 = "  12".
Proof. repeat split. Qed.

Example split_examples :
  PyStr.split "," ".jpg,.png," = [".jpg"; ".png"; ""]
  /\ PyStr.split "," "" = [""].
Proof. repeat split. Qed.

Example lower_examples :
  PyStr.lower ".PNG" = ".png" /\ PyStr.lstrip "." "..JpG" = "JpG"
  /\ normalize_ext (H := Examples.host) ".JPG" = "jpg"
  /\ normalize_ext (H := Examples.host) "." = "".
Proof. repeat split. Qed.

Example parse_examples :
  PyPath.parse "/a//b/./c/" = ["/"; "a"; "b"; "c"]
  /\ PyPath.parse "//a" = ["//"; "a"]
  /\ PyPath.parse "docs/../x" = ["docs"; ".."; "x"]
  /\ PyPath.parse "." = []
  /\ PyPath.join ["docs"] "sub/x.txt" = ["docs"; "sub"; "x.txt"]
  /\ PyPath.join ["docs"] "/tmp/x" = ["/"; "tmp"; "x"].
Proof. repeat split. Qed.

Example suffix_examples :
  PyPath.suffix_of_name "a.tar.gz" = ".gz"
  /\ PyPath.stem_of_name "a.tar.gz" = "a.tar"
  /\ PyPath.suffix_of_name ".gitignore" = ""
  /\ PyPath.suffix_of_name "notes." = ""
  /\ PyPath.suffix_of_name "README" = "".
Proof. repeat split. Qed.

Example format_fragment_examples :
  PyFormat.format_fragment "file_{index:03d}_{original}" 4 "abc" 10
    = Some (FmtOk "file_004_abc")
  /\ PyFormat.format_fragment "{{{total}}}" 4 "abc" 10 = Some (FmtOk "{10}")
  /\ PyFormat.format_fragment "file_{0}" 4 "abc" 10 = Some (FmtRaise IndexError)
  /\ PyFormat.format_fragment "file_{name}" 4 "abc" 10
     = Some (FmtRaise KeyError)
  /\ PyFormat.format_fragment "file_{index" 4 "abc" 10
     = Some (FmtRaise ValueError)
  /\ PyFormat.format_fragment "file_}" 4 "abc" 10 = Some (FmtRaise ValueError)
  /\ PyFormat.format_fragment "{index!r}" 4 "abc" 10 = None
  /\ PyFormat.format_fragment "{original.upper}" 4 "abc" 10 = None.
Proof. repeat split. Qed.

Section Generic.
Context {H : Host}.

(** [_generate_new_name] answers [new_name_of] and touches only the log. *)
Lemma generate_new_name_result self nm index tot w :
  exists w',
    _generate_new_name self nm index tot w = (new_name_of self nm index tot, w')
    /\ w_fs w' = w_fs w /\ w_renames w' = w_renames w.
Proof.
  run. split_matches; eexists; repeat split; reflexivity.
Qed.

(** [_rename_file], case by case. *)
Lemma rename_file_cases self p nm w :
  _rename_file self p nm w =
  let dst := PyPath.join (PyPath.parent p) nm in
  if String.eqb (PyPath.name p) nm then
    (inr false, logged DEBUG (SkipSame (PyPath.name p)) w)
  else
    match fs_stat_error (w_fs w) dst with
    | Some e =>
        (inr false, logged ERROR (RenameFailed (PyPath.name p) e) w)
    | None =>
        if fs_exists (w_fs w) dst then
          (inr false, logged WARNING (SkipExists nm) w)
        else if dry_run self then
          (inr true, logged INFO (Preview (PyPath.name p) nm) w)
        else
          match fs_rename (w_fs w) p dst with
          | inr fs' =>
              (inr true,
               renamed_world w p dst fs' (Changed (PyPath.name p) nm))
          | inl e =>
              (inr false,
               failed_world w p dst (RenameFailed (PyPath.name p) e))
          end
    end.
Proof.
  run. unfold logged, renamed_world, failed_world.
  destruct (String.eqb (PyPath.name p) nm); cbn; [reflexivity |].
  destruct (fs_stat_error (w_fs w) _); cbn; [reflexivity |].
  destruct (fs_exists (w_fs w) _); cbn; [reflexivity |].
  destruct (dry_run self); cbn; [reflexivity |].
  destruct (fs_rename (w_fs w) p _); reflexivity.
Qed.

(** [_rename_file] never lets an exception out. *)
Lemma rename_file_returns self p nm w :
  exists b w', _rename_file self p nm w = (inr b, w').
Proof.
  rewrite rename_file_cases. cbn.
  split_matches; do 2 eexists; reflexivity.
Qed.

(** One iteration returns, and adds one to exactly one counter. *)
Lemma loop_body_one_bucket self tot index p c w :
  exists c' w',
    loop_body self tot index p c w = (inr c', w')
    /\ (c' = {| c_renamed := c_renamed c + 1; c_skipped := c_skipped c;
                c_errors := c_errors c |}
        \/ c' = {| c_renamed := c_renamed c; c_skipped := c_skipped c + 1;
                   c_errors := c_errors c |}
        \/ c' = {| c_renamed := c_renamed c; c_skipped := c_skipped c;
                   c_errors := c_errors c + 1 |}).
Proof.
  unfold loop_body, try_except, bind.
  destruct (generate_new_name_result self (PyPath.name p) index tot w)
    as (w1 & -> & _ & _).
  destruct (new_name_of self (PyPath.name p) index tot) as [e | nm].
  - do 2 eexists; split; [reflexivity |]. auto.
  - destruct (rename_file_returns self p nm w1) as (b & w2 & ->).
    destruct b; do 2 eexists; (split; [reflexivity |]); auto.
Qed.

Lemma loop_body_counts self tot index p c w :
  exists c' w',
    loop_body self tot index p c w = (inr c', w')
    /\ count_sum c' = count_sum c + 1.
Proof.
  destruct (loop_body_one_bucket self tot index p c w)
    as (c' & w' & E & Hc).
  exists c', w'. split; [exact E |].
  destruct Hc as [-> | [-> | ->]]; unfold count_sum; cbn; lia.
Qed.

Lemma loop_counts self tot files : forall index c w,
  exists c' w',
    loop self tot index files c w = (inr c', w')
    /\ count_sum c' = count_sum c + Z.of_nat (length files).
Proof.
  induction files as [| p rest IH]; intros index c w.
  - exists c, w. split; [reflexivity |]. simpl; lia.
  - cbn [loop]. unfold bind.
    destruct (loop_body_counts self tot index p c w) as (c1 & w1 & -> & E1).
    destruct (IH (index + 1) c1 w1) as (c2 & w2 & -> & E2).
    exists c2, w2. split; [reflexivity |].
    rewrite E2, E1. cbn [length]. lia.
Qed.

(** The loop never lets an exception out. *)
Lemma loop_returns self tot files index c w e w' :
  loop self tot index files c w <> (inl e, w').
Proof.
  destruct (loop_counts self tot files index c w) as (c' & w1 & -> & _).
  discriminate.
Qed.

(** [rename_files], step by step. *)
Lemma rename_files_unfold self target w :
  rename_files self target w =
  match fs_stat_error (w_fs w) target with
  | Some e => (inl e, w)
  | None =>
      if negb (fs_is_dir (w_fs w) target) then (inl ValueError, w)
      else
        match listing self (w_fs w) target with
        | inl (yielded, e) =>
            match first_stat_error (w_fs w) yielded with
            | Some e' => (inl e', w)
            | None => (inl e, w)
            end
        | inr entries =>
            match first_stat_error (w_fs w) entries with
            | Some e => (inl e, w)
            | None =>
                let files := collect self (w_fs w) entries in
                let tot := Z.of_nat (length files) in
                match loop self tot 0 files zero_counters
                           (logged INFO (TotalFiles tot) w) with
                | (inr c, w') =>
                    (inr {| total := tot; renamed := c_renamed c;
                            skipped := c_skipped c; errors := c_errors c |},
                     w')
                | (inl e, w') => (inl e, w')
                end
            end
        end
  end.
Proof.
  unfold rename_files, listing, select_files, path_test, bind, read_fs,
    raise, ret, logger, logged.
  destruct (fs_stat_error (w_fs w) target); [reflexivity |].
  destruct (fs_is_dir (w_fs w) target); cbn; [| reflexivity].
  destruct (recursive self); cbn.
  - destruct (fs_rglob (w_fs w) target) as [[yielded e] | entries]; cbn;
      destruct (first_stat_error (w_fs w) _); reflexivity.
  - destruct (fs_iterdir (w_fs w) target) as [[yielded e] | entries]; cbn;
      destruct (first_stat_error (w_fs w) _); reflexivity.
Qed.

(** What a run that returns went through. *)
Lemma rename_files_inr self target w res w' :
  rename_files self target w = (inr res, w') ->
  exists entries c,
    fs_stat_error (w_fs w) target = None
    /\ fs_is_dir (w_fs w) target = true
    /\ listing self (w_fs w) target = inr entries
    /\ first_stat_error (w_fs w) entries = None
    /\ loop self (Z.of_nat (length (collect self (w_fs w) entries))) 0
         (collect self (w_fs w) entries) zero_counters
         (logged INFO
            (TotalFiles (Z.of_nat (length (collect self (w_fs w) entries))))
            w)
       = (inr c, w')
    /\ res = {| total := Z.of_nat (length (collect self (w_fs w) entries));
                renamed := c_renamed c;
                skipped := c_skipped c;
                errors := c_errors c |}.
Proof.
  rewrite rename_files_unfold.
  destruct (fs_stat_error (w_fs w) target); [discriminate |].
  destruct (fs_is_dir (w_fs w) target); cbn [negb]; [| discriminate].
  destruct (listing self (w_fs w) target) as [[yielded e] | entries];
    [destruct (first_stat_error (w_fs w) yielded); discriminate |].
  destruct (first_stat_error (w_fs w) entries) eqn:Es; [discriminate |].
  cbn zeta.
  match goal with |- context [loop ?s ?t ?i ?f ?c ?w] =>
    destruct (loop s t i f c w) as [[e | c'] w1] eqn:E end;
    [discriminate |].
  intros [= <- <-]. exists entries, c'.
  repeat split; try reflexivity; assumption.
Qed.

(** The exception that the comprehension over a walk lets out: that of
    the first [is_file] that raises on a yielded entry, else that of the
    walk. *)
Lemma rename_files_inl self target w e w' :
  rename_files self target w = (inl e, w') ->
  w' = w
  /\ (fs_stat_error (w_fs w) target = Some e
      \/ (fs_stat_error (w_fs w) target = None
          /\ fs_is_dir (w_fs w) target = false /\ e = ValueError)
      \/ (fs_stat_error (w_fs w) target = None
          /\ fs_is_dir (w_fs w) target = true
          /\ walk_error (w_fs w) (listing self (w_fs w) target) = Some e)).
Proof.
  rewrite rename_files_unfold. unfold walk_error.
  destruct (fs_stat_error (w_fs w) target) as [e0 |].
  { intros [= <- <-]. auto. }
  destruct (fs_is_dir (w_fs w) target); cbn [negb].
  2: { intros [= <- <-]. split; [reflexivity |]. right; left. auto. }
  destruct (listing self (w_fs w) target) as [[yielded e0] | entries].
  { destruct (first_stat_error (w_fs w) yielded);
      intros [= <- <-]; split; [reflexivity | | reflexivity |];
      right; right; auto. }
  destruct (first_stat_error (w_fs w) entries) as [e0 |] eqn:Es.
  { intros [= <- <-]. split; [reflexivity |]. right; right. auto. }
  cbn zeta.
  match goal with |- context [loop ?s ?t ?i ?f ?c ?w] =>
    destruct (loop s t i f c w) as [[e1 | c'] w1] eqn:E end;
    [| discriminate].
  now apply loop_returns in E.
Qed.

(** The converse: in each of these cases the run raises. *)
Lemma rename_files_raises self target w e :
  fs_stat_error (w_fs w) target = Some e
  \/ (fs_stat_error (w_fs w) target = None
      /\ fs_is_dir (w_fs w) target = false /\ e = ValueError)
  \/ (fs_stat_error (w_fs w) target = None
      /\ fs_is_dir (w_fs w) target = true
      /\ walk_error (w_fs w) (listing self (w_fs w) target) = Some e) ->
  rename_files self target w = (inl e, w).
Proof.
  rewrite rename_files_unfold. unfold walk_error.
  intros [Hs | [(Hs & Hd & ->) | (Hs & Hd & Hw)]]; rewrite Hs;
    [reflexivity | now rewrite Hd |].
  rewrite Hd. cbn [negb].
  destruct (listing self (w_fs w) target) as [[yielded e0] | entries].
  - destruct (first_stat_error (w_fs w) yielded); now injection Hw as ->.
  - now rewrite Hw.
Qed.

(** [rename_files] completes as soon as the target is a directory that
    can be tested and listed, and whose entries can be tested. *)
Lemma rename_files_completes self target w entries :
  fs_stat_error (w_fs w) target = None ->
  fs_is_dir (w_fs w) target = true ->
  listing self (w_fs w) target = inr entries ->
  first_stat_error (w_fs w) entries = None ->
  exists res w', rename_files self target w = (inr res, w').
Proof.
  intros Hs Hd Hl He. rewrite rename_files_unfold, Hs, Hd, Hl, He. cbn.
  match goal with |- context [loop ?s ?t ?i ?f ?c ?w] =>
    destruct (loop_counts s t f i c w) as (c' & w' & -> & _) end.
  do 2 eexists; reflexivity.
Qed.

(** C2. Count invariant.  Each iteration of the loop returns and adds one
    to exactly one of the three counters; so for every completed run of
    [rename_files] the result satisfies
    total = renamed + skipped + errors, where total is the number of
    candidate files enumerated (the length of the sorted list of the
    listed entries that pass [_should_process_file]). *)
Theorem rename_files_count_invariant :
  (forall self tot index p c w,
      exists c' w',
        loop_body self tot index p c w = (inr c', w')
        /\ (c' = {| c_renamed := c_renamed c + 1; c_skipped := c_skipped c;
                    c_errors := c_errors c |}
            \/ c' = {| c_renamed := c_renamed c;
                       c_skipped := c_skipped c + 1;
                       c_errors := c_errors c |}
            \/ c' = {| c_renamed := c_renamed c; c_skipped := c_skipped c;
                       c_errors := c_errors c + 1 |}))
  /\ (forall self target w res w',
        rename_files self target w = (inr res, w') ->
        total res = renamed res + skipped res + errors res
        /\ exists entries,
             listing self (w_fs w) target = inr entries
             /\ total res
                = Z.of_nat (length (collect self (w_fs w) entries))).
Proof.
  split; [exact loop_body_one_bucket |].
  intros self target w res w' Hrun.
  destruct (rename_files_inr _ _ _ _ _ Hrun)
    as (entries & c & _ & _ & Hl & _ & Hloop & ->).
  match type of Hloop with loop ?s ?t ?i ?f ?c0 ?w0 = _ =>
    destruct (loop_counts s t f i c0 w0) as (c' & w1 & E & Hsum) end.
  rewrite E in Hloop. injection Hloop as <- <-. cbn. split.
  - unfold count_sum in Hsum. cbn in Hsum. lia.
  - exists entries. split; [exact Hl | reflexivity].
Qed.

(** What one call of [_rename_file] adds to the trace of rename calls. *)
Lemma rename_file_calls self p nm w b w' :
  _rename_file self p nm w = (inr b, w') ->
  exists calls,
    w_renames w' = (calls ++ w_renames w)%list
    /\ Forall safe_call calls
    /\ (dry_run self = true -> calls = [] /\ w_fs w' = w_fs w).
Proof.
  rewrite rename_file_cases. cbn.
  destruct (String.eqb (PyPath.name p) nm);
    [intros [= <- <-]; exists []; cbn; auto |].
  destruct (fs_stat_error (w_fs w) _);
    [intros [= <- <-]; exists []; cbn; auto |].
  destruct (fs_exists (w_fs w) _) eqn:Ex;
    [intros [= <- <-]; exists []; cbn; auto |].
  destruct (dry_run self);
    [intros [= <- <-]; exists []; cbn; auto |].
  destruct (fs_rename (w_fs w) p _); intros [= <- <-];
    (exists [{| rc_fs := w_fs w; rc_src := p;
                rc_dst := PyPath.join (PyPath.parent p) nm |}];
     cbn; split; [reflexivity |];
     split; [constructor; [exact Ex | constructor] | discriminate]).
Qed.

Lemma loop_body_calls self tot index p c w c' w' :
  loop_body self tot index p c w = (inr c', w') ->
  exists calls,
    w_renames w' = (calls ++ w_renames w)%list
    /\ Forall safe_call calls
    /\ (dry_run self = true -> calls = [] /\ w_fs w' = w_fs w).
Proof.
  unfold loop_body, try_except, bind.
  destruct (generate_new_name_result self (PyPath.name p) index tot w)
    as (w1 & -> & Hfs & Hcalls).
  destruct (new_name_of self (PyPath.name p) index tot) as [e | nm].
  - cbn. intros [= <- <-]. exists []. cbn. auto.
  - destruct (_rename_file self p nm w1) as [[e | b] w2] eqn:E.
    + destruct (rename_file_returns self p nm w1) as (b & w3 & E').
      congruence.
    + destruct (rename_file_calls _ _ _ _ _ _ E) as (calls & Hc & Hs & Hd).
      rewrite <- Hcalls, <- Hfs.
      destruct b; cbn; intros [= <- <-]; exists calls; auto.
Qed.

Lemma loop_calls self tot files : forall index c w c' w',
  loop self tot index files c w = (inr c', w') ->
  exists calls,
    w_renames w' = (calls ++ w_renames w)%list
    /\ Forall safe_call calls
    /\ (dry_run self = true -> calls = [] /\ w_fs w' = w_fs w).
Proof.
  induction files as [| p rest IH]; intros index c w c' w'.
  - cbn. intros [= <- <-]. exists []. cbn. auto.
  - cbn [loop]. unfold bind.
    destruct (loop_body self tot index p c w) as [[e | c1] w1] eqn:E1;
      [discriminate |].
    intros E2.
    destruct (loop_body_calls _ _ _ _ _ _ _ _ E1) as (k1 & Hc1 & Hs1 & Hd1).
    destruct (IH _ _ _ _ _ E2) as (k2 & Hc2 & Hs2 & Hd2).
    exists (k2 ++ k1)%list. repeat split.
    + rewrite Hc2, Hc1. apply app_assoc.
    + apply Forall_app; auto.
    + destruct (Hd1 H0), (Hd2 H0); subst; reflexivity.
    + destruct (Hd1 H0), (Hd2 H0); congruence.
Qed.


(** C1. No existing file is overwritten.  For every candidate file: if the
    generated name equals the file's current name, or something already
    exists at (parent, new name), then the iteration issues no rename
    call, leaves the file system as it is, and counts the file as skipped
    (the renamed and error counters do not move).  For every completed
    run: each [Path.rename] call was issued on a file system in which
    nothing existed at its destination. *)
Theorem rename_never_overwrites :
  (forall self tot index p c w nm,
      new_name_of self (PyPath.name p) index tot = inr nm ->
      PyPath.name p = nm
      \/ fs_exists (w_fs w) (PyPath.join (PyPath.parent p) nm) = true ->
      exists w',
        loop_body self tot index p c w =
          (inr {| c_renamed := c_renamed c;
                  c_skipped := c_skipped c + 1;
                  c_errors := c_errors c |}, w')
        /\ w_fs w' = w_fs w
        /\ w_renames w' = w_renames w)
  /\ (forall self target w res w',
        rename_files self target w = (inr res, w') ->
        exists calls,
          w_renames w' = (calls ++ w_renames w)%list
          /\ Forall safe_call calls).
Proof.
  split.
  - intros self tot index p c w nm Hgen Hguard.
    unfold loop_body, try_except, bind.
    destruct (generate_new_name_result self (PyPath.name p) index tot w)
      as (w1 & -> & Hfs & Hcalls).
    rewrite Hgen, rename_file_cases. cbn.
    destruct (String.eqb (PyPath.name p) nm) eqn:En.
    + eexists; split; [reflexivity |]. cbn. auto.
    + destruct (fs_stat_error (w_fs w1) _).
      * eexists; split; [reflexivity |]. cbn. auto.
      * destruct Hguard as [He | Hex].
        -- apply String.eqb_neq in En. contradiction.
        -- rewrite Hfs, Hex. eexists; split; [reflexivity |]. cbn. auto.
  - intros self target w res w' Hrun.
    destruct (rename_files_inr _ _ _ _ _ Hrun)
      as (entries & c & _ & _ & _ & _ & Hloop & _).
    destruct (loop_calls _ _ _ _ _ _ _ _ Hloop) as (calls & Hc & Hs & _).
    exists calls. auto.
Qed.

(** Every rename call of an iteration carries out the pair that the name
    mapping has for the file. *)
Lemma loop_body_mapping self tot index p c w c' w' :
  loop_body self tot index p c w = (inr c', w') ->
  exists calls,
    w_renames w' = (calls ++ w_renames w)%list
    /\ Forall (call_of_mapping
                 [(p, new_name_of self (PyPath.name p) index tot)]) calls.
Proof.
  unfold loop_body, try_except, bind.
  destruct (generate_new_name_result self (PyPath.name p) index tot w)
    as (w1 & -> & Hfs & Hcalls).
  destruct (new_name_of self (PyPath.name p) index tot) as [e | nm].
  - cbn. intros [= <- <-]. exists []. cbn. auto.
  - rewrite rename_file_cases. cbn. rewrite <- Hcalls.
    assert (Hone : forall fs0,
      Forall (call_of_mapping [(p, @inr exn string nm)])
        [{| rc_fs := fs0; rc_src := p;
            rc_dst := PyPath.join (PyPath.parent p) nm |}]).
    { intros fs0. constructor; [| constructor].
      exists nm. cbn. auto. }
    destruct (String.eqb (PyPath.name p) nm); cbn;
      [intros [= <- <-]; exists []; cbn; auto |].
    destruct (fs_stat_error (w_fs w1) _); cbn;
      [intros [= <- <-]; exists []; cbn; auto |].
    destruct (fs_exists (w_fs w1) _); cbn;
      [intros [= <- <-]; exists []; cbn; auto |].
    destruct (dry_run self); cbn;
      [intros [= <- <-]; exists []; cbn; auto |].
    destruct (fs_rename (w_fs w1) p _); cbn; intros [= <- <-];
      eexists; (split; [| apply (Hone (w_fs w1))]); reflexivity.
Qed.

Lemma call_of_mapping_incl m1 m2 call :
  incl m1 m2 -> call_of_mapping m1 call -> call_of_mapping m2 call.
Proof.
  intros Hi (nm & Hin & Hd). exists nm. split; [apply Hi, Hin | exact Hd].
Qed.

Lemma loop_mapping self tot files : forall index c w c' w',
  loop self tot index files c w = (inr c', w') ->
  exists calls,
    w_renames w' = (calls ++ w_renames w)%list
    /\ Forall (call_of_mapping (mapping_from self tot index files)) calls.
Proof.
  induction files as [| p rest IH]; intros index c w c' w'.
  - cbn. intros [= <- <-]. exists []. cbn. auto.
  - cbn [loop]. unfold bind.
    destruct (loop_body self tot index p c w) as [[e | c1] w1] eqn:E1;
      [discriminate |].
    intros E2.
    destruct (loop_body_mapping _ _ _ _ _ _ _ _ E1) as (k1 & Hc1 & Hm1).
    destruct (IH _ _ _ _ _ E2) as (k2 & Hc2 & Hm2).
    exists (k2 ++ k1)%list. split.
    + rewrite Hc2, Hc1. apply app_assoc.
    + apply Forall_app; split.
      * eapply Forall_impl; [| exact Hm2].
        intros call. apply call_of_mapping_incl.
        unfold mapping_from. cbn [enumerate_from map]. apply incl_tl, incl_refl.
      * eapply Forall_impl; [| exact Hm1].
        intros call. apply call_of_mapping_incl.
        unfold mapping_from. cbn [enumerate_from map fst snd].
        intros x [<- | []]. left. reflexivity.
Qed.

End Generic.

(** ** The order of paths and the sort *)

Section PathOrder.

Lemma ascii_compare_refl a : Ascii.compare a a = Eq.
Proof. unfold Ascii.compare. apply N.compare_refl. Qed.

Lemma ascii_compare_eq a b : Ascii.compare a b = Eq -> a = b.
Proof.
  unfold Ascii.compare. intros E. apply N.compare_eq in E.
  rewrite <- (ascii_N_embedding a), <- (ascii_N_embedding b). now f_equal.
Qed.

Lemma ascii_compare_lt_trans a b c :
  Ascii.compare a b = Lt -> Ascii.compare b c = Lt -> Ascii.compare a c = Lt.
Proof.
  unfold Ascii.compare. rewrite !N.compare_lt_iff. apply N.lt_trans.
Qed.

Lemma string_compare_refl s : String.compare s s = Eq.
Proof.
  induction s as [| a s IH]; cbn; [reflexivity |].
  now rewrite ascii_compare_refl.
Qed.

Lemma string_compare_lt_trans : forall s t u,
  String.compare s t = Lt -> String.compare t u = Lt -> String.compare s u = Lt.
Proof.
  induction s as [| a s IH]; intros [| b t] [| c u]; cbn;
    try easy.
  destruct (Ascii.compare a b) eqn:Eab; try easy;
    destruct (Ascii.compare b c) eqn:Ebc; try easy.
  - apply ascii_compare_eq in Eab, Ebc. subst. rewrite ascii_compare_refl.
    apply IH.
  - apply ascii_compare_eq in Eab. subst. now rewrite Ebc.
  - apply ascii_compare_eq in Ebc. subst. now rewrite Eab.
  - now rewrite (ascii_compare_lt_trans _ _ _ Eab Ebc).
Qed.

Lemma path_compare_refl p : PyPath.compare p p = Eq.
Proof.
  induction p as [| a p IH]; cbn; [reflexivity |].
  now rewrite string_compare_refl.
Qed.

Lemma path_compare_eq : forall p q, PyPath.compare p q = Eq -> p = q.
Proof.
  induction p as [| a p IH]; intros [| b q]; cbn; try easy.
  destruct (String.compare a b) eqn:E; try easy.
  apply String.compare_eq_iff in E. intros Hpq. f_equal; auto.
Qed.

Lemma path_compare_antisym : forall p q,
  PyPath.compare q p = CompOpp (PyPath.compare p q).
Proof.
  induction p as [| a p IH]; intros [| b q]; cbn; try easy.
  rewrite (String.compare_antisym b a).
  destruct (String.compare a b); cbn; auto.
Qed.

Lemma path_compare_lt_trans : forall p q r,
  PyPath.compare p q = Lt -> PyPath.compare q r = Lt -> PyPath.compare p r = Lt.
Proof.
  induction p as [| a p IH]; intros [| b q] [| c r]; cbn; try easy.
  destruct (String.compare a b) eqn:Eab; try easy;
    destruct (String.compare b c) eqn:Ebc; try easy.
  - apply String.compare_eq_iff in Eab, Ebc. subst.
    rewrite string_compare_refl. apply IH.
  - apply String.compare_eq_iff in Eab. subst. now rewrite Ebc.
  - apply String.compare_eq_iff in Ebc. subst. now rewrite Eab.
  - now rewrite (string_compare_lt_trans _ _ _ Eab Ebc).
Qed.

Lemma path_le_iff p q : path_le p q <-> PyPath.compare p q <> Gt.
Proof.
  unfold path_le, PyPath.leb, PyPath.ltb.
  rewrite (path_compare_antisym p q).
  destruct (PyPath.compare p q); cbn; split; congruence.
Qed.

Lemma path_le_refl p : path_le p p.
Proof. apply path_le_iff. now rewrite path_compare_refl. Qed.

Lemma path_le_antisym p q : path_le p q -> path_le q p -> p = q.
Proof.
  rewrite !path_le_iff, (path_compare_antisym p q).
  destruct (PyPath.compare p q) eqn:E; cbn; try congruence.
  intros _ _. now apply path_compare_eq.
Qed.

Lemma path_le_trans p q r : path_le p q -> path_le q r -> path_le p r.
Proof.
  rewrite !path_le_iff. intros Hpq Hqr Hpr.
  assert (Hrp : PyPath.compare r p = Lt)
    by (rewrite (path_compare_antisym p r), Hpr; reflexivity).
  destruct (PyPath.compare p q) eqn:Epq; [| | congruence].
  - apply path_compare_eq in Epq. subst q.
    rewrite (path_compare_antisym r p), Hrp in Hqr. now apply Hqr.
  - pose proof (path_compare_lt_trans _ _ _ Hrp Epq) as Hrq.
    rewrite (path_compare_antisym r q), Hrq in Hqr. now apply Hqr.
Qed.

Lemma path_le_total p q : path_le p q \/ path_le q p.
Proof.
  rewrite !path_le_iff, (path_compare_antisym p q).
  destruct (PyPath.compare p q); cbn; [left | left | right]; congruence.
Qed.

Lemma ltb_le p q : PyPath.ltb p q = true -> path_le p q.
Proof.
  unfold PyPath.ltb. intros E. apply path_le_iff.
  destruct (PyPath.compare p q); congruence.
Qed.

Lemma not_ltb_le p q : PyPath.ltb p q = false -> path_le q p.
Proof. unfold path_le, PyPath.leb. now intros ->. Qed.

Lemma insert_perm x l : Permutation (x :: l) (PyPath.insert x l).
Proof.
  induction l as [| y l IH]; cbn; [reflexivity |].
  destruct (PyPath.ltb x y); [reflexivity |].
  rewrite perm_swap. now constructor.
Qed.

Lemma sort_perm l : Permutation l (PyPath.sort l).
Proof.
  induction l as [| x l IH]; cbn; [constructor |].
  rewrite <- insert_perm. now constructor.
Qed.

Lemma insert_sorted x l :
  StronglySorted path_le l -> StronglySorted path_le (PyPath.insert x l).
Proof.
  induction 1 as [| y l Hs IH Hall]; cbn.
  - repeat constructor.
  - destruct (PyPath.ltb x y) eqn:E.
    + constructor; [now constructor |].
      constructor; [now apply ltb_le |].
      eapply Forall_impl; [| exact Hall].
      intros z Hz. eapply path_le_trans; [apply ltb_le, E | exact Hz].
    + constructor; [exact IH |].
      rewrite <- insert_perm. constructor; [now apply not_ltb_le | exact Hall].
Qed.

Lemma sort_sorted l : StronglySorted path_le (PyPath.sort l).
Proof.
  induction l as [| x l IH]; cbn; [constructor | now apply insert_sorted].
Qed.

(** A list has at most one sorted arrangement. *)
Lemma sorted_perm_unique : forall l1 l2,
  StronglySorted path_le l1 -> StronglySorted path_le l2 ->
  Permutation l1 l2 -> l1 = l2.
Proof.
  induction l1 as [| a l1 IH]; intros l2 S1 S2 P.
  - now apply Permutation_nil in P.
  - destruct l2 as [| b l2];
      [apply Permutation_sym, Permutation_nil in P; discriminate |].
    inversion S1 as [| ? ? S1' A1]; inversion S2 as [| ? ? S2' A2]; subst.
    assert (a = b) as ->.
    { apply path_le_antisym.
      - assert (Hin : In b (a :: l1))
          by (eapply Permutation_in; [apply Permutation_sym, P | now left]).
        destruct Hin as [-> | Hin]; [apply path_le_refl |].
        rewrite Forall_forall in A1. now apply A1.
      - assert (Hin : In a (b :: l2))
          by (eapply Permutation_in; [apply P | now left]).
        destruct Hin as [-> | Hin]; [apply path_le_refl |].
        rewrite Forall_forall in A2. now apply A2. }
    f_equal. apply IH; auto. eapply Permutation_cons_inv, P.
Qed.

Lemma sort_perm_invariant l1 l2 :
  Permutation l1 l2 -> PyPath.sort l1 = PyPath.sort l2.
Proof.
  intros P. apply sorted_perm_unique; try apply sort_sorted.
  rewrite <- !sort_perm. exact P.
Qed.

End PathOrder.

Lemma filter_perm {A} (f : A -> bool) l1 l2 :
  Permutation l1 l2 -> Permutation (filter f l1) (filter f l2).
Proof.
  induction 1 as [| x l l' _ IH | x y l | l l' l'' _ IH1 _ IH2]; cbn.
  - constructor.
  - destruct (f x); [now constructor | exact IH].
  - destruct (f x), (f y); try reflexivity. apply perm_swap.
  - now rewrite IH1.
Qed.

Lemma should_process_ext {H : Host} self fs1 fs2 p :
  fs_is_file fs1 p = fs_is_file fs2 p ->
  _should_process_file self fs1 p = _should_process_file self fs2 p.
Proof. unfold _should_process_file. now intros ->. Qed.

(** C7. The candidate list is sorted before any processing: [collect] (the
    list that the loop of [rename_files] walks) is in ascending order of
    paths, compared part by part and character by character, and holds
    exactly the entries that pass the filter.  The result does not depend
    on the order in which the directory listing returns the entries: two
    runs over an unchanged directory get the same list, so the same
    0-based index for each file and the same generated names.  The sort
    keeps entries that compare equal in their listing order. *)
Theorem candidates_sorted_deterministically :
  (forall (H : Host) self fs entries,
      StronglySorted path_le (collect self fs entries)
      /\ Permutation (filter (_should_process_file self fs) entries)
                     (collect self fs entries))
  /\ (forall (H : Host) self fs1 fs2 entries1 entries2,
        Permutation entries1 entries2 ->
        (forall p, In p entries1 -> fs_is_file fs1 p = fs_is_file fs2 p) ->
        collect self fs1 entries1 = collect self fs2 entries2
        /\ enumerate_from 0 (collect self fs1 entries1)
           = enumerate_from 0 (collect self fs2 entries2)
        /\ name_mapping self (collect self fs1 entries1)
           = name_mapping self (collect self fs2 entries2))
  /\ (forall p q l, PyPath.ltb p q = false ->
        PyPath.insert p (q :: l) = q :: PyPath.insert p l)
  /\ PyPath.sort Examples.unsorted_entries =
       [ ["docs"; "File3.txt"]; ["docs"; "file10.txt"]; ["docs"; "file2.txt"];
         ["docs"; "sub"; "a.txt"] ].
Proof.
  split; [| split; [| split]].
  - intros H self fs entries. unfold collect. split.
    + apply sort_sorted.
    + apply sort_perm.
  - intros H self fs1 fs2 entries1 entries2 P Hfile.
    assert (E : collect self fs1 entries1 = collect self fs2 entries2).
    { unfold collect. apply sort_perm_invariant.
      rewrite (filter_ext_in (_should_process_file self fs1)
                 (_should_process_file self fs2) entries1).
      - now apply filter_perm.
      - intros p Hp. apply should_process_ext, Hfile, Hp. }
    rewrite E. auto.
  - intros p q l E. cbn. now rewrite E.
  - reflexivity.
Qed.

(** ** Dry run *)

Section DryRun.
Context {H : Host}.

(** A candidate is a listed entry that passes [_should_process_file]. *)
Lemma collect_In self fs entries p :
  In p (collect self fs entries) ->
  In p entries /\ _should_process_file self fs p = true.
Proof.
  unfold collect. intros Hp. apply filter_In.
  eapply Permutation_in; [apply Permutation_sym, sort_perm | exact Hp].
Qed.

Lemma should_process_is_file self fs p :
  _should_process_file self fs p = true -> fs_is_file fs p = true.
Proof.
  unfold _should_process_file. now destruct (fs_is_file fs p).
Qed.

Lemma rename_files_dry_frame self target w r w' :
  dry_run self = true ->
  rename_files self target w = (r, w') ->
  w_fs w' = w_fs w /\ w_renames w' = w_renames w.
Proof.
  intros Hdry Hrun. destruct r as [e | res].
  - apply rename_files_inl in Hrun. destruct Hrun as (-> & _). auto.
  - destruct (rename_files_inr _ _ _ _ _ Hrun)
      as (entries & c & _ & _ & _ & _ & Hloop & _).
    destruct (loop_calls _ _ _ _ _ _ _ _ Hloop) as (calls & Hc & _ & Hd).
    destruct (Hd Hdry) as (-> & Hfs). cbn in *. auto.
Qed.

(** In a dry run, an iteration counts the file as renamed exactly when a
    rename is planned for it, and leaves the file system alone. *)
Lemma loop_body_dry self tot index p c w c' w' :
  dry_run self = true ->
  loop_body self tot index p c w = (inr c', w') ->
  c_renamed c' =
    c_renamed c
    + Z.of_nat (length (planned_move self (w_fs w) tot (index, p)))
  /\ w_fs w' = w_fs w.
Proof.
  intros Hdry. unfold loop_body, try_except, bind, planned_move, is_free.
  destruct (generate_new_name_result self (PyPath.name p) index tot w)
    as (w1 & -> & Hfs & _).
  cbn [fst snd].
  destruct (new_name_of self (PyPath.name p) index tot) as [e | nm].
  - cbn. intros [= <- <-]. cbn. split; [lia | assumption].
  - rewrite rename_file_cases, Hdry, Hfs. cbn.
    destruct (String.eqb (PyPath.name p) nm); cbn;
      [intros [= <- <-]; cbn; split; [lia | assumption] |].
    destruct (fs_stat_error (w_fs w) _); cbn;
      [intros [= <- <-]; cbn; split; [lia | assumption] |].
    destruct (fs_exists (w_fs w) _); cbn; intros [= <- <-]; cbn;
      (split; [lia | assumption]).
Qed.

Lemma loop_dry self tot files : forall index c w c' w',
  dry_run self = true ->
  loop self tot index files c w = (inr c', w') ->
  c_renamed c' =
    c_renamed c
    + Z.of_nat (length (flat_map (planned_move self (w_fs w) tot)
                                 (enumerate_from index files)))
  /\ w_fs w' = w_fs w.
Proof.
  induction files as [| p rest IH]; intros index c w c' w' Hdry.
  - cbn. intros [= <- <-]. split; [lia | reflexivity].
  - cbn [loop enumerate_from flat_map]. unfold bind.
    destruct (loop_body self tot index p c w) as [[e | c1] w1] eqn:E1;
      [discriminate |].
    intros E2.
    destruct (loop_body_dry _ _ _ _ _ _ _ _ Hdry E1) as (R1 & F1).
    destruct (IH _ _ _ _ _ Hdry E2) as (R2 & F2).
    rewrite F1 in R2. split; [| congruence].
    rewrite R2, R1, length_app. lia.
Qed.

(** What an iteration of a run without [dry_run] does: it issues the
    rename planned on the file system it meets, if there is one, and
    counts the file as renamed when that call succeeds. *)
Lemma loop_body_real self tot index p c w c' w' :
  dry_run self = false ->
  loop_body self tot index p c w = (inr c', w') ->
  exists calls,
    w_renames w' = (calls ++ w_renames w)%list
    /\ rev calls = calls
    /\ map call_pair calls = planned_move self (w_fs w) tot (index, p)
    /\ c_renamed c' =
         c_renamed c + Z.of_nat (length (filter call_succeeded calls))
    /\ (w_fs w' = w_fs w
        \/ exists d,
             destination self tot (index, p) = Some d
             /\ fs_rename (w_fs w) p d = inr (w_fs w')).
Proof.
  intros Hdry.
  unfold loop_body, try_except, bind, planned_move, destination, is_free.
  destruct (generate_new_name_result self (PyPath.name p) index tot w)
    as (w1 & -> & Hfs & Hcalls).
  cbn [fst snd].
  destruct (new_name_of self (PyPath.name p) index tot) as [e | nm].
  - cbn. intros [= <- <-]. exists []. cbn.
    repeat split; auto. lia.
  - rewrite rename_file_cases, Hdry, Hfs. cbn.
    destruct (String.eqb (PyPath.name p) nm); cbn;
      [intros [= <- <-]; exists []; cbn; repeat split; auto; lia |].
    destruct (fs_stat_error (w_fs w) _); cbn;
      [intros [= <- <-]; exists []; cbn; repeat split; auto; lia |].
    destruct (fs_exists (w_fs w) _); cbn;
      [intros [= <- <-]; exists []; cbn; repeat split; auto; lia |].
    destruct (fs_rename (w_fs w) p _) as [e | fs'] eqn:Er;
      intros [= <- <-];
      exists [{| rc_fs := w_fs w; rc_src := p;
                 rc_dst := PyPath.join (PyPath.parent p) nm |}];
      cbn; rewrite Hfs, Hcalls; unfold call_succeeded; cbn; rewrite Er; cbn.
    + repeat split; auto. lia.
    + repeat split; auto; try lia.
      right. eexists. split; [reflexivity | exact Er].
Qed.

(** A planned rename depends on the file system through the test of
    existence at the destination only. *)
Lemma planned_move_stable self fs fs0 tot ip :
  (forall d, destination self tot ip = Some d -> is_free fs d = is_free fs0 d) ->
  planned_move self fs tot ip = planned_move self fs0 tot ip.
Proof.
  unfold destination, planned_move. intros Hd.
  destruct (new_name_of self (PyPath.name (snd ip)) (fst ip) tot) as [e | nm];
    [reflexivity |].
  now rewrite (Hd _ eq_refl).
Qed.

Lemma eqb_path_refl p : PyPath.eqb p p = true.
Proof. unfold PyPath.eqb. now rewrite path_compare_refl. Qed.

Lemma eqb_path_eq p q : PyPath.eqb p q = true -> p = q.
Proof.
  unfold PyPath.eqb. destruct (PyPath.compare p q) eqn:E; try discriminate.
  intros _. now apply path_compare_eq.
Qed.

Lemma eqb_path_neq p q : p <> q -> PyPath.eqb p q = false.
Proof.
  intros Hne. destruct (PyPath.eqb p q) eqn:E; [| reflexivity].
  now apply eqb_path_eq in E.
Qed.

Lemma same_path_neq a b x :
  same_path a b = false -> a = Some x -> b = Some x -> False.
Proof.
  intros E -> ->. cbn in E. rewrite eqb_path_refl in E. discriminate.
Qed.

(** What two positions that do not clash exclude. *)
Lemma clash_false self tot ip ip' :
  clash self tot ip ip' = false ->
  snd ip' <> snd ip
  /\ destination self tot ip' <> Some (snd ip)
  /\ destination self tot ip <> Some (snd ip')
  /\ (forall d, destination self tot ip = Some d ->
                destination self tot ip' <> Some d).
Proof.
  unfold clash. intros Hc.
  apply orb_false_iff in Hc as (Hc & H4).
  apply orb_false_iff in Hc as (Hc & H3).
  apply orb_false_iff in Hc as (H1 & H2).
  repeat split.
  - intros E. apply (same_path_neq _ _ (snd ip) H1); [now rewrite E | easy].
  - intros E. apply (same_path_neq _ _ (snd ip) H2); easy.
  - intros E. apply (same_path_neq _ _ (snd ip') H3); easy.
  - intros d Hd E. apply (same_path_neq _ _ d H4); easy.
Qed.

(** Whether candidates clash does not depend on [dry_run]. *)
Lemma clash_free_with_dry_run b self tot ips :
  clash_free (with_dry_run b self) tot ips = clash_free self tot ips.
Proof.
  induction ips as [| ip rest IH]; [reflexivity |].
  cbn [clash_free]. now rewrite IH.
Qed.

(** A run without [dry_run] on a host that keeps the frame law, over
    candidates that do not clash: the calls issued are the renames planned
    on the file system [fs0], as long as the file system met agrees with
    [fs0] on the candidates still to come. *)
Lemma loop_real self tot fs0 files : forall index c w c' w',
  rename_frame_law H ->
  dry_run self = false ->
  clash_free self tot (enumerate_from index files) = true ->
  Forall (fun ip =>
            fs_is_file (w_fs w) (snd ip) = true
            /\ forall d, destination self tot ip = Some d ->
                         is_free (w_fs w) d = is_free fs0 d)
         (enumerate_from index files) ->
  loop self tot index files c w = (inr c', w') ->
  exists calls,
    w_renames w' = (calls ++ w_renames w)%list
    /\ map call_pair (rev calls)
       = flat_map (planned_move self fs0 tot) (enumerate_from index files)
    /\ c_renamed c' =
         c_renamed c + Z.of_nat (length (filter call_succeeded calls)).
Proof.
  induction files as [| p rest IH]; intros index c w c' w' Hlaw Hdry Hfree Hst.
  - cbn. intros [= <- <-]. exists []. cbn.
    split; [reflexivity |]. split; [reflexivity | lia].
  - cbn [loop enumerate_from flat_map clash_free] in *. unfold bind.
    destruct (loop_body self tot index p c w) as [[e | c1] w1] eqn:E1;
      [discriminate |].
    intros E2.
    apply andb_true_iff in Hfree as (Hhead & Hrest).
    inversion Hst as [| ? ? (Hfile & Hdest) Hst']; subst.
    cbn [snd] in Hfile.
    destruct (loop_body_real _ _ _ _ _ _ _ _ Hdry E1)
      as (k1 & Hc1 & Hrev1 & Hp1 & Hr1 & Hfs1).
    assert (Hst1 :
      Forall (fun ip =>
                fs_is_file (w_fs w1) (snd ip) = true
                /\ forall d, destination self tot ip = Some d ->
                             is_free (w_fs w1) d = is_free fs0 d)
             (enumerate_from (index + 1) rest)).
    { rewrite Forall_forall in Hst' |- *. intros ip' Hin.
      destruct (Hst' ip' Hin) as (Hf' & Hd').
      destruct Hfs1 as [-> | (d & Hd & Hren)]; [auto |].
      rewrite forallb_forall in Hhead. specialize (Hhead ip' Hin).
      apply negb_true_iff, clash_false in Hhead.
      destruct Hhead as (N1 & N2 & N3 & N4). cbn [snd] in N1, N2, N3.
      split.
      - destruct (Hlaw _ _ _ _ (snd ip') Hfile Hren) as (_ & _ & ->);
          [exact N1 | congruence | exact Hf'].
      - intros d' Hd''. rewrite <- (Hd' d' Hd''). unfold is_free.
        destruct (Hlaw _ _ _ _ d' Hfile Hren) as (-> & -> & _);
          [congruence | | reflexivity].
        intros ->. exact (N4 d Hd Hd''). }
    destruct (IH _ _ _ _ _ Hlaw Hdry Hrest Hst1 E2) as (k2 & Hc2 & Hp2 & Hr2).
    exists (k2 ++ k1)%list. split; [| split].
    + rewrite Hc2, Hc1. apply app_assoc.
    + rewrite rev_app_distr, map_app, Hp2, Hrev1, Hp1. f_equal.
      apply planned_move_stable. exact Hdest.
    + rewrite filter_app, length_app. lia.
Qed.

End DryRun.

(** On [SimpleFS], moving a file changes nothing at the other paths. *)
Lemma find_node_moved src dst q content l :
  q <> src -> q <> dst ->
  SimpleFS.find_node
    (SimpleFS.moved_nodes (SimpleFS.File content) src dst l) q
  = SimpleFS.find_node l q.
Proof.
  intros Hs Hd. unfold SimpleFS.moved_nodes.
  induction l as [| [k n] l IH]; [reflexivity |].
  cbn [filter fst snd]. destruct (PyPath.eqb k dst) eqn:Ekd; cbn [negb].
  - apply eqb_path_eq in Ekd. subst k.
    cbn [SimpleFS.find_node]. rewrite (eqb_path_neq dst q) by congruence.
    exact IH.
  - cbn [map fst snd SimpleFS.find_node SimpleFS.new_key].
    destruct (PyPath.eqb k src) eqn:Eks.
    + apply eqb_path_eq in Eks. subst k.
      rewrite (eqb_path_neq dst q), (eqb_path_neq src q) by congruence.
      exact IH.
    + destruct (PyPath.eqb k q); [reflexivity | exact IH].
Qed.

Lemma simple_host_rename_frame rest : rename_frame_law (simple_host rest).
Proof.
  intros fs fs' src dst q Hfile Hren Hs Hd. cbn in *.
  split; [reflexivity |].
  assert (Hl : SimpleFS.lookup fs' q = SimpleFS.lookup fs q).
  { unfold SimpleFS.rename in Hren. unfold SimpleFS.is_file in Hfile.
    destruct (SimpleFS.lookup fs src) as [[content |] |]; try discriminate.
    destruct (negb (SimpleFS.is_dir fs (PyPath.parent dst)));
      [destruct (SimpleFS.is_file fs (PyPath.parent dst)); discriminate |].
    destruct (PyPath.eqb src dst); [now injection Hren as <- |].
    destruct (existsb _ _ || existsb _ _)%bool; [discriminate |].
    assert (Hm : SimpleFS.lookup
                   {| SimpleFS.nodes :=
                        SimpleFS.moved_nodes (SimpleFS.File content) src dst
                          (SimpleFS.nodes fs);
                      SimpleFS.readonly := SimpleFS.readonly fs |} q
                 = SimpleFS.lookup fs q).
    { unfold SimpleFS.lookup. cbn [SimpleFS.nodes].
      rewrite find_node_moved by assumption. reflexivity. }
    destruct (SimpleFS.lookup fs dst) as [[c' |] |]; try discriminate;
      injection Hren as <-; exact Hm. }
  unfold SimpleFS.exists_, SimpleFS.is_file. now rewrite Hl.
Qed.

(** C6, as the code has it.  With [dry_run] set, [rename_files] issues no
    rename call and leaves the file system as it found it, whatever the
    outcome; its renamed counter is the number of renames planned on that
    file system (a name is generated, differs from the current one, and
    the test of existence finds nothing under it).  The rename calls of a
    run, with either value of [dry_run], rename a candidate to the name
    generated for it, and that name does not depend on [dry_run].  On a
    host where renaming a file changes nothing at the other paths, when no
    two candidates clash (same path, same destination, or the destination
    of one is the path of the other), a run without [dry_run] on the same
    directory issues exactly the renames that the dry run counted, in the
    same order, and its renamed counter is the number of those calls that
    succeeded.  On a directory holding x.txt and y.txt, with prefix "N_":
    the dry run reports renamed = 2, previews x.txt -> N_x.txt and
    y.txt -> N_y.txt, and leaves both files in place; the run without
    [dry_run] renames them to exactly these names. *)
Theorem dry_run_does_not_mutate :
  (forall (H : Host) self target w r w',
      dry_run self = true ->
      rename_files self target w = (r, w') ->
      w_fs w' = w_fs w /\ w_renames w' = w_renames w)
  /\ (forall (H : Host) self target w res w',
        dry_run self = true ->
        rename_files self target w = (inr res, w') ->
        exists entries,
          listing self (w_fs w) target = inr entries
          /\ renamed res =
               Z.of_nat (length (planned_moves self (w_fs w)
                                   (collect self (w_fs w) entries))))
  /\ (forall (H : Host) self b target w res w',
        rename_files (with_dry_run b self) target w = (inr res, w') ->
        exists entries calls,
          listing self (w_fs w) target = inr entries
          /\ w_renames w' = (calls ++ w_renames w)%list
          /\ Forall (call_of_mapping
                       (name_mapping self (collect self (w_fs w) entries)))
                    calls)
  /\ (forall (H : Host) self target w res_d w_d res_r w_r entries,
        rename_frame_law H ->
        rename_files (with_dry_run true self) target w = (inr res_d, w_d) ->
        rename_files (with_dry_run false self) target w = (inr res_r, w_r) ->
        listing self (w_fs w) target = inr entries ->
        collision_free self (collect self (w_fs w) entries) = true ->
        exists calls,
          w_renames w_r = (calls ++ w_renames w)%list
          /\ map call_pair (rev calls)
             = planned_moves self (w_fs w) (collect self (w_fs w) entries)
          /\ renamed res_d = Z.of_nat (length calls)
          /\ renamed res_r
             = Z.of_nat (length (filter call_succeeded calls))
          /\ total res_r = total res_d)
  /\ (forall rest,
        let H := simple_host rest in
        let dry := rename_files Examples.prefix_dry ["docs"]
                     (initial_world Examples.fs_xy) in
        let real := rename_files Examples.prefix_real ["docs"]
                      (initial_world Examples.fs_xy) in
        fst dry = inr {| total := 2; renamed := 2; skipped := 0; errors := 0 |}
        /\ w_fs (snd dry) = Examples.fs_xy
        /\ length (w_renames (snd dry)) = 0%nat
        /\ w_log (snd dry) =
             [ (INFO, Preview "y.txt" "N_y.txt");
               (INFO, Preview "x.txt" "N_x.txt");
               (INFO, TotalFiles 2) ]
        /\ fst real = inr {| total := 2; renamed := 2; skipped := 0; errors := 0 |}
        /\ w_fs (snd real) = Examples.fs_xy_renamed
        /\ w_log (snd real) =
             [ (INFO, Changed "y.txt" "N_y.txt");
               (INFO, Changed "x.txt" "N_x.txt");
               (INFO, TotalFiles 2) ]).
Proof.
  split; [| split; [| split; [| split]]].
  - intros H. apply rename_files_dry_frame.
  - intros H self target w res w' Hdry Hrun.
    destruct (rename_files_inr _ _ _ _ _ Hrun)
      as (entries & c & _ & _ & Hl & _ & Hloop & ->).
    exists entries. split; [exact Hl |].
    destruct (loop_dry _ _ _ _ _ _ _ _ Hdry Hloop) as (R & _).
    cbn in R |- *. exact R.
  - intros H self b target w res w' Hrun.
    destruct (rename_files_inr _ _ _ _ _ Hrun)
      as (entries & c & _ & _ & Hl & _ & Hloop & _).
    destruct (loop_mapping _ _ _ _ _ _ _ _ Hloop) as (calls & Hc & Hm).
    exists entries, calls. split; [exact Hl |].
    split; [exact Hc | exact Hm].
  - intros H self target w res_d w_d res_r w_r entries Hlaw Hd Hr Hl Hfree.
    destruct (rename_files_inr _ _ _ _ _ Hd)
      as (entries_d & c_d & _ & _ & Hl_d & _ & Hloop_d & ->).
    destruct (rename_files_inr _ _ _ _ _ Hr)
      as (entries_r & c_r & _ & _ & Hl_r & _ & Hloop_r & ->).
    change (listing (with_dry_run true self)) with (listing self) in Hl_d.
    change (listing (with_dry_run false self)) with (listing self) in Hl_r.
    rewrite Hl in Hl_d, Hl_r.
    injection Hl_d as <-. injection Hl_r as <-.
    change (collect (with_dry_run true self)) with (collect self) in Hloop_d.
    change (collect (with_dry_run false self)) with (collect self) in Hloop_r.
    set (files := collect self (w_fs w) entries) in *.
    destruct (loop_dry (with_dry_run true self) _ _ _ _ _ _ _
                eq_refl Hloop_d) as (Rd & _).
    assert (Hst :
      Forall (fun ip =>
                fs_is_file (w_fs w) (snd ip) = true
                /\ forall d,
                     destination (with_dry_run false self)
                       (Z.of_nat (length files)) ip = Some d ->
                     is_free (w_fs w) d = is_free (w_fs w) d)
             (enumerate_from 0 files)).
    { apply Forall_forall. intros ip Hin. split; [| reflexivity].
      assert (Hp : In (snd ip) files).
      { clear - Hin. revert Hin. generalize 0.
        induction files as [| q l IH]; intros z; cbn; [easy |].
        intros [<- | Hin]; [now left | right; eauto]. }
      apply collect_In in Hp. destruct Hp as (_ & Hp).
      now apply should_process_is_file in Hp. }
    unfold collision_free in Hfree. fold files in Hfree.
    rewrite <- (clash_free_with_dry_run false) in Hfree.
    destruct (loop_real (with_dry_run false self) (Z.of_nat (length files))
                (w_fs w) files 0 zero_counters
                (logged INFO (TotalFiles (Z.of_nat (length files))) w)
                c_r w_r Hlaw eq_refl Hfree Hst Hloop_r)
      as (calls & Hc & Hp & Rr).
    exists calls. cbn in Hc, Rd, Rr |- *.
    unfold planned_moves. fold files.
    change (planned_move (with_dry_run false self)) with (planned_move self)
      in Hp.
    change (planned_move (with_dry_run true self)) with (planned_move self)
      in Rd.
    split; [exact Hc |]. split; [exact Hp |].
    split; [| split; [lia | reflexivity]].
    rewrite Rd, <- Hp, length_map, length_rev. reflexivity.
  - intros rest. vm_compute. repeat split.
Qed.

(** C6 fails as stated.  In a directory holding x.txt and N_x.txt, with
    prefix "N_", the candidates are N_x.txt and x.txt, in this order.  The
    dry run previews N_x.txt -> N_N_x.txt and skips x.txt, whose new name
    is taken: renamed = 1.  The run without [dry_run] renames N_x.txt
    first, which frees the name, and then renames x.txt to N_x.txt:
    renamed = 2, with a rename that the dry run did not announce.  So the
    dry run does not count the files that the run changes, also on a host
    where renaming a file changes nothing at the other paths. *)
Lemma dry_run_preview_counterexample :
  (let H := Examples.host in
   let dry := rename_files Examples.prefix_dry ["docs"]
                Examples.w_collision in
   let real := rename_files Examples.prefix_real ["docs"]
                 Examples.w_collision in
   fst dry = inr {| total := 2; renamed := 1; skipped := 1; errors := 0 |}
   /\ w_log (snd dry) =
        [ (WARNING, SkipExists "N_x.txt");
          (INFO, Preview "N_x.txt" "N_N_x.txt");
          (INFO, TotalFiles 2) ]
   /\ fst real = inr {| total := 2; renamed := 2; skipped := 0; errors := 0 |}
   /\ map call_pair (rev (w_renames (snd real))) =
        [ (["docs"; "N_x.txt"], ["docs"; "N_N_x.txt"]);
          (["docs"; "x.txt"], ["docs"; "N_x.txt"]) ])
  /\ ~ (forall (H : Host) self target w res_d w_d res_r w_r,
          rename_frame_law H ->
          rename_files (with_dry_run true self) target w = (inr res_d, w_d) ->
          rename_files (with_dry_run false self) target w = (inr res_r, w_r) ->
          renamed res_r = renamed res_d).
Proof.
  split; [vm_compute; repeat split |].
  intros Hclaim.
  assert (Hd : fst (@rename_files Examples.host
                      (with_dry_run true Examples.prefix_real) ["docs"]
                      Examples.w_collision)
               = inr {| total := 2; renamed := 1; skipped := 1;
                        errors := 0 |})
    by (vm_compute; reflexivity).
  assert (Hr : fst (@rename_files Examples.host
                      (with_dry_run false Examples.prefix_real) ["docs"]
                      Examples.w_collision)
               = inr {| total := 2; renamed := 2; skipped := 0;
                        errors := 0 |})
    by (vm_compute; reflexivity).
  destruct (@rename_files Examples.host
              (with_dry_run true Examples.prefix_real) ["docs"]
              Examples.w_collision) as [[e | res_d] w_d] eqn:Ed;
    [discriminate Hd |].
  destruct (@rename_files Examples.host
              (with_dry_run false Examples.prefix_real) ["docs"]
              Examples.w_collision) as [[e | res_r] w_r] eqn:Er;
    [discriminate Hr |].
  specialize (Hclaim Examples.host Examples.prefix_real ["docs"]
                Examples.w_collision res_d w_d res_r w_r
                (simple_host_rename_frame Examples.no_rest) Ed Er).
  cbn [fst] in Hd, Hr. injection Hd as ->. injection Hr as ->.
  discriminate Hclaim.
Qed.

(** ** Decimal text of integers *)

Section Decimal.

Lemma digit_val_char d :
  0 <= d < 10 -> PyInt.digit_val (PyInt.digit_char d) = d.
Proof.
  intros Hd. unfold PyInt.digit_val, PyInt.digit_char.
  rewrite nat_ascii_embedding by lia. lia.
Qed.

Lemma pow10_succ (j : nat) : 10 ^ Z.of_nat (S j) = 10 * 10 ^ Z.of_nat j.
Proof. rewrite Nat2Z.inj_succ, Z.pow_succ_r by lia. reflexivity. Qed.

Lemma pow10_pos (j : nat) : 0 < 10 ^ Z.of_nat j.
Proof. apply Z.pow_pos_nonneg; lia. Qed.

(** With enough fuel, [digits_fuel] writes the [S j] digits of [n] in
    front of [acc]: [10^j <= n < 10^(S j)] (or [n = 0] and one digit), and
    reading the digits back gives [n]. *)
Lemma digits_fuel_spec : forall fuel n acc,
  0 <= n <= Z.of_nat fuel ->
  exists j : nat,
    String.length (PyInt.digits_fuel fuel n acc) = (S j + String.length acc)%nat
    /\ (n = 0 -> j = O)
    /\ (0 < n -> 10 ^ Z.of_nat j <= n)
    /\ n < 10 ^ Z.of_nat (S j)
    /\ forall a, PyInt.value_acc a (PyInt.digits_fuel fuel n acc)
                 = PyInt.value_acc (a * 10 ^ Z.of_nat (S j) + n) acc.
Proof.
  induction fuel as [| f IH]; intros n acc Hn.
  - assert (n = 0) as -> by lia. exists O.
    cbn [PyInt.digits_fuel String.length]. change (0 mod 10) with 0.
    change (10 ^ Z.of_nat 1) with 10.
    repeat split; try lia.
    intros a. cbn [PyInt.value_acc].
    rewrite digit_val_char by lia. f_equal. lia.
  - cbn [PyInt.digits_fuel]. destruct (n <? 10) eqn:E.
    + apply Z.ltb_lt in E. exists O. cbn [String.length].
      change (10 ^ Z.of_nat 1) with 10.
      repeat split; try lia.
      intros a. cbn [PyInt.value_acc].
      rewrite Z.mod_small, digit_val_char by lia. f_equal. lia.
    + apply Z.ltb_ge in E.
      assert (Hq : 0 < n / 10) by (apply Z.div_str_pos; lia).
      assert (Hdm := Z.div_mod n 10 ltac:(lia)).
      assert (Hm := Z.mod_pos_bound n 10 ltac:(lia)).
      destruct (IH (n / 10) (String (PyInt.digit_char (n mod 10)) acc))
        as (j & Hlen & _ & Hlo & Hhi & Hval); [lia |].
      exists (S j). specialize (Hlo Hq).
      rewrite (pow10_succ (S j)). rewrite pow10_succ in Hhi |- *.
      pose proof (pow10_pos j) as Hp.
      repeat split.
      * rewrite Hlen. cbn [String.length]. lia.
      * lia.
      * intros _. lia.
      * lia.
      * intros a. rewrite Hval. cbn [PyInt.value_acc].
        rewrite digit_val_char by lia. f_equal. rewrite pow10_succ. lia.
Qed.

(** [decimal n] has as many characters as [n] has decimal digits, and
    reads back as [n]. *)
Lemma decimal_spec n :
  0 <= n ->
  exists j : nat,
    String.length (PyInt.decimal n) = S j
    /\ (n = 0 -> j = O)
    /\ (0 < n -> 10 ^ Z.of_nat j <= n)
    /\ n < 10 ^ Z.of_nat (S j)
    /\ PyInt.value (PyInt.decimal n) = n.
Proof.
  intros Hn. unfold PyInt.decimal, PyInt.value.
  destruct (digits_fuel_spec (Z.to_nat n) n EmptyString) as
    (j & Hlen & H0 & Hlo & Hhi & Hval); [lia |].
  exists j. split; [rewrite Hlen; cbn; lia |].
  split; [exact H0 |]. split; [exact Hlo |]. split; [exact Hhi |].
  rewrite Hval. cbn [PyInt.value_acc]. lia.
Qed.

Lemma value_acc_zeros k : forall a s,
  PyInt.value_acc a (PyStr.replicate k "0" ++ s)
  = PyInt.value_acc (a * 10 ^ Z.of_nat k) s.
Proof.
  induction k as [| k IH]; intros a s.
  - cbn [PyStr.replicate String.append]. f_equal.
    change (10 ^ Z.of_nat 0) with 1. lia.
  - cbn [PyStr.replicate String.append PyInt.value_acc].
    rewrite IH, pow10_succ. f_equal.
    change (PyInt.digit_val "0") with 0. lia.
Qed.

Lemma length_append s t :
  String.length (s ++ t) = (String.length s + String.length t)%nat.
Proof. induction s as [| c s IH]; cbn; [reflexivity | now rewrite IH]. Qed.

Lemma length_replicate k c : String.length (PyStr.replicate k c) = k.
Proof. induction k as [| k IH]; cbn; [reflexivity | now rewrite IH]. Qed.

(** Zero padding changes neither the value nor, beyond the width, the
    length. *)
Lemma zfill_spec width s :
  PyInt.value (PyInt.zfill width s) = PyInt.value s
  /\ String.length (PyInt.zfill width s) = Nat.max width (String.length s).
Proof.
  unfold PyInt.zfill, PyInt.value. split.
  - rewrite value_acc_zeros. f_equal.
  - rewrite length_append, length_replicate. lia.
Qed.

End Decimal.

(** ** Name generation *)

Section Strings.

Lemma append_assoc s t u : (s ++ t) ++ u = s ++ t ++ u.
Proof. induction s as [| c s IH]; cbn; [reflexivity | now rewrite IH]. Qed.

Lemma append_nil_r s : s ++ "" = s.
Proof. induction s as [| c s IH]; cbn; [reflexivity | now rewrite IH]. Qed.

Lemma take_drop i : forall s, PyStr.take i s ++ PyStr.drop i s = s.
Proof.
  induction i as [| i IH]; intros [| c s]; cbn; try reflexivity.
  now rewrite IH.
Qed.

(** The stem and the suffix of a name put together give the name. *)
Lemma stem_suffix nm :
  PyPath.stem_of_name nm ++ PyPath.suffix_of_name nm = nm.
Proof.
  unfold PyPath.stem_of_name, PyPath.suffix_of_name.
  destruct (PyPath.suffix_start nm); [apply take_drop | apply append_nil_r].
Qed.

End Strings.

(** The default rule, as [default_name] computes it for an index and a
    total that are not negative. *)
Lemma default_name_eq self stem ext index tot :
  0 <= index -> 0 <= tot ->
  default_name self stem ext index tot =
  prefix self ++ stem
    ++ (if add_number self
        then "_" ++ PyInt.zfill (String.length (PyInt.decimal tot))
                                (PyInt.decimal (index + 1))
        else "")
    ++ suffix self
    ++ match new_ext_set self with Some e => "." ++ e | None => ext end.
Proof.
  intros Hi Ht. unfold default_name, PyInt.len_str, PyInt.str, PyInt.format_0d.
  destruct (tot <? 0) eqn:E1; [apply Z.ltb_lt in E1; lia |].
  destruct (index + 1 <? 0) eqn:E2; [apply Z.ltb_lt in E2; lia |].
  destruct (prefix self) as [| c pre], (add_number self),
    (suffix self) as [| c' suf]; cbn [PyStr.truthy];
    rewrite ?append_assoc; cbn [String.append]; rewrite ?append_assoc;
    reflexivity.
Qed.

(** The extension that the default rule and the pattern rule append. *)
Lemma new_ext_set_cases self ext :
  match new_ext_set self with Some e => "." ++ e | None => ext end
  = match new_ext self with
    | Some (String c e) => String "." (String c e)
    | _ => ext
    end.
Proof.
  unfold new_ext_set. destruct (new_ext self) as [[| c e] |]; reflexivity.
Qed.

(** C4. The default rule.  When no pattern applies (the pattern is empty,
    or rendering it raised KeyError or ValueError), for a 0-based index and
    a total that are not negative, the generated name is
    prefix + stem + ("_" + (index+1) zero-padded to [width], when
    add_number) + suffix + extension, where the extension is "." followed
    by the attribute [new_ext] when that attribute is a string that is not
    empty, and the original extension (empty when the name has none) when
    it is [None] or empty; [width] is the number of decimal digits of the
    total: 1 for a total of 0 or 1, and [10^(width-1) <= total < 10^width]
    otherwise.  The attribute is what [__init__] makes of its argument:
    [None] for an empty argument, else the argument lower-cased and
    without its leading dots.  With total = 5 the numbers are _1 .. _5;
    with total = 15 they are _01 .. _15; with prefix "P_", suffix "_s",
    numbering and new extension ".JPG", img.png at index 2 of 15 becomes
    P_img_03_s.jpg; with the new extension ".", which is empty once
    normalised, the original extension stays. *)
Theorem default_rule_name :
  (forall (H : Host) self original_name index tot w,
      0 <= index -> 0 <= tot ->
      let stem := PyPath.stem (PyPath.parse original_name) in
      let ext := PyPath.suffix (PyPath.parse original_name) in
      (pattern self = ""
       \/ exists e, str_format (pattern self) index stem tot = FmtRaise e
                    /\ is_key_or_value_error e = true) ->
      exists width : nat,
        (tot = 0 \/ tot = 1 -> width = 1%nat)
        /\ (0 < tot ->
            10 ^ Z.of_nat (width - 1) <= tot < 10 ^ Z.of_nat width)
        /\ stem ++ ext = PyPath.name (PyPath.parse original_name)
        /\ let number := PyInt.zfill width (PyInt.decimal (index + 1)) in
           PyInt.value number = index + 1
           /\ String.length number
              = Nat.max width (String.length (PyInt.decimal (index + 1)))
           /\ fst (_generate_new_name self original_name index tot w) =
                inr (prefix self ++ stem
                     ++ (if add_number self then "_" ++ number else "")
                     ++ suffix self
                     ++ match new_ext self with
                        | Some (String c e) => String "." (String c e)
                        | _ => ext
                        end))
  /\ (forall (H : Host) pre suf num c ext pat rec flt dry,
        new_ext (__init__ pre suf num (String c ext) pat rec flt dry)
        = Some (PyStr.lstrip "." (str_lower (String c ext)))
        /\ new_ext (__init__ pre suf num "" pat rec flt dry) = None)
  /\ (forall rest,
        let H := simple_host rest in
        map (fun i => new_name_of Examples.numbered "img.jpg" i 5)
            Examples.indices_5
        = [ inr "img_1.jpg"; inr "img_2.jpg"; inr "img_3.jpg";
            inr "img_4.jpg"; inr "img_5.jpg" ]
        /\ map (fun i => new_name_of Examples.numbered "img" i 15)
               Examples.indices_15
           = [ inr "img_01"; inr "img_02"; inr "img_03"; inr "img_04";
               inr "img_05"; inr "img_06"; inr "img_07"; inr "img_08";
               inr "img_09"; inr "img_10"; inr "img_11"; inr "img_12";
               inr "img_13"; inr "img_14"; inr "img_15" ]
        /\ new_ext Examples.full_rule = Some "jpg"
        /\ fst (_generate_new_name Examples.full_rule "img.png" 2 15
                  (initial_world Examples.fs_xy))
           = inr "P_img_03_s.jpg"
        /\ fst (_generate_new_name Examples.full_rule "README" 0 1
                  (initial_world Examples.fs_xy))
           = inr "P_README_1_s.jpg"
        /\ new_ext Examples.ext_dot = Some ""
        /\ fst (_generate_new_name Examples.ext_dot "img.png" 2 15
                  (initial_world Examples.fs_xy))
           = inr "img_03.png").
Proof.
  split; [| split].
  - intros H self original_name index tot w Hi Ht stem ext Hnone.
    destruct (decimal_spec tot Ht) as (j & Hlen & H0 & Hlo & Hhi & _).
    destruct (decimal_spec (index + 1) ltac:(lia)) as (_ & _ & _ & _ & _ & Hv).
    exists (S j). split; [| split; [| split; [| split; [| split]]]].
    + intros [-> | ->]; [now rewrite H0 |].
      destruct j as [| j]; [reflexivity |].
      specialize (Hlo ltac:(lia)). rewrite pow10_succ in Hlo.
      pose proof (pow10_pos j). lia.
    + intros Hpos. replace (S j - 1)%nat with j by lia. split; auto.
    + apply stem_suffix.
    + destruct (zfill_spec (S j) (PyInt.decimal (index + 1))) as (-> & _).
      exact Hv.
    + apply zfill_spec.
    + destruct (generate_new_name_result self original_name index tot w)
        as (w1 & -> & _). cbn [fst].
      unfold new_name_of. fold stem ext.
      rewrite <- new_ext_set_cases, <- Hlen, <- default_name_eq by assumption.
      destruct Hnone as [-> | (e & -> & ->)]; [reflexivity |].
      destruct (PyStr.truthy (pattern self)); reflexivity.
  - intros H pre suf num c ext pat rec flt dry. split; reflexivity.
  - intros rest. vm_compute. repeat split.
Qed.

(** ** The extension filter *)

Section Filter.

Lemma mem_In x l : PyStr.mem x l = true <-> In x l.
Proof.
  unfold PyStr.mem. rewrite existsb_exists. split.
  - intros (y & Hy & E). apply String.eqb_eq in E. now subst.
  - intros Hx. exists x. split; [exact Hx | apply String.eqb_refl].
Qed.

Lemma lower_ascii_dot c :
  Ascii.eqb (PyStr.lower_ascii c) "." = Ascii.eqb c ".".
Proof. destruct c as [[] [] [] [] [] [] [] []]; reflexivity. Qed.

(** Lower-casing and stripping the leading dots commute. *)
Lemma lower_lstrip s :
  PyStr.lstrip "." (PyStr.lower s) = PyStr.lower (PyStr.lstrip "." s).
Proof.
  induction s as [| c s IH]; cbn; [reflexivity |].
  rewrite lower_ascii_dot. destruct (Ascii.eqb c "."); [exact IH | reflexivity].
Qed.

Lemma lower_idem s : PyStr.lower (PyStr.lower s) = PyStr.lower s.
Proof.
  induction s as [| c s IH]; cbn; [reflexivity |]. rewrite IH. f_equal.
  destruct c as [[] [] [] [] [] [] [] []]; reflexivity.
Qed.

Lemma contains_rfind ch s : PyStr.contains ch s = false -> PyStr.rfind ch s = None.
Proof.
  induction s as [| c s IH]; cbn; [reflexivity |].
  destruct (Ascii.eqb c ch); cbn; [discriminate |].
  intros E. now rewrite IH.
Qed.

Lemma split_aux_no_sep sep : forall s cur,
  PyStr.contains sep s = false -> PyStr.split_aux sep cur s = [cur ++ s].
Proof.
  induction s as [| c s IH]; intros cur; cbn.
  - now rewrite append_nil_r.
  - destruct (Ascii.eqb c sep); cbn; [discriminate |].
    intros E. rewrite IH by exact E. now rewrite append_assoc.
Qed.

End Filter.

(** C8. The extension filter.  For a renamer built with a non-empty
    [filter_ext] list, a path is a candidate exactly when it is a regular
    file and its extension, lower-cased by [str.lower] and without its
    leading dot, equals some entry of the list, lower-cased by [str.lower]
    and without its leading dots.  Without a filter every regular file is
    a candidate.  With the filter [jpg, png], a directory holding a.jpg,
    b.txt, c.PNG and d (and a dot-file and a subdirectory) gives the
    candidates a.jpg and c.PNG and a total of 2. *)
Theorem extension_filter_correct :
  (forall (H : Host) pre suf num ext pat rec e0 raw dry fs p,
      let self := __init__ pre suf num ext pat rec (Some (e0 :: raw)) dry in
      _should_process_file self fs p = true
      <-> fs_is_file fs p = true
          /\ exists e, In e (e0 :: raw)
                /\ PyStr.lstrip "." (str_lower (PyPath.suffix p))
                   = PyStr.lstrip "." (str_lower e))
  /\ (forall (H : Host) pre suf num ext pat rec dry fs p,
        _should_process_file
          (__init__ pre suf num ext pat rec None dry) fs p
        = fs_is_file fs p
        /\ _should_process_file
             (__init__ pre suf num ext pat rec (Some []) dry) fs p
           = fs_is_file fs p)
  /\ (forall rest,
        let H := simple_host rest in
        let w := initial_world Examples.fs_mixed in
        listing Examples.only_images Examples.fs_mixed ["pics"]
        = inr [ ["pics"; "d"]; ["pics"; "c.PNG"]; ["pics"; "b.txt"];
                ["pics"; "a.jpg"]; ["pics"; ".gitignore"];
                ["pics"; "old.jpg"] ]
        /\ collect Examples.only_images Examples.fs_mixed
             [ ["pics"; "d"]; ["pics"; "c.PNG"]; ["pics"; "b.txt"];
               ["pics"; "a.jpg"]; ["pics"; ".gitignore"];
               ["pics"; "old.jpg"] ]
           = [ ["pics"; "a.jpg"]; ["pics"; "c.PNG"] ]
        /\ fst (rename_files Examples.only_images ["pics"] w)
           = inr {| total := 2; renamed := 0; skipped := 2; errors := 0 |}).
Proof.
  split; [| split].
  - intros H pre suf num ext pat rec e0 raw dry fs p self.
    unfold _should_process_file.
    change (filter_ext_set self) with (Some (map normalize_ext (e0 :: raw))).
    destruct (fs_is_file fs p); cbn [negb]; [| split; [discriminate | easy]].
    destruct (PyStr.mem (normalize_ext (PyPath.suffix p))
                (map normalize_ext (e0 :: raw))) eqn:E; cbn [negb].
    + split; [intros _ | reflexivity]. split; [reflexivity |].
      apply mem_In, in_map_iff in E. destruct E as (e & He & Hin).
      exists e. split; [exact Hin |]. symmetry. exact He.
    + split; [discriminate |]. intros (_ & e & Hin & He).
      assert (Hm : PyStr.mem (normalize_ext (PyPath.suffix p))
                     (map normalize_ext (e0 :: raw)) = true).
      { apply mem_In, in_map_iff. exists e. split; [| exact Hin].
        symmetry. exact He. }
      congruence.
  - intros H pre suf num ext pat rec dry fs p.
    unfold _should_process_file; cbn.
    destruct (fs_is_file fs p); split; reflexivity.
  - intros rest. repeat split; reflexivity.
Qed.

(** ** Names that begin with a dot *)

(** A name that begins with a dot, has no other dot and no slash, and is
    not the single dot, is a path of one part: itself. *)
Lemma parse_dot_name rest :
  rest <> "" ->
  PyStr.contains "/" rest = false ->
  PyPath.parse (String "." rest) = [String "." rest].
Proof.
  intros Hne Hs. unfold PyPath.parse, PyStr.split.
  rewrite split_aux_no_sep by (cbn; exact Hs).
  cbn [PyPath.root_of PyPath.leading_slashes Ascii.eqb Bool.eqb app filter
       String.append].
  destruct rest as [| c rest]; [contradiction |]. reflexivity.
Qed.

Lemma dot_name_not_root rest :
  PyPath.is_root_part (String "." rest) = false.
Proof. reflexivity. Qed.

Lemma dot_name_split rest :
  PyStr.contains "." rest = false ->
  PyPath.stem_of_name (String "." rest) = String "." rest
  /\ PyPath.suffix_of_name (String "." rest) = "".
Proof.
  intros Hd. unfold PyPath.stem_of_name, PyPath.suffix_of_name,
    PyPath.suffix_start.
  cbn [PyStr.rfind]. rewrite (contains_rfind _ _ Hd). cbn. auto.
Qed.

Lemma contains_append c s t :
  PyStr.contains c (s ++ t) = (PyStr.contains c s || PyStr.contains c t)%bool.
Proof.
  induction s as [| a s IH]; cbn; [reflexivity |].
  rewrite IH. now rewrite orb_assoc.
Qed.

(** The decimal text of an integer holds no dot, nor does its padding. *)
Lemma digit_char_not_dot d :
  0 <= d < 10 -> Ascii.eqb (PyInt.digit_char d) "." = false.
Proof.
  intros Hd.
  assert (E : d = 0 \/ d = 1 \/ d = 2 \/ d = 3 \/ d = 4 \/ d = 5 \/ d = 6
              \/ d = 7 \/ d = 8 \/ d = 9) by lia.
  repeat (destruct E as [-> | E]; [reflexivity |]). subst. reflexivity.
Qed.

Lemma digits_fuel_no_dot : forall fuel n acc,
  PyStr.contains "." acc = false ->
  PyStr.contains "." (PyInt.digits_fuel fuel n acc) = false.
Proof.
  assert (Hstep : forall n acc,
            PyStr.contains "." acc = false ->
            PyStr.contains "."
              (String (PyInt.digit_char (n mod 10)) acc) = false).
  { intros n acc Hacc. cbn [PyStr.contains].
    rewrite digit_char_not_dot by (apply Z.mod_pos_bound; lia).
    exact Hacc. }
  induction fuel as [| fuel IH]; intros n acc Hacc; cbn [PyInt.digits_fuel].
  - now apply Hstep.
  - destruct (n <? 10); [now apply Hstep |]. apply IH. now apply Hstep.
Qed.

Lemma zfill_no_dot width n :
  PyStr.contains "." (PyInt.zfill width (PyInt.decimal n)) = false.
Proof.
  unfold PyInt.zfill. rewrite contains_append.
  assert (Hrep : forall k, PyStr.contains "." (PyStr.replicate k "0") = false).
  { induction k as [| k IH]; [reflexivity |]. cbn. exact IH. }
  rewrite Hrep. unfold PyInt.decimal. now apply digits_fuel_no_dot.
Qed.

(** C10, as the code has it.  For a file name that begins with a dot and
    has no other dot (and is a file name: no slash, not the single dot):
    the stem is the whole name and the extension is empty.  When no new
    extension is set (the attribute is [None] or empty), name generation
    appends no extension: without a pattern, and when rendering the
    pattern raises KeyError or ValueError, the generated name is
    prefix + name + number + suffix; a rendered pattern is returned as it
    is; any other exception of the rendering is let out.  The generated
    name has no extension either, and still begins with a dot, when the
    default rule applies with an empty prefix and a suffix that holds no
    dot.  A renamer built with a filter none of whose entries is empty
    once normalised never takes such a file as a candidate, on a host
    whose [str.lower] keeps the empty string. *)
Theorem dot_name_has_no_extension :
  forall (H : Host) rest,
    rest <> "" ->
    PyStr.contains "." rest = false ->
    PyStr.contains "/" rest = false ->
    let nm := String "." rest in
    (PyPath.stem (PyPath.parse nm) = nm
     /\ PyPath.suffix (PyPath.parse nm) = "")
    /\ (forall self index tot,
          new_ext self = None \/ new_ext self = Some "" ->
          0 <= index -> 0 <= tot ->
          let number :=
            if add_number self
            then "_" ++ PyInt.zfill (String.length (PyInt.decimal tot))
                                    (PyInt.decimal (index + 1))
            else "" in
          let plain := prefix self ++ nm ++ number ++ suffix self in
          (pattern self = "" -> new_name_of self nm index tot = inr plain)
          /\ (forall rendered,
                PyStr.truthy (pattern self) = true ->
                str_format (pattern self) index nm tot = FmtOk rendered ->
                new_name_of self nm index tot = inr rendered)
          /\ (forall e,
                PyStr.truthy (pattern self) = true ->
                str_format (pattern self) index nm tot = FmtRaise e ->
                new_name_of self nm index tot
                = if is_key_or_value_error e then inr plain else inl e)
          /\ (prefix self = "" ->
              PyStr.contains "." (suffix self) = false ->
              plain = String "." (rest ++ number ++ suffix self)
              /\ PyPath.suffix_of_name plain = ""
              /\ PyPath.stem_of_name plain = plain))
    /\ (forall pre suf num ext pat rec e0 raw dry fs p,
          str_lower "" = "" ->
          PyPath.name p = nm ->
          Forall (fun e => normalize_ext e <> "") (e0 :: raw) ->
          _should_process_file
            (__init__ pre suf num ext pat rec (Some (e0 :: raw)) dry) fs p
          = false).
Proof.
  intros H rest Hne Hdot Hslash nm. subst nm.
  assert (Hparse := parse_dot_name rest Hne Hslash).
  assert (Hname : PyPath.name [String "." rest] = String "." rest)
    by reflexivity.
  destruct (dot_name_split rest Hdot) as (Hstem & Hsuf).
  split; [| split].
  - unfold PyPath.stem, PyPath.suffix. rewrite Hparse, Hname. auto.
  - intros self index tot Hunset Hi Ht number plain.
    assert (Hext : new_ext_set self = None).
    { unfold new_ext_set. now destruct Hunset as [-> | ->]. }
    assert (Hdef : default_name self (String "." rest) "" index tot = plain).
    { rewrite default_name_eq, Hext by assumption.
      subst plain number. now rewrite append_nil_r. }
    assert (Hgen : new_name_of self (String "." rest) index tot =
                   if PyStr.truthy (pattern self) then
                     match str_format (pattern self) index
                             (String "." rest) tot with
                     | FmtOk rendered => inr rendered
                     | FmtRaise e =>
                         if is_key_or_value_error e then inr plain else inl e
                     end
                   else inr plain).
    { unfold new_name_of, PyPath.stem, PyPath.suffix.
      rewrite Hparse, Hname, Hstem, Hsuf, Hext, Hdef.
      destruct (PyStr.truthy (pattern self)); [| reflexivity].
      destruct (str_format (pattern self) index (String "." rest) tot);
        [now rewrite append_nil_r | reflexivity]. }
    split; [| split; [| split]].
    + intros Hp. rewrite Hgen, Hp. reflexivity.
    + intros rendered Hp Hf. now rewrite Hgen, Hp, Hf.
    + intros e Hp Hf. now rewrite Hgen, Hp, Hf.
    + intros Hpre Hsufx.
      assert (Hplain : plain = String "." (rest ++ number ++ suffix self)).
      { subst plain. rewrite Hpre. reflexivity. }
      assert (Hbody : PyStr.contains "." (rest ++ number ++ suffix self)
                      = false).
      { rewrite !contains_append, Hdot, Hsufx. subst number.
        destruct (add_number self); [| reflexivity].
        cbn [String.append PyStr.contains].
        rewrite zfill_no_dot. reflexivity. }
      destruct (dot_name_split _ Hbody) as (Hstem' & Hsuf').
      rewrite Hplain. auto.
  - intros pre suf num ext pat rec e0 raw dry fs p Hlow Hp Hall.
    unfold _should_process_file.
    change (filter_ext_set (__init__ pre suf num ext pat rec
                              (Some (e0 :: raw)) dry))
      with (Some (map normalize_ext (e0 :: raw))).
    destruct (fs_is_file fs p); cbn [negb]; [| reflexivity].
    unfold PyPath.suffix. rewrite Hp, Hsuf.
    assert (Hempty : normalize_ext "" = "").
    { unfold normalize_ext. now rewrite Hlow. }
    rewrite Hempty.
    destruct (PyStr.mem "" (map normalize_ext (e0 :: raw))) eqn:E;
      [| reflexivity].
    apply mem_In, in_map_iff in E. destruct E as (e & He & Hin).
    rewrite Forall_forall in Hall. now destruct (Hall e Hin).
Qed.

(** C10 fails as stated, in both of its clauses.  With the filter built
    for [--filter "."], whose only entry is empty once normalised, the
    file .gitignore is a candidate.  With the prefix "a" and no new
    extension, .gitignore becomes a.gitignore, whose extension is
    .gitignore: the name's lack of extension is not preserved. *)
Lemma dot_name_counterexample :
  ~ (forall (H : Host) (self : FileRenamer) (fs : FS) (p : path) rest,
        PyPath.name p = String "." rest ->
        PyStr.contains "." rest = false ->
        filter_ext self <> None ->
        _should_process_file self fs p = false)
  /\ ~ (forall (H : Host) (self : FileRenamer) rest index tot generated,
          PyStr.contains "." rest = false ->
          new_ext self = None ->
          new_name_of self (String "." rest) index tot = inr generated ->
          PyPath.suffix_of_name generated = "").
Proof.
  split.
  - intros Hclaim.
    specialize (Hclaim (simple_host Examples.no_rest) Examples.filter_dot
                  Examples.fs_mixed ["pics"; ".gitignore"] "gitignore"
                  eq_refl eq_refl ltac:(discriminate)).
    discriminate Hclaim.
  - intros Hclaim.
    specialize (Hclaim (simple_host Examples.no_rest) Examples.prefix_a
                  "gitignore" 0 1 "a.gitignore" eq_refl eq_refl eq_refl).
    discriminate Hclaim.
Qed.

(** ** Where the code departs from the specification *)

(** When [Path.rename] raises, [_rename_file] answers [False] and the loop
    counts the file as skipped. *)
Lemma rename_failure_is_skipped {H : Host} self tot index p c w nm e :
  dry_run self = false ->
  new_name_of self (PyPath.name p) index tot = inr nm ->
  PyPath.name p <> nm ->
  fs_stat_error (w_fs w) (PyPath.join (PyPath.parent p) nm) = None ->
  fs_exists (w_fs w) (PyPath.join (PyPath.parent p) nm) = false ->
  fs_rename (w_fs w) p (PyPath.join (PyPath.parent p) nm) = inl e ->
  exists w',
    loop_body self tot index p c w =
      (inr {| c_renamed := c_renamed c;
              c_skipped := c_skipped c + 1;
              c_errors := c_errors c |}, w')
    /\ w_fs w' = w_fs w
    /\ In (ERROR, RenameFailed (PyPath.name p) e) (w_log w').
Proof.
  intros Hdry Hgen Hne Hst Hex Hfail.
  unfold loop_body, try_except, bind.
  destruct (generate_new_name_result self (PyPath.name p) index tot w)
    as (w1 & -> & Hfs & _).
  rewrite Hgen, rename_file_cases. cbn.
  apply String.eqb_neq in Hne. rewrite Hne, Hfs, Hst, Hex, Hdry, Hfail.
  eexists. split; [reflexivity |]. cbn. auto.
Qed.

(** C3 (the code departs from it).  In the directory [docs] without write
    permission, [Path.rename] raises PermissionError for x.txt and for
    y.txt.  Each failure is caught inside [_rename_file] and logged as an
    error, the run continues with the next file, but both files are
    counted as skipped and the error counter stays at 0; [main] then
    reports two skipped files and exits with status 0. *)
Theorem rename_failure_counted_as_skipped :
  forall rest,
    let H := simple_host rest in
    let run := rename_files Examples.prefix_real ["docs"]
                 (initial_world Examples.fs_locked) in
    fst run = inr {| total := 2; renamed := 0; skipped := 2; errors := 0 |}
    /\ w_fs (snd run) = Examples.fs_locked
    /\ w_log (snd run) =
         [ (ERROR, RenameFailed "y.txt" PermissionError);
           (ERROR, RenameFailed "x.txt" PermissionError);
           (INFO, TotalFiles 2) ]
    /\ map (fun call => (rc_src call, rc_dst call)) (w_renames (snd run)) =
         [ (["docs"; "y.txt"], ["docs"; "N_y.txt"]);
           (["docs"; "x.txt"], ["docs"; "N_x.txt"]) ]
    /\ fst (XRename.main Examples.args_prefix
              (initial_world Examples.fs_locked)) =
         {| XRename.out_stdout :=
              [ newline ++ "Successfully changed the names of 0 files.";
                "2 files were skipped." ];
            XRename.out_stderr := [];
            XRename.out_exit := 0 |}.
Proof. intros rest. vm_compute. repeat split. Qed.

(** When rendering the pattern raises an exception that is neither
    KeyError nor ValueError, [_generate_new_name] lets it out, without a
    log record. *)
Lemma generate_lets_other_exceptions_out {H : Host} self nm index tot w e :
  PyStr.truthy (pattern self) = true ->
  str_format (pattern self) index (PyPath.stem (PyPath.parse nm)) tot
    = FmtRaise e ->
  is_key_or_value_error e = false ->
  _generate_new_name self nm index tot w = (inl e, w).
Proof.
  intros Hp Hf He. unfold _generate_new_name. now rewrite Hp, Hf, He.
Qed.

(** C5 (the code departs from it).  The pattern "file_{}" has a field
    without a name; rendering it raises IndexError, which
    [_generate_new_name] does not catch: the call raises, nothing is
    logged by it, and [rename_files] counts each file as an error instead
    of naming it by the default rule.  With the unknown field of
    "file_{nope}" rendering raises KeyError, and the default rule is
    used. *)
Theorem positional_field_raises :
  forall rest,
    let H := simple_host rest in
    let w := initial_world Examples.fs_xy in
    fst (_generate_new_name Examples.pattern_positional "x.txt" 0 2 w)
      = inl IndexError
    /\ w_log (snd (_generate_new_name Examples.pattern_positional
                     "x.txt" 0 2 w)) = []
    /\ fst (rename_files Examples.pattern_positional ["docs"] w)
       = inr {| total := 2; renamed := 0; skipped := 0; errors := 2 |}
    /\ w_fs (snd (rename_files Examples.pattern_positional ["docs"] w))
       = Examples.fs_xy
    /\ w_log (snd (rename_files Examples.pattern_positional ["docs"] w)) =
         [ (ERROR, ProcessError "y.txt" IndexError);
           (ERROR, ProcessError "x.txt" IndexError);
           (INFO, TotalFiles 2) ]
    /\ fst (_generate_new_name Examples.pattern_unknown "x.txt" 0 2 w)
       = inr "x.txt"
    /\ w_log (snd (_generate_new_name Examples.pattern_unknown
                     "x.txt" 0 2 w))
       = [ (WARNING, PatternError KeyError) ].
Proof. intros rest. vm_compute. repeat split. Qed.

(** C9 (the code departs from it).  [xrename.py docs --dry-run] on a
    directory holding x.txt and y.txt: no option changes a name, so both
    files are skipped and the renamed count is 0; the summary printed in
    preview mode gives the total, 2, as the number of files expected to be
    changed. *)
Theorem preview_summary_reports_total :
  (forall res, XRename.summary true res =
     [ newline ++ "[Preview mode] " ++ PyInt.str (total res)
         ++ " files are expected to be changed." ])
  /\ (forall rest,
        let H := simple_host rest in
        let w := initial_world Examples.fs_xy in
        fst (rename_files (XRename.make_renamer Examples.args_preview)
               ["docs"] w)
        = inr {| total := 2; renamed := 0; skipped := 2; errors := 0 |}
        /\ XRename.out_stdout (fst (XRename.main Examples.args_preview w))
           = [ newline ++ "[Preview mode] 2 files are expected to be changed." ]
        /\ XRename.out_exit (fst (XRename.main Examples.args_preview w)) = 0).
Proof.
  split; [reflexivity |]. intros rest. vm_compute. repeat split.
Qed.

(** ** The theorems at concrete inputs *)

Lemma rename_never_overwrites_witness :
  (exists w',
     @loop_body Examples.host Examples.prefix_real 2 1 ["docs"; "x.txt"]
       zero_counters Examples.w_collision =
       (inr {| c_renamed := 0; c_skipped := 0 + 1; c_errors := 0 |}, w')
     /\ w_fs w' = Examples.fs_collision
     /\ w_renames w' = [])
  /\ (exists calls,
        w_renames (snd (@rename_files Examples.host Examples.prefix_real
                          ["docs"] Examples.w_xy))
        = (calls ++ [])%list
        /\ Forall safe_call calls).
Proof.
  split.
  - apply (proj1 (@rename_never_overwrites Examples.host)
             Examples.prefix_real 2 1 ["docs"; "x.txt"] zero_counters
             Examples.w_collision "N_x.txt").
    + reflexivity.
    + right. reflexivity.
  - assert (Hrun : fst (@rename_files Examples.host Examples.prefix_real
                          ["docs"] Examples.w_xy)
                   = inr {| total := 2; renamed := 2; skipped := 0;
                            errors := 0 |})
      by (vm_compute; reflexivity).
    destruct (@rename_files Examples.host Examples.prefix_real ["docs"]
                Examples.w_xy) as [[e | res] w'] eqn:E;
      [discriminate Hrun |].
    exact (proj2 (@rename_never_overwrites Examples.host)
             Examples.prefix_real ["docs"] Examples.w_xy res w' E).
Defined.

Lemma rename_files_count_invariant_witness :
  match fst (@rename_files Examples.host Examples.prefix_real ["docs"]
               Examples.w_xy) with
  | inr res => total res = renamed res + skipped res + errors res
  | inl _ => False
  end.
Proof.
  assert (Hrun : fst (@rename_files Examples.host Examples.prefix_real
                        ["docs"] Examples.w_xy)
                 = inr {| total := 2; renamed := 2; skipped := 0;
                          errors := 0 |})
    by (vm_compute; reflexivity).
  destruct (@rename_files Examples.host Examples.prefix_real ["docs"]
              Examples.w_xy) as [[e | res] w'] eqn:E;
    [discriminate Hrun |].
  exact (proj1 (proj2 (@rename_files_count_invariant Examples.host)
                  Examples.prefix_real ["docs"] Examples.w_xy res w' E)).
Defined.

Lemma default_rule_name_witness :
  0 <= 2 /\ 0 <= 15
  /\ exists width : nat,
       (0 < 15 -> 10 ^ Z.of_nat (width - 1) <= 15 < 10 ^ Z.of_nat width)
       /\ fst (@_generate_new_name Examples.host Examples.full_rule
                 "img.png" 2 15 Examples.w_xy)
          = inr ("P_" ++ "img"
                 ++ ("_" ++ PyInt.zfill width (PyInt.decimal 3))
                 ++ "_s" ++ ".jpg").
Proof.
  split; [lia |]. split; [lia |].
  destruct (proj1 default_rule_name Examples.host Examples.full_rule
              "img.png" 2 15 Examples.w_xy ltac:(lia) ltac:(lia)
              (or_introl eq_refl))
    as (width & _ & Hw & _ & _ & _ & Hname).
  exists width. split; [exact Hw | exact Hname].
Defined.

Lemma dry_run_does_not_mutate_witness :
  rename_frame_law Examples.host
  /\ @collision_free Examples.host Examples.prefix_real
       (@collect Examples.host Examples.prefix_real Examples.fs_xy
          Cases.entries_xy) = true
  /\ match @rename_files Examples.host
             (with_dry_run true Examples.prefix_real) ["docs"]
             Examples.w_xy,
           @rename_files Examples.host
             (with_dry_run false Examples.prefix_real) ["docs"]
             Examples.w_xy with
     | (inr res_d, _), (inr res_r, w_r) =>
         exists calls,
           w_renames w_r = (calls ++ w_renames Examples.w_xy)%list
           /\ map call_pair (rev calls)
              = @planned_moves Examples.host Examples.prefix_real
                  Examples.fs_xy
                  (@collect Examples.host Examples.prefix_real
                     Examples.fs_xy Cases.entries_xy)
           /\ renamed res_d = Z.of_nat (length calls)
           /\ renamed res_r
              = Z.of_nat (length (filter call_succeeded calls))
           /\ total res_r = total res_d
     | _, _ => False
     end.
Proof.
  assert (Hlaw := simple_host_rename_frame Examples.no_rest).
  assert (Hfree : @collision_free Examples.host Examples.prefix_real
                    (@collect Examples.host Examples.prefix_real
                       Examples.fs_xy Cases.entries_xy) = true)
    by (vm_compute; reflexivity).
  split; [exact Hlaw |]. split; [exact Hfree |].
  assert (Hd : match fst (@rename_files Examples.host
                            (with_dry_run true Examples.prefix_real)
                            ["docs"] Examples.w_xy) with
               | inr _ => True
               | inl _ => False
               end) by (vm_compute; exact I).
  assert (Hr : match fst (@rename_files Examples.host
                            (with_dry_run false Examples.prefix_real)
                            ["docs"] Examples.w_xy) with
               | inr _ => True
               | inl _ => False
               end) by (vm_compute; exact I).
  destruct (@rename_files Examples.host
              (with_dry_run true Examples.prefix_real) ["docs"]
              Examples.w_xy) as [[e | res_d] w_d] eqn:Ed;
    [destruct Hd |].
  destruct (@rename_files Examples.host
              (with_dry_run false Examples.prefix_real) ["docs"]
              Examples.w_xy) as [[e | res_r] w_r] eqn:Er;
    [destruct Hr |].
  exact (proj1 (proj2 (proj2 (proj2 dry_run_does_not_mutate)))
           Examples.host Examples.prefix_real ["docs"] Examples.w_xy
           res_d w_d res_r w_r Cases.entries_xy Hlaw Ed Er eq_refl Hfree).
Defined.

Lemma candidates_sorted_deterministically_witness :
  Permutation [ ["docs"; "y.txt"]; ["docs"; "x.txt"] ]
              [ ["docs"; "x.txt"]; ["docs"; "y.txt"] ]
  /\ @collect Examples.host Examples.prefix_real Examples.fs_xy
       [ ["docs"; "y.txt"]; ["docs"; "x.txt"] ]
     = @collect Examples.host Examples.prefix_real Examples.fs_xy
         [ ["docs"; "x.txt"]; ["docs"; "y.txt"] ].
Proof.
  split; [apply perm_swap |].
  exact (proj1 (proj1 (proj2 candidates_sorted_deterministically)
                  Examples.host Examples.prefix_real
                  Examples.fs_xy Examples.fs_xy
                  [ ["docs"; "y.txt"]; ["docs"; "x.txt"] ]
                  [ ["docs"; "x.txt"]; ["docs"; "y.txt"] ]
                  (perm_swap _ _ _) (fun p _ => eq_refl))).
Defined.

Lemma extension_filter_correct_witness :
  @_should_process_file Examples.host Examples.only_images
    Examples.fs_mixed ["pics"; "c.PNG"] = true.
Proof.
  apply (proj2 (proj1 extension_filter_correct Examples.host
                  "" "" false "" "" false "jpg" ["png"] true
                  Examples.fs_mixed ["pics"; "c.PNG"])).
  split; [reflexivity |].
  exists "png". split; [right; left; reflexivity | reflexivity].
Defined.

Lemma dot_name_has_no_extension_witness :
  "gitignore" <> ""
  /\ PyStr.contains "." "gitignore" = false
  /\ PyStr.contains "/" "gitignore" = false
  /\ PyPath.stem (PyPath.parse ".gitignore") = ".gitignore"
  /\ PyPath.suffix (PyPath.parse ".gitignore") = ""
  /\ @new_name_of Examples.host Examples.numbered ".gitignore" 0 1
     = inr ".gitignore_1"
  /\ PyPath.suffix_of_name ".gitignore_1" = "".
Proof.
  split; [discriminate |]. split; [reflexivity |]. split; [reflexivity |].
  destruct (dot_name_has_no_extension Examples.host "gitignore"
              ltac:(discriminate) eq_refl eq_refl)
    as ((Hstem & Hsuf) & Hgen & _).
  split; [exact Hstem |]. split; [exact Hsuf |].
  destruct (Hgen Examples.numbered 0 1 (or_introl eq_refl)
              ltac:(lia) ltac:(lia))
    as (Hplain & _ & _ & Hkeep).
  split; [exact (Hplain eq_refl) |].
  exact (proj1 (proj2 (Hkeep eq_refl eq_refl))).
Defined.

(** * Further properties of the code *)

(** ** [sanitize_filename] *)

Section Sanitize.

Lemma in_chars_In c chars : PyStr.in_chars c chars = true <-> In c chars.
Proof.
  unfold PyStr.in_chars. rewrite existsb_exists. split.
  - intros (x & Hx & E). apply Ascii.eqb_eq in E. now subst.
  - intros Hc. exists c. split; [exact Hc | apply Ascii.eqb_refl].
Qed.

Lemma replace_char_removes old new s :
  old <> new -> PyStr.contains old (PyStr.replace_char old new s) = false.
Proof.
  intros Hne. induction s as [| a s IH]; cbn; [reflexivity |].
  rewrite IH, orb_false_r.
  destruct (Ascii.eqb a old) eqn:E.
  - apply Ascii.eqb_neq. congruence.
  - exact E.
Qed.

Lemma replace_char_keeps_absent c old new s :
  c <> new -> PyStr.contains c s = false ->
  PyStr.contains c (PyStr.replace_char old new s) = false.
Proof.
  intros Hne. induction s as [| a s IH]; cbn; [reflexivity |].
  intros E. apply orb_false_iff in E. destruct E as (Ea & Es).
  rewrite (IH Es), orb_false_r.
  destruct (Ascii.eqb a old); [| exact Ea].
  apply Ascii.eqb_neq. congruence.
Qed.

Lemma replace_char_absent old new s :
  PyStr.contains old s = false -> PyStr.replace_char old new s = s.
Proof.
  induction s as [| a s IH]; cbn; [reflexivity |].
  intros E. apply orb_false_iff in E. destruct E as (Ea & Es).
  now rewrite Ea, (IH Es).
Qed.

Lemma fold_replace_removes new chars : forall s c,
  c <> new ->
  In c chars \/ PyStr.contains c s = false ->
  PyStr.contains c
    (fold_left (fun name char => PyStr.replace_char char new name) chars s)
  = false.
Proof.
  induction chars as [| ch chars IH]; intros s c Hne Hc; cbn.
  - destruct Hc as [[] | Hc]. exact Hc.
  - apply IH; [exact Hne |].
    destruct Hc as [[-> | Hin] | Habs].
    + right. now apply replace_char_removes.
    + now left.
    + right. now apply replace_char_keeps_absent.
Qed.

Lemma lstrip_chars_absent c chars s :
  PyStr.contains c s = false ->
  PyStr.contains c (PyStr.lstrip_chars chars s) = false.
Proof.
  induction s as [| a s IH]; cbn; [reflexivity |].
  intros E. destruct (PyStr.in_chars a chars); [| exact E].
  apply orb_false_iff in E. now apply IH.
Qed.

Lemma rstrip_chars_absent c chars s :
  PyStr.contains c s = false ->
  PyStr.contains c (PyStr.rstrip_chars chars s) = false.
Proof.
  induction s as [| a s IH]; cbn; [reflexivity |].
  intros E. apply orb_false_iff in E. destruct E as (Ea & Es).
  specialize (IH Es).
  destruct (PyStr.rstrip_chars chars s) as [| b r].
  - destruct (PyStr.in_chars a chars); cbn; [reflexivity |].
    now rewrite Ea.
  - cbn in IH |- *. now rewrite Ea, IH.
Qed.

(** A property of the words of [split] that holds of the word read so
    far whenever a character is added to it, and of the empty word, holds
    of every word returned.  [split_ws_aux] skips up to three bytes at a
    time, hence the induction on the length. *)
Lemma split_ws_aux_words_ind (P : string -> Prop) (ok : string -> Prop) :
  (forall a s, ok (String a s) -> ok s) ->
  (forall cur a s, P cur -> ok (String a s) -> PyStr.is_space a = false ->
                   P (cur ++ String a "")) ->
  P "" ->
  forall s cur, P cur -> ok s -> Forall P (PyStr.split_ws_aux cur s).
Proof.
  intros Htail Hadd Hnil s.
  remember (String.length s) as n eqn:Hn. revert s Hn.
  induction n as [n IH] using lt_wf_ind. intros s Hn cur Hcur Hs.
  assert (Hflush : forall rest, Forall P rest -> Forall P (PyStr.flush cur rest)).
  { intros rest Hrest. unfold PyStr.flush.
    destruct (PyStr.truthy cur); [now constructor | exact Hrest]. }
  destruct s as [| a s]; cbn [PyStr.split_ws_aux].
  { apply Hflush. constructor. }
  cbn [String.length] in Hn.
  destruct (PyStr.is_space a) eqn:Ea.
  { apply Hflush, (IH (String.length s)); [lia | reflexivity | exact Hnil |].
    now apply Htail in Hs. }
  assert (Hnext : Forall P (PyStr.split_ws_aux (cur ++ String a "") s)).
  { apply (IH (String.length s)); [lia | reflexivity | |].
    - now apply (Hadd cur a s).
    - now apply Htail in Hs. }
  destruct s as [| a2 s2]; [exact Hnext |].
  cbn [String.length] in Hn.
  destruct (PyStr.is_space2 a a2).
  { apply Hflush, (IH (String.length s2)); [lia | reflexivity | exact Hnil |].
    now apply Htail, Htail in Hs. }
  destruct s2 as [| a3 s3]; [exact Hnext |].
  cbn [String.length] in Hn.
  destruct (PyStr.is_space3 a a2 a3); [| exact Hnext].
  apply Hflush, (IH (String.length s3)); [lia | reflexivity | exact Hnil |].
  now apply Htail, Htail, Htail in Hs.
Qed.

Lemma split_ws_aux_absent c : forall s cur,
  PyStr.contains c cur = false -> PyStr.contains c s = false ->
  Forall (fun w => PyStr.contains c w = false) (PyStr.split_ws_aux cur s).
Proof.
  apply (split_ws_aux_words_ind
           (fun w => PyStr.contains c w = false)
           (fun s => PyStr.contains c s = false)).
  - intros a s Hs. cbn in Hs. now apply orb_false_iff in Hs.
  - intros cur a s Hcur Hs _. cbn in Hs. apply orb_false_iff in Hs.
    destruct Hs as (Ha & _).
    rewrite contains_append, Hcur. cbn. now rewrite Ha.
  - reflexivity.
Qed.

Lemma concat_absent c sep l :
  PyStr.contains c sep = false ->
  Forall (fun w => PyStr.contains c w = false) l ->
  PyStr.contains c (String.concat sep l) = false.
Proof.
  intros Hsep. induction 1 as [| w l Hw Hl IH]; cbn; [reflexivity |].
  destruct l as [| w' l']; [exact Hw |].
  rewrite !contains_append, Hw, Hsep. exact IH.
Qed.

(** X1. The result of [sanitize_filename] holds none of the nine invalid
    characters. *)
Theorem sanitize_filename_no_invalid_char filename c :
  In c Utils.invalid_chars ->
  PyStr.contains c (Utils.sanitize_filename filename) = false.
Proof.
  intros Hc. unfold Utils.sanitize_filename.
  assert (Hu : c <> "_"%char).
  { intros ->. cbn in Hc. repeat destruct Hc as [Hc | Hc]; try discriminate.
    exact Hc. }
  assert (Hsp : PyStr.contains c " " = false).
  { cbn [PyStr.contains]. rewrite orb_false_r. apply Ascii.eqb_neq.
    intros E. rewrite <- E in Hc. cbn in Hc.
    repeat destruct Hc as [Hc | Hc]; try discriminate. exact Hc. }
  apply concat_absent; [exact Hsp |].
  apply split_ws_aux_absent; [reflexivity |].
  apply rstrip_chars_absent, lstrip_chars_absent.
  apply fold_replace_removes; [exact Hu | now left].
Qed.


Lemma space_free_append s t :
  space_free (s ++ t) = (space_free s && space_free t)%bool.
Proof.
  induction s as [| a s IH]; cbn; [reflexivity |].
  now rewrite IH, andb_assoc.
Qed.

(** The words that [split] returns are not empty and hold no whitespace. *)
Lemma split_ws_aux_words : forall s cur,
  space_free cur = true ->
  Forall (fun w => PyStr.truthy w = true /\ space_free w = true)
         (PyStr.split_ws_aux cur s).
Proof.
  intros s cur Hcur.
  assert (Hall : Forall (fun w => space_free w = true)
                   (PyStr.split_ws_aux cur s)).
  { apply (split_ws_aux_words_ind (fun w => space_free w = true)
             (fun _ => True)); auto.
    intros cur' a s' Hc _ Ea. rewrite space_free_append, Hc. cbn.
    now rewrite Ea. }
  assert (Hne : Forall (fun w => PyStr.truthy w = true)
                  (PyStr.split_ws_aux cur s)).
  { clear Hcur Hall. revert cur.
    remember (String.length s) as n eqn:Hn. revert s Hn.
    induction n as [n IH] using lt_wf_ind. intros s Hn cur.
    assert (Hflush : forall rest,
              Forall (fun w => PyStr.truthy w = true) rest ->
              Forall (fun w => PyStr.truthy w = true) (PyStr.flush cur rest)).
    { intros rest Hrest. unfold PyStr.flush.
      destruct (PyStr.truthy cur) eqn:E; [now constructor | exact Hrest]. }
    destruct s as [| a s]; cbn [PyStr.split_ws_aux].
    { apply Hflush. constructor. }
    cbn [String.length] in Hn.
    destruct (PyStr.is_space a).
    { apply Hflush, (IH (String.length s)); [lia | reflexivity]. }
    assert (Hnext : Forall (fun w => PyStr.truthy w = true)
                      (PyStr.split_ws_aux (cur ++ String a "") s))
      by (apply (IH (String.length s)); [lia | reflexivity]).
    destruct s as [| a2 s2]; [exact Hnext |].
    cbn [String.length] in Hn.
    destruct (PyStr.is_space2 a a2).
    { apply Hflush, (IH (String.length s2)); [lia | reflexivity]. }
    destruct s2 as [| a3 s3]; [exact Hnext |].
    cbn [String.length] in Hn.
    destruct (PyStr.is_space3 a a2 a3); [| exact Hnext].
    apply Hflush, (IH (String.length s3)); [lia | reflexivity]. }
  clear Hcur. induction Hall as [| w l Hw Hl IH]; [constructor |].
  inversion Hne; subst. constructor; auto.
Qed.

Lemma single_spaced_word : forall w prev rest,
  PyStr.truthy w = true -> space_free w = true ->
  single_spaced prev (w ++ rest) = single_spaced true rest
  /\ starts_with_word (w ++ rest) = true.
Proof.
  induction w as [| a w IH]; intros prev rest Hne Hsf; [discriminate |].
  cbn in Hsf. apply andb_true_iff in Hsf. destruct Hsf as (Ha & Hw).
  cbn. rewrite Ha. split; [| reflexivity].
  apply negb_true_iff in Ha. rewrite Ha.
  destruct w as [| b w']; [reflexivity |].
  now apply (IH true rest).
Qed.

Lemma single_spaced_concat l :
  Forall (fun w => PyStr.truthy w = true /\ space_free w = true) l ->
  forall prev,
    single_spaced prev (String.concat " " l) = true
    /\ (l <> [] -> starts_with_word (String.concat " " l) = true).
Proof.
  induction 1 as [| w l (Hne & Hsf) Hl IH]; intros prev.
  - split; [reflexivity | congruence].
  - cbn [String.concat]. destruct l as [| w' l'].
    + destruct (single_spaced_word w prev "" Hne Hsf) as (E1 & E2).
      rewrite append_nil_r in E1, E2. rewrite E1. split; auto.
    + destruct (single_spaced_word w prev
                  (" " ++ String.concat " " (w' :: l')) Hne Hsf) as (E1 & E2).
      rewrite E1. split; [| auto].
      destruct (IH false) as (I1 & I2).
      cbn [String.append single_spaced].
      change (PyStr.is_space " ") with true.
      change (Ascii.eqb " " " ") with true.
      cbn [andb]. rewrite I1, I2 by discriminate. reflexivity.
Qed.

(** What [single_spaced] says about a whitespace character inside the
    text. *)
Lemma single_spaced_inside : forall a prev c b,
  single_spaced prev (a ++ String c b) = true ->
  PyStr.is_space c = true ->
  c = " "%char
  /\ (a = "" -> prev = true)
  /\ (a <> "" ->
      exists a' x, a = a' ++ String x "" /\ PyStr.is_space x = false)
  /\ (exists y b', b = String y b' /\ PyStr.is_space y = false).
Proof.
  induction a as [| x a IH]; intros prev c b Hs Hc.
  - cbn in Hs. rewrite Hc in Hs.
    repeat (apply andb_true_iff in Hs; destruct Hs as (Hs & ?)).
    apply Ascii.eqb_eq in Hs.
    split; [exact Hs |]. split; [auto |]. split; [congruence |].
    destruct b as [| y b']; [discriminate |].
    exists y, b'. split; [reflexivity |]. now apply negb_true_iff.
  - cbn in Hs. destruct (PyStr.is_space x) eqn:Ex.
    + repeat (apply andb_true_iff in Hs; destruct Hs as (Hs & ?)).
      destruct (IH false c b) as (E1 & E2 & E3 & E4); auto.
      split; [exact E1 |]. split; [discriminate |]. split; [| exact E4].
      intros _.
      destruct a as [| x' a0]; [now discriminate E2 |].
      destruct E3 as (a' & z & -> & Hz); [discriminate |].
      exists (String x a'), z. auto.
    + destruct (IH true c b) as (E1 & E2 & E3 & E4); auto.
      split; [exact E1 |]. split; [discriminate |]. split; [| exact E4].
      intros _.
      destruct a as [| x' a0].
      * exists "", x. auto.
      * destruct E3 as (a' & z & -> & Hz); [discriminate |].
        exists (String x a'), z. auto.
Qed.

(** X2. In the result of [sanitize_filename], every whitespace character
    is a space that stands between two characters that are not
    whitespace: the result neither begins nor ends with whitespace, has
    no two spaces in a row, and no tab or line break. *)
Theorem sanitize_filename_single_spaces filename a c b :
  Utils.sanitize_filename filename = a ++ String c b ->
  PyStr.is_space c = true ->
  c = " "%char
  /\ (exists a' x, a = a' ++ String x "" /\ PyStr.is_space x = false)
  /\ (exists y b', b = String y b' /\ PyStr.is_space y = false).
Proof.
  intros E Hc.
  assert (Hs : single_spaced false (a ++ String c b) = true).
  { rewrite <- E. unfold Utils.sanitize_filename.
    apply single_spaced_concat. now apply split_ws_aux_words. }
  destruct (single_spaced_inside a false c b Hs Hc) as (E1 & E2 & E3 & E4).
  split; [exact E1 |]. split; [| exact E4].
  apply E3. intros ->. now discriminate E2.
Qed.

Lemma rstrip_chars_id chars : forall s,
  (forall t c, s = t ++ String c "" -> PyStr.in_chars c chars = false) ->
  PyStr.rstrip_chars chars s = s.
Proof.
  induction s as [| a s IH]; intros Hlast; cbn; [reflexivity |].
  rewrite IH.
  - destruct s as [| b r]; [| reflexivity].
    now rewrite (Hlast "" a eq_refl).
  - intros t c ->. apply (Hlast (String a t) c). reflexivity.
Qed.

(** An ASCII character begins no whitespace character of two or three
    bytes. *)
Lemma ascii_not_space2 a a2 :
  Nat.ltb (nat_of_ascii a) 128 = true -> PyStr.is_space2 a a2 = false.
Proof.
  intros Ha. apply Nat.ltb_lt in Ha. unfold PyStr.is_space2.
  replace (Nat.eqb (nat_of_ascii a) 194) with false; [reflexivity |].
  symmetry. apply Nat.eqb_neq. lia.
Qed.

Lemma ascii_not_space3 a a2 a3 :
  Nat.ltb (nat_of_ascii a) 128 = true -> PyStr.is_space3 a a2 a3 = false.
Proof.
  intros Ha. apply Nat.ltb_lt in Ha. unfold PyStr.is_space3.
  replace (Nat.eqb (nat_of_ascii a) 225) with false
    by (symmetry; apply Nat.eqb_neq; lia).
  replace (Nat.eqb (nat_of_ascii a) 226) with false
    by (symmetry; apply Nat.eqb_neq; lia).
  replace (Nat.eqb (nat_of_ascii a) 227) with false
    by (symmetry; apply Nat.eqb_neq; lia).
  reflexivity.
Qed.

Lemma split_ws_aux_space_free : forall s cur,
  is_ascii_text s = true ->
  space_free s = true ->
  PyStr.split_ws_aux cur s =
  if PyStr.truthy (cur ++ s) then [cur ++ s] else [].
Proof.
  induction s as [| a s IH]; intros cur Hascii Hs.
  - cbn. now rewrite append_nil_r.
  - cbn [is_ascii_text] in Hascii. apply andb_true_iff in Hascii.
    destruct Hascii as (Ha128 & Hascii).
    cbn [space_free] in Hs. apply andb_true_iff in Hs.
    destruct Hs as (Ha & Hs). apply negb_true_iff in Ha.
    assert (Hnext : PyStr.split_ws_aux (cur ++ String a "") s =
                    if PyStr.truthy (cur ++ String a s)
                    then [cur ++ String a s] else []).
    { rewrite (IH _ Hascii Hs), append_assoc. reflexivity. }
    cbn [PyStr.split_ws_aux]. rewrite Ha.
    destruct s as [| a2 s2]; [exact Hnext |].
    rewrite (ascii_not_space2 a a2 Ha128).
    destruct s2 as [| a3 s3]; [exact Hnext |].
    rewrite (ascii_not_space3 a a2 a3 Ha128). exact Hnext.
Qed.

Lemma fold_replace_id new chars : forall s,
  (forall c, In c chars -> PyStr.contains c s = false) ->
  fold_left (fun name char => PyStr.replace_char char new name) chars s = s.
Proof.
  induction chars as [| ch chars IH]; intros s Hs; cbn; [reflexivity |].
  rewrite replace_char_absent by (apply Hs; now left).
  apply IH. intros c Hc. apply Hs. now right.
Qed.

(** X3. [sanitize_filename] returns an ASCII name unchanged when the name
    holds no invalid character and no whitespace, and neither begins nor
    ends with a dot.  (The statement is for ASCII names, whose whitespace
    characters are those of [PyStr.is_space].) *)
Theorem sanitize_filename_clean_name filename :
  is_ascii_text filename = true ->
  (forall c, In c Utils.invalid_chars -> PyStr.contains c filename = false) ->
  space_free filename = true ->
  (forall t, filename <> String "." t) ->
  (forall t, filename <> t ++ ".") ->
  Utils.sanitize_filename filename = filename.
Proof.
  intros Hascii Hinv Hsf Hfirst Hlast. unfold Utils.sanitize_filename.
  rewrite fold_replace_id by exact Hinv.
  assert (Hl : PyStr.lstrip_chars [" "; "."]%char filename = filename).
  { destruct filename as [| a s]; [reflexivity |]. cbn.
    cbn in Hsf. apply andb_true_iff in Hsf. destruct Hsf as (Ha & _).
    destruct (Ascii.eqb a " ") eqn:E1;
      [apply Ascii.eqb_eq in E1; subst a; discriminate Ha |].
    destruct (Ascii.eqb a ".") eqn:E2; [| reflexivity].
    apply Ascii.eqb_eq in E2. subst a. now destruct (Hfirst s). }
  unfold PyStr.strip_chars. rewrite Hl.
  rewrite rstrip_chars_id.
  - unfold PyStr.split_ws. rewrite split_ws_aux_space_free by assumption.
    cbn [String.append]. destruct filename; reflexivity.
  - intros t c ->. cbn. rewrite orb_false_r.
    rewrite space_free_append in Hsf. apply andb_true_iff in Hsf.
    destruct Hsf as (_ & Hc). cbn in Hc. rewrite andb_true_r in Hc.
    destruct (Ascii.eqb c " ") eqn:E1;
      [apply Ascii.eqb_eq in E1; subst c; discriminate Hc |].
    destruct (Ascii.eqb c ".") eqn:E2; [| reflexivity].
    apply Ascii.eqb_eq in E2. subst c. now destruct (Hlast t).
Qed.

End Sanitize.

(** [sanitize_filename] on small inputs; the third one holds the
    no-break space U+00A0 (bytes C2 A0), the fourth the letter U+00C2
    followed by U+00A0 (bytes C3 82 C2 A0). *)
Example sanitize_filename_examples :
  Utils.sanitize_filename " a<b>  c.txt. " = "a_b_ c.txt"
  /\ Utils.sanitize_filename "..." = ""
  /\ Utils.sanitize_filename
       (String "a" (String (ascii_of_nat 194) (String (ascii_of_nat 160) "b")))
     = "a b"
  /\ Utils.sanitize_filename
       (String (ascii_of_nat 195) (String (ascii_of_nat 130)
          (String (ascii_of_nat 194) (String (ascii_of_nat 160) "b"))))
     = String (ascii_of_nat 195) (String (ascii_of_nat 130) " b").
Proof. repeat split. Qed.

(** ** Runs of [rename_files] *)

Section Runs.
Context {H : Host}.

(** X4. [rename_files] can fail only before its loop, and then nothing
    was logged, renamed or changed.  It raises exactly in these cases:
    the test [is_dir] on the target raises (that exception); the target
    is not a directory (ValueError); the walk of the directory or the
    test [is_file] on one of the entries it yields raises (the exception
    of the first such test, in the order of the walk, else that of the
    walk).  In every other case the run completes. *)
Theorem rename_files_fails_only_at_start self target w e w' :
  rename_files self target w = (inl e, w')
  <-> w' = w
      /\ (fs_stat_error (w_fs w) target = Some e
          \/ (fs_stat_error (w_fs w) target = None
              /\ fs_is_dir (w_fs w) target = false /\ e = ValueError)
          \/ (fs_stat_error (w_fs w) target = None
              /\ fs_is_dir (w_fs w) target = true
              /\ walk_error (w_fs w) (listing self (w_fs w) target)
                 = Some e)).
Proof.
  split; [apply rename_files_inl |].
  intros (-> & Hcase). now apply rename_files_raises.
Qed.

Lemma plain_name_parse nm :
  is_plain_name nm = true ->
  PyPath.parse nm = [nm] /\ PyPath.name [nm] = nm.
Proof.
  unfold is_plain_name. intros E.
  apply andb_true_iff in E. destruct E as (E & Hs).
  apply andb_true_iff in E. destruct E as (Hne & Hd).
  apply negb_true_iff in Hne, Hd, Hs.
  unfold PyPath.parse, PyStr.split.
  rewrite split_aux_no_sep by exact Hs. cbn [String.append filter].
  unfold PyPath.keep_component. rewrite Hne, Hd. cbn [orb negb].
  destruct nm as [| c s]; [discriminate |].
  cbn in Hs. apply orb_false_iff in Hs. destruct Hs as (Hc & Hs).
  unfold PyPath.root_of. cbn [PyPath.leading_slashes]. rewrite Hc.
  split; [reflexivity |]. cbn [PyPath.name].
  unfold PyPath.is_root_part.
  destruct (String.eqb_spec (String c s) "/") as [[= -> ->] | _];
    [discriminate Hc |].
  destruct (String.eqb_spec (String c s) "//") as [[= -> ->] | _];
    [discriminate Hc | reflexivity].
Qed.

(** Without options, a plain name is generated as it is. *)
Lemma no_option_same_name self nm index tot :
  no_option self -> is_plain_name nm = true ->
  new_name_of self nm index tot = inr nm.
Proof.
  intros (Hp & Hs & Hn & He & Hpat) Hnm.
  destruct (plain_name_parse nm Hnm) as (Hparse & Hname).
  unfold new_name_of, default_name, PyPath.stem, PyPath.suffix.
  rewrite Hpat, Hp, Hs, Hn, He, Hparse, Hname. cbn [PyStr.truthy].
  now rewrite stem_suffix.
Qed.

(** An iteration whose generated name is the current name. *)
Lemma loop_body_same_name self tot index p c w :
  new_name_of self (PyPath.name p) index tot = inr (PyPath.name p) ->
  exists w',
    loop_body self tot index p c w =
      (inr {| c_renamed := c_renamed c; c_skipped := c_skipped c + 1;
              c_errors := c_errors c |}, w')
    /\ w_fs w' = w_fs w /\ w_renames w' = w_renames w.
Proof.
  intros Hgen. unfold loop_body, try_except, bind.
  destruct (generate_new_name_result self (PyPath.name p) index tot w)
    as (w1 & -> & Hfs & Hcalls).
  rewrite Hgen, rename_file_cases. cbn. rewrite String.eqb_refl.
  eexists. split; [reflexivity |]. cbn. auto.
Qed.

Lemma no_option_loop self tot files : forall index c w c' w',
  no_option self ->
  Forall (fun p => is_plain_name (PyPath.name p) = true) files ->
  loop self tot index files c w = (inr c', w') ->
  c' = {| c_renamed := c_renamed c;
          c_skipped := c_skipped c + Z.of_nat (length files);
          c_errors := c_errors c |}
  /\ w_fs w' = w_fs w /\ w_renames w' = w_renames w.
Proof.
  induction files as [| p rest IH]; intros index c w c' w' Hno Hall.
  - cbn. intros [= <- <-]. repeat split. destruct c; cbn. f_equal. lia.
  - inversion Hall as [| ? ? Hp Hrest]; subst.
    cbn [loop]. unfold bind.
    destruct (loop_body_same_name self tot index p c w
                (no_option_same_name _ _ _ _ Hno Hp)) as (w1 & -> & F1 & R1).
    intros E2. destruct (IH _ _ _ _ _ Hno Hrest E2) as (-> & F2 & R2).
    cbn [c_renamed c_skipped c_errors length]. repeat split; try congruence.
    f_equal. lia.
Qed.

(** X5. A renamer without any naming option renames nothing: when the
    listed entries have plain names, every candidate is skipped, no
    rename call is issued and the file system is left as it was. *)
Theorem no_option_run_changes_nothing self target w res w' entries :
  no_option self ->
  listing self (w_fs w) target = inr entries ->
  Forall (fun p => is_plain_name (PyPath.name p) = true) entries ->
  rename_files self target w = (inr res, w') ->
  renamed res = 0 /\ errors res = 0 /\ skipped res = total res
  /\ w_fs w' = w_fs w /\ w_renames w' = w_renames w.
Proof.
  intros Hno Hl Hall Hrun.
  destruct (rename_files_inr _ _ _ _ _ Hrun)
    as (entries' & c' & _ & _ & Hl' & _ & E & ->).
  rewrite Hl in Hl'. injection Hl' as <-. cbn.
  apply no_option_loop in E; [| exact Hno |].
  - destruct E as (-> & Hfs & Hr). cbn in *. auto.
  - rewrite Forall_forall in Hall |- *. intros p Hp.
    apply Hall. now apply collect_In in Hp.
Qed.

(** The rename calls of one iteration: none, or one whose source is the
    file of the iteration. *)
Lemma loop_body_sources self tot index p c w c' w' :
  loop_body self tot index p c w = (inr c', w') ->
  exists calls,
    w_renames w' = (calls ++ w_renames w)%list
    /\ (map rc_src calls = [] \/ map rc_src calls = [p]).
Proof.
  unfold loop_body, try_except, bind.
  destruct (generate_new_name_result self (PyPath.name p) index tot w)
    as (w1 & -> & Hfs & Hcalls).
  destruct (new_name_of self (PyPath.name p) index tot) as [e | nm].
  - cbn. intros [= <- <-]. exists []. cbn. auto.
  - rewrite rename_file_cases. cbn. rewrite <- Hcalls.
    destruct (String.eqb (PyPath.name p) nm); cbn;
      [intros [= <- <-]; exists []; cbn; auto |].
    destruct (fs_stat_error (w_fs w1) _); cbn;
      [intros [= <- <-]; exists []; cbn; auto |].
    destruct (fs_exists (w_fs w1) _); cbn;
      [intros [= <- <-]; exists []; cbn; auto |].
    destruct (dry_run self); cbn;
      [intros [= <- <-]; exists []; cbn; auto |].
    destruct (fs_rename (w_fs w1) p _); cbn; intros [= <- <-];
      (eexists [_]; cbn; split; [reflexivity | right; reflexivity]).
Qed.

Lemma subsequence_all_skipped {A} (l : list A) : subsequence [] l.
Proof. induction l; constructor; auto. Qed.

Lemma subsequence_In {A} (l1 l2 : list A) x :
  subsequence l1 l2 -> In x l1 -> In x l2.
Proof.
  induction 1 as [| y l1 l2 _ IH | y l1 l2 _ IH]; cbn; intuition.
Qed.

Lemma loop_sources self tot files : forall index c w c' w',
  loop self tot index files c w = (inr c', w') ->
  exists calls,
    w_renames w' = (calls ++ w_renames w)%list
    /\ subsequence (renamed_sources calls) files.
Proof.
  induction files as [| p rest IH]; intros index c w c' w'.
  - cbn. intros [= <- <-]. exists []. split; [reflexivity | constructor].
  - cbn [loop]. unfold bind.
    destruct (loop_body self tot index p c w) as [[e | c1] w1] eqn:E1;
      [discriminate |].
    intros E2.
    destruct (loop_body_sources _ _ _ _ _ _ _ _ E1) as (k1 & Hc1 & Hs1).
    destruct (IH _ _ _ _ _ E2) as (k2 & Hc2 & Hs2).
    exists (k2 ++ k1)%list. split.
    + rewrite Hc2, Hc1. apply app_assoc.
    + unfold renamed_sources in *. rewrite map_app, rev_app_distr.
      destruct Hs1 as [-> | ->]; cbn [rev app].
      * now constructor.
      * now constructor.
Qed.

(** X6. In a completed run, the sources of the rename calls, in the order
    of the calls, are candidates taken in the order of the sorted
    candidate list, each at most once per position of the list: a path
    that is not a candidate (a directory, a file that the filter leaves
    out, an entry that was not listed) is never renamed. *)
Theorem rename_sources_are_candidates self target w res w' :
  rename_files self target w = (inr res, w') ->
  exists entries calls,
    listing self (w_fs w) target = inr entries
    /\ w_renames w' = (calls ++ w_renames w)%list
    /\ subsequence (renamed_sources calls) (collect self (w_fs w) entries)
    /\ Forall (fun call =>
                 In (rc_src call) entries
                 /\ _should_process_file self (w_fs w) (rc_src call) = true)
              calls.
Proof.
  intros Hrun.
  destruct (rename_files_inr _ _ _ _ _ Hrun)
    as (entries & c' & _ & _ & Hl & _ & E & ->).
  destruct (loop_sources _ _ _ _ _ _ _ _ E) as (calls & Hc & Hs).
  exists entries, calls. split; [exact Hl |]. split; [exact Hc |].
  split; [exact Hs |].
  apply Forall_forall. intros call Hin.
  apply (collect_In self (w_fs w) entries).
  eapply subsequence_In; [exact Hs |].
  unfold renamed_sources. rewrite <- in_rev. now apply in_map.
Qed.

End Runs.

(** ** Generated names *)

Section Names.
Context {H : Host}.

Lemma decimal_length_mono n1 n2 :
  0 < n1 -> n1 <= n2 ->
  (String.length (PyInt.decimal n1) <= String.length (PyInt.decimal n2))%nat.
Proof.
  intros H1 H12.
  destruct (decimal_spec n1 ltac:(lia)) as (j1 & -> & _ & Hlo1 & _ & _).
  destruct (decimal_spec n2 ltac:(lia)) as (j2 & -> & _ & _ & Hhi2 & _).
  specialize (Hlo1 H1).
  destruct (Nat.le_gt_cases j1 j2) as [Hle | Hgt]; [lia |].
  assert (10 ^ Z.of_nat (S j2) <= 10 ^ Z.of_nat j1)
    by (apply Z.pow_le_mono_r; lia).
  lia.
Qed.

Lemma append_cancel_l s : forall a b, s ++ a = s ++ b -> a = b.
Proof.
  induction s as [| c s IH]; cbn; intros a b E; [exact E |].
  injection E as E. now apply IH.
Qed.

Lemma append_same_length : forall a b t u,
  String.length a = String.length b -> a ++ t = b ++ u -> a = b.
Proof.
  induction a as [| x a IH]; intros [| y b] t u Hl E; cbn in *;
    try discriminate; [reflexivity |].
  injection E as -> E. f_equal. eapply IH; [| exact E]. lia.
Qed.

(** X7. Numbering within a run.  With [add_number] and no pattern, for
    positions [0 <= index < total]: the number written into the name has
    exactly as many characters as the total has digits, and one original
    name at two different positions gets two different names. *)
Theorem numbering_fixed_width_injective self nm tot i j :
  pattern self = "" -> add_number self = true ->
  0 <= i < tot -> 0 <= j < tot ->
  String.length (PyInt.format_0d (PyInt.len_str tot) (i + 1))
    = PyInt.len_str tot
  /\ (new_name_of self nm i tot = new_name_of self nm j tot -> i = j).
Proof.
  intros Hpat Hnum Hi Hj.
  assert (Hlen : forall k, 0 <= k < tot ->
            String.length (PyInt.zfill (String.length (PyInt.decimal tot))
                                       (PyInt.decimal (k + 1)))
            = String.length (PyInt.decimal tot)).
  { intros k Hk.
    destruct (zfill_spec (String.length (PyInt.decimal tot))
                (PyInt.decimal (k + 1))) as (_ & ->).
    pose proof (decimal_length_mono (k + 1) tot ltac:(lia) ltac:(lia)).
    lia. }
  split.
  - unfold PyInt.format_0d, PyInt.len_str, PyInt.str.
    destruct (i + 1 <? 0) eqn:E1; [apply Z.ltb_lt in E1; lia |].
    destruct (tot <? 0) eqn:E2; [apply Z.ltb_lt in E2; lia |].
    now apply Hlen.
  - unfold new_name_of. rewrite Hpat. cbn [PyStr.truthy].
    intros [= E].
    rewrite !default_name_eq, Hnum in E by lia.
    apply append_cancel_l, append_cancel_l in E.
    cbn [String.append] in E. injection E as E.
    apply append_same_length in E; [| now rewrite !Hlen].
    apply (f_equal PyInt.value) in E.
    destruct (zfill_spec (String.length (PyInt.decimal tot))
                (PyInt.decimal (i + 1))) as (Vi & _).
    destruct (zfill_spec (String.length (PyInt.decimal tot))
                (PyInt.decimal (j + 1))) as (Vj & _).
    rewrite Vi, Vj in E.
    destruct (decimal_spec (i + 1) ltac:(lia)) as (_ & _ & _ & _ & _ & Wi).
    destruct (decimal_spec (j + 1) ltac:(lia)) as (_ & _ & _ & _ & _ & Wj).
    lia.
Qed.

Lemma rfind_append_char ch t : forall s,
  PyStr.contains ch t = false ->
  PyStr.rfind ch (s ++ String ch t) = Some (String.length s).
Proof.
  intros s Ht. induction s as [| a s IH]; cbn.
  - now rewrite (contains_rfind _ _ Ht), Ascii.eqb_refl.
  - now rewrite IH.
Qed.

Lemma drop_append s t : PyStr.drop (String.length s) (s ++ t) = t.
Proof. induction s as [| a s IH]; cbn; [now destruct t | exact IH]. Qed.

(** The suffix of a name that ends with a dot and a dot-free extension. *)
Lemma suffix_of_new_name body e :
  body <> "" -> e <> "" -> PyStr.contains "." e = false ->
  PyPath.suffix_of_name (body ++ "." ++ e) = "." ++ e.
Proof.
  intros Hb He Hd. unfold PyPath.suffix_of_name, PyPath.suffix_start.
  cbn [String.append]. rewrite rfind_append_char by exact Hd.
  rewrite length_append. cbn [String.length].
  destruct body as [| x body]; [contradiction |].
  destruct e as [| y e]; [contradiction |].
  cbn [String.length].
  replace (Nat.ltb 0 (S (String.length body))) with true
    by (symmetry; apply Nat.ltb_lt; lia).
  replace (Nat.ltb (S (String.length body))
             (S (String.length body) + S (S (String.length e)) - 1))
    with true by (symmetry; apply Nat.ltb_lt; lia).
  cbn [andb].
  apply (drop_append (String x body) (String "." (String y e))).
Qed.

(** X8. The new extension.  For a renamer built with a [new_ext] argument
    that is not empty, also once normalised (lower-cased by [str.lower],
    leading dots stripped), every generated name is some text followed by
    a dot and the normalised extension.  When that text is not empty and the
    extension holds no dot, the suffix of the generated name is the dot
    and the extension; if moreover normalising that suffix gives the
    extension back (as it does for an ASCII extension), a file that bears
    the name passes every filter built from a list that holds the same
    [new_ext] argument. *)
Theorem new_extension_is_normalised
    pre suf num e pat rec flt dry nm index tot out :
  e <> "" ->
  normalize_ext e <> "" ->
  new_name_of (__init__ pre suf num e pat rec flt dry) nm index tot = inr out ->
  exists body,
    out = body ++ "." ++ PyStr.lstrip "." (str_lower e)
    /\ (body <> "" -> PyStr.contains "." (normalize_ext e) = false ->
        PyPath.suffix_of_name out = "." ++ normalize_ext e
        /\ (normalize_ext ("." ++ normalize_ext e) = normalize_ext e ->
            forall pre' suf' num' e' pat' rec' raw dry' fs p,
              In e raw -> PyPath.name p = out ->
              _should_process_file
                (__init__ pre' suf' num' e' pat' rec' (Some raw) dry') fs p
              = fs_is_file fs p)).
Proof.
  intros He Hne.
  assert (Hset : new_ext_set (__init__ pre suf num e pat rec flt dry)
                 = Some (normalize_ext e)).
  { unfold new_ext_set, __init__. cbn [new_ext].
    destruct e as [| c e]; [now destruct He |]. cbn [PyStr.truthy].
    destruct (normalize_ext (String c e)); [now destruct Hne | reflexivity]. }
  unfold new_name_of, default_name. rewrite Hset.
  intros Hout.
  assert (Hshape : exists body, out = body ++ "." ++ normalize_ext e).
  { destruct (PyStr.truthy (pattern (__init__ pre suf num e pat rec flt dry))).
    - destruct (str_format _ _ _ _) as [rendered | ex].
      + injection Hout as <-. now exists rendered.
      + destruct (is_key_or_value_error ex); [| discriminate].
        injection Hout as <-. eexists. reflexivity.
    - injection Hout as <-. eexists. reflexivity. }
  destruct Hshape as (body & ->). exists body. split; [reflexivity |].
  intros Hb Hd.
  pose proof (suffix_of_new_name body (normalize_ext e) Hb Hne Hd) as Hsuf.
  split; [exact Hsuf |].
  intros Hstable pre' suf' num' e' pat' rec' raw dry' fs p Hin Hp.
  unfold _should_process_file.
  destruct raw as [| r0 raw]; [destruct Hin |].
  change (filter_ext_set (__init__ pre' suf' num' e' pat' rec'
                            (Some (r0 :: raw)) dry'))
    with (Some (map normalize_ext (r0 :: raw))).
  destruct (fs_is_file fs p); cbn [negb]; [| reflexivity].
  unfold PyPath.suffix. rewrite Hp, Hsuf.
  assert (Hm : PyStr.mem (normalize_ext ("." ++ normalize_ext e))
                 (map normalize_ext (r0 :: raw)) = true).
  { apply mem_In, in_map_iff. exists e. split; [| exact Hin].
    symmetry. exact Hstable. }
  now rewrite Hm.
Qed.

End Names.

Lemma lstrip_idem ch s :
  PyStr.lstrip ch (PyStr.lstrip ch s) = PyStr.lstrip ch s.
Proof.
  induction s as [| a s IH]; cbn; [reflexivity |].
  destruct (Ascii.eqb a ch) eqn:E; [exact IH |]. cbn. now rewrite E.
Qed.

(** On the concrete host, whose [str_lower] is [PyStr.lower], normalising
    the dot followed by a normalised extension gives the extension
    back. *)
Lemma normalize_ext_stable rest e :
  let H := simple_host rest in
  normalize_ext ("." ++ normalize_ext e) = normalize_ext e.
Proof.
  cbn. unfold normalize_ext. cbn [str_lower simple_host].
  change (PyStr.lower ("." ++ PyStr.lstrip "." (PyStr.lower e)))
    with (String "." (PyStr.lower (PyStr.lstrip "." (PyStr.lower e)))).
  cbn [PyStr.lstrip]. rewrite Ascii.eqb_refl.
  now rewrite <- lower_lstrip, lower_idem, lstrip_idem.
Qed.

(** ** [main] *)

Section MainProgram.
Context {H : Host}.

(** [validate_path] answers [True] exactly when the path can be tested,
    exists and is a directory. *)
Lemma validate_path_true fs p :
  (exists err, Utils.validate_path fs p = inr (true, err))
  <-> fs_stat_error fs p = None
      /\ fs_exists fs p = true /\ fs_is_dir fs p = true.
Proof.
  unfold Utils.validate_path.
  destruct (fs_stat_error fs p);
    [split; [intros (? & [=]) | intros ([=] & _)] |].
  destruct (fs_exists fs p); cbn [negb];
    [| split; [intros (? & [=]) | intros (_ & [=] & _)]].
  destruct (fs_is_dir fs p); cbn [negb orb];
    [| split; [intros (? & [=]) | intros (_ & _ & [=])]].
  destruct (Z.land (fs_mode fs p) 292 =? 0); split; eauto.
Qed.

Lemma summary_not_empty dry res : XRename.summary dry res <> [].
Proof. unfold XRename.summary. destruct dry; discriminate. Qed.

(** The logging setup touches the file system only: it raises and leaves
    the state, or returns with the same log and trace. *)
Lemma setup_logging_cases log_file w :
  (exists e, Utils.setup_logging log_file w = (inl e, w))
  \/ (exists w0,
        Utils.setup_logging log_file w = (inr tt, w0)
        /\ w_log w0 = w_log w /\ w_renames w0 = w_renames w
        /\ (log_file = "" -> w0 = w)).
Proof.
  unfold Utils.setup_logging, update_fs, ret.
  destruct log_file as [| c l]; cbn [PyStr.truthy].
  - right. exists w. auto.
  - destruct (fs_open_log (w_fs w) _) as [e | fs'].
    + left. now exists e.
    + right. eexists. split; [reflexivity |]. cbn.
      repeat split; discriminate.
Qed.

(** [main], case by case. *)
Lemma main_cases args w :
  let target := PyPath.parse (XRename.a_path args) in
  (exists e,
     Utils.setup_logging (XRename.a_log args) w = (inl e, w)
     /\ XRename.main args w = (XRename.uncaught e, w))
  \/ (exists w0,
        Utils.setup_logging (XRename.a_log args) w = (inr tt, w0)
        /\ w_log w0 = w_log w /\ w_renames w0 = w_renames w
        /\ (XRename.a_log args = "" -> w0 = w)
        /\ ((exists e,
               fs_stat_error (w_fs w0) target = Some e
               /\ XRename.main args w = (XRename.uncaught e, w0))
            \/ (fs_stat_error (w_fs w0) target = None
                /\ (fs_exists (w_fs w0) target = false
                    \/ fs_is_dir (w_fs w0) target = false)
                /\ exists err,
                     XRename.main args w =
                       ({| XRename.out_stdout := [];
                           XRename.out_stderr := err;
                           XRename.out_exit := 1 |}, w0))
            \/ (fs_stat_error (w_fs w0) target = None
                /\ fs_exists (w_fs w0) target = true
                /\ fs_is_dir (w_fs w0) target = true
                /\ exists err,
                     XRename.main args w =
                       match rename_files (XRename.make_renamer args)
                               target w0 with
                       | (inr res, w') =>
                           ({| XRename.out_stdout :=
                                 XRename.summary (XRename.a_dry_run args) res;
                               XRename.out_stderr := err;
                               XRename.out_exit :=
                                 if errors res =? 0 then 0 else 1 |}, w')
                       | (inl e, w') =>
                           ({| XRename.out_stdout := [];
                               XRename.out_stderr :=
                                 (err ++ [ErrOccurred e])%list;
                               XRename.out_exit := 1 |}, w')
                       end))).
Proof.
  intros target. unfold XRename.main. fold target.
  destruct (setup_logging_cases (XRename.a_log args) w)
    as [(e & ->) | (w0 & -> & Hlog & Hcalls & Hsame)].
  { left. now exists e. }
  right. exists w0. do 4 (split; [assumption || reflexivity |]).
  pose proof (validate_path_true (w_fs w0) target) as Hv.
  unfold Utils.validate_path in *.
  destruct (fs_stat_error (w_fs w0) target) as [e |].
  { left. now exists e. }
  right.
  destruct (fs_exists (w_fs w0) target); cbn [negb].
  2: { left. split; [reflexivity |]. split; [now left |]. eauto. }
  destruct (fs_is_dir (w_fs w0) target); cbn [negb orb].
  2: { left. split; [reflexivity |]. split; [now right |]. eauto. }
  right. do 3 (split; [reflexivity |]).
  destruct (Z.land (fs_mode (w_fs w0) target) 292 =? 0); eauto.
Qed.

(** X9. The exit status of [main] is 0 or 1.  It is 0 exactly when the
    logging setup returns (the log file, when one is given, can be
    opened), the path can be tested, exists and is a directory on the
    file system that the setup leaves, [rename_files] completes, and the
    run counted no error. *)
Theorem main_exit_status args w :
  let target := PyPath.parse (XRename.a_path args) in
  (XRename.out_exit (fst (XRename.main args w)) = 0
   \/ XRename.out_exit (fst (XRename.main args w)) = 1)
  /\ (XRename.out_exit (fst (XRename.main args w)) = 0
      <-> exists w0 res w',
            Utils.setup_logging (XRename.a_log args) w = (inr tt, w0)
            /\ fs_stat_error (w_fs w0) target = None
            /\ fs_exists (w_fs w0) target = true
            /\ fs_is_dir (w_fs w0) target = true
            /\ rename_files (XRename.make_renamer args) target w0
               = (inr res, w')
            /\ errors res = 0).
Proof.
  intros target. subst target.
  destruct (main_cases args w)
    as [(e & Hs & ->)
       | (w0 & Hs & _ & _ & _
          & [(e & Hst & ->)
            | [(Hst & Hno & err & ->) | (Hst & Hex & Hdir & err & ->)]])].
  - cbn. split; [now right |]. split; [discriminate |].
    intros (w0 & res & w' & Hs' & _). congruence.
  - cbn. split; [now right |]. split; [discriminate |].
    intros (w1 & res & w' & Hs' & Hst' & _). congruence.
  - cbn. split; [now right |]. split; [discriminate |].
    intros (w1 & res & w' & Hs' & _ & Hex' & Hdir' & _).
    assert (w1 = w0) by congruence. subst w1.
    destruct Hno; congruence.
  - destruct (rename_files (XRename.make_renamer args)
                (PyPath.parse (XRename.a_path args)) w0)
      as [[e | res] w'] eqn:E; cbn [fst XRename.out_exit].
    + split; [now right |]. split; [discriminate |].
      intros (w1 & res & w2 & Hs' & _ & _ & _ & E' & _).
      assert (w1 = w0) by congruence. subst w1. congruence.
    + destruct (errors res =? 0) eqn:Ee.
      * split; [now left |]. split; [| reflexivity].
        intros _. apply Z.eqb_eq in Ee. exists w0, res, w'. auto 10.
      * split; [now right |]. split; [discriminate |].
        intros (w1 & res2 & w2 & Hs' & _ & _ & _ & E' & E0).
        assert (w1 = w0) by congruence. subst w1.
        assert (res2 = res) by congruence. subst res2.
        apply Z.eqb_neq in Ee. contradiction.
Qed.

(** X10. When [main] prints no summary, it has issued no rename call and
    logged nothing, the exit status is 1, and the file system is the one
    that the logging setup left.  This happens exactly in these cases:
    the logging setup raised (the log file cannot be opened; the state is
    untouched); or, on the file system that the setup left, the test of
    the path raised, the path does not exist, it is not a directory, or
    the walk of the directory or the test [is_file] on one of its
    entries raised.  The ValueError of [rename_files] for a target that
    is not a directory is never reached, since [validate_path] has
    answered before. *)
Theorem main_without_summary args w :
  let target := PyPath.parse (XRename.a_path args) in
  let out := fst (XRename.main args w) in
  let w' := snd (XRename.main args w) in
  XRename.out_stdout out = []
  <-> XRename.out_exit out = 1
      /\ w_log w' = w_log w
      /\ w_renames w' = w_renames w
      /\ ((exists e,
             Utils.setup_logging (XRename.a_log args) w = (inl e, w)
             /\ w' = w
             /\ XRename.out_stderr out = [Traceback e])
          \/ (exists w0,
                Utils.setup_logging (XRename.a_log args) w = (inr tt, w0)
                /\ w' = w0
                /\ ((exists e,
                       fs_stat_error (w_fs w0) target = Some e
                       /\ XRename.out_stderr out = [Traceback e])
                    \/ (fs_stat_error (w_fs w0) target = None
                        /\ (fs_exists (w_fs w0) target = false
                            \/ fs_is_dir (w_fs w0) target = false))
                    \/ (fs_stat_error (w_fs w0) target = None
                        /\ fs_exists (w_fs w0) target = true
                        /\ fs_is_dir (w_fs w0) target = true
                        /\ exists e,
                             walk_error (w_fs w0)
                               (listing (XRename.make_renamer args)
                                  (w_fs w0) target) = Some e
                             /\ In (ErrOccurred e)
                                   (XRename.out_stderr out))))).
Proof.
  intros target out w'. subst out w' target.
  destruct (main_cases args w)
    as [(e & Hs & ->)
       | (w0 & Hs & Hlog & Hcalls & _
          & [(e & Hst & ->)
            | [(Hst & Hno & err & ->) | (Hst & Hex & Hdir & err & ->)]])].
  - cbn. split; [intros _ | reflexivity].
    do 3 (split; [reflexivity |]). left. exists e. auto.
  - cbn. split; [intros _ | reflexivity].
    split; [reflexivity |]. split; [exact Hlog |]. split; [exact Hcalls |].
    right. exists w0. split; [exact Hs |]. split; [reflexivity |].
    left. exists e. auto.
  - cbn. split; [intros _ | reflexivity].
    split; [reflexivity |]. split; [exact Hlog |]. split; [exact Hcalls |].
    right. exists w0. split; [exact Hs |]. split; [reflexivity |].
    right; left. auto.
  - destruct (rename_files (XRename.make_renamer args)
                (PyPath.parse (XRename.a_path args)) w0)
      as [[e | res] w1] eqn:E;
      cbn [fst snd XRename.out_stdout XRename.out_exit XRename.out_stderr].
    + apply rename_files_inl in E.
      destruct E as (-> & [He | [(_ & Hd & _) | (_ & _ & Hw)]]);
        [congruence | congruence |].
      split; [intros _ | reflexivity].
      split; [reflexivity |]. split; [exact Hlog |]. split; [exact Hcalls |].
      right. exists w0. split; [exact Hs |]. split; [reflexivity |].
      right; right. do 3 (split; [assumption |]).
      exists e. split; [exact Hw |]. apply in_or_app. right. now left.
    + split; [intros E0; now destruct (summary_not_empty _ _ E0) |].
      intros (_ & _ & _ & [(e & Hs' & _) | (w2 & Hs' & Hw2 & Hcase)]);
        [congruence |].
      assert (w2 = w0) by congruence. subst w2.
      destruct Hcase as [(e & He & _) | [(_ & Hno) | (_ & _ & _ & e & Hw & _)]].
      * congruence.
      * destruct Hno; congruence.
      * assert (Hfail : rename_files (XRename.make_renamer args)
                          (PyPath.parse (XRename.a_path args)) w0
                        = (inl e, w0)).
        { apply rename_files_raises. right; right.
          repeat split; congruence. }
        congruence.
Qed.

(** X11. [main] with [--dry-run] issues no rename call, and the only
    change it makes to the file system is that of the logging setup,
    which creates the log file that [--log] names when it is missing:
    without [--log] the file system is left as it was found. *)
Theorem main_dry_run_keeps_files args w :
  XRename.a_dry_run args = true ->
  w_renames (snd (XRename.main args w)) = w_renames w
  /\ w_fs (snd (XRename.main args w))
     = w_fs (snd (Utils.setup_logging (XRename.a_log args) w))
  /\ (XRename.a_log args = "" -> w_fs (snd (XRename.main args w)) = w_fs w).
Proof.
  intros Hdry.
  assert (Hd : dry_run (XRename.make_renamer args) = true) by exact Hdry.
  destruct (main_cases args w)
    as [(e & Hs & ->)
       | (w0 & Hs & Hlog & Hcalls & Hsame
          & [(e & Hst & ->)
            | [(Hst & Hno & err & ->) | (Hst & Hex & Hdir & err & ->)]])];
    rewrite Hs; cbn [snd].
  - auto.
  - split; [exact Hcalls |]. split; [reflexivity |].
    intros Hl. now rewrite (Hsame Hl).
  - split; [exact Hcalls |]. split; [reflexivity |].
    intros Hl. now rewrite (Hsame Hl).
  - destruct (rename_files (XRename.make_renamer args)
                (PyPath.parse (XRename.a_path args)) w0)
      as [r w1] eqn:E.
    destruct (rename_files_dry_frame _ _ _ _ _ Hd E) as (Hfs & Hr).
    assert (Hgoal : w_renames w1 = w_renames w /\ w_fs w1 = w_fs w0
                    /\ (XRename.a_log args = "" -> w_fs w1 = w_fs w)).
    { split; [congruence |]. split; [exact Hfs |].
      intros Hl. rewrite Hfs. now rewrite (Hsame Hl). }
    destruct r; cbn [snd]; exact Hgoal.
Qed.

Lemma split_aux_sep sep w rest : forall cur,
  PyStr.contains sep w = false ->
  PyStr.split_aux sep cur (w ++ String sep rest)
  = (cur ++ w) :: PyStr.split_aux sep "" rest.
Proof.
  induction w as [| a w IH]; intros cur Hw; cbn.
  - now rewrite Ascii.eqb_refl, append_nil_r.
  - cbn in Hw. apply orb_false_iff in Hw. destruct Hw as (Ha & Hw).
    now rewrite Ha, IH, append_assoc.
Qed.

(** Cutting at commas undoes joining with commas. *)
Lemma split_concat_comma l :
  l <> [] ->
  Forall (fun e => PyStr.contains "," e = false) l ->
  PyStr.split "," (String.concat "," l) = l.
Proof.
  intros Hne Hall. unfold PyStr.split.
  induction Hall as [| w l Hw Hl IH]; [contradiction |].
  cbn [String.concat]. destruct l as [| w' l'].
  - now rewrite split_aux_no_sep.
  - cbn [String.append]. rewrite split_aux_sep by exact Hw.
    cbn [String.append]. f_equal. apply IH. discriminate.
Qed.

(** X12. The [--filter] argument.  When the argument is the entries of a
    list joined by commas (no entry holds a comma) and is not empty, the
    renamer that [main] builds has the list of the normalised entries as
    its filter; with an empty argument it has no filter. *)
Theorem filter_argument_entries args l :
  Forall (fun e => PyStr.contains "," e = false) l ->
  XRename.a_filter args = String.concat "," l ->
  filter_ext (XRename.make_renamer args) =
    if PyStr.truthy (String.concat "," l)
    then Some (map normalize_ext l) else None.
Proof.
  intros Hall Hf. unfold XRename.make_renamer, __init__. cbn [filter_ext].
  rewrite Hf.
  destruct (PyStr.truthy (String.concat "," l)) eqn:Et; [| reflexivity].
  assert (Hne : l <> []) by (intros ->; discriminate).
  rewrite split_concat_comma by assumption.
  destruct l; [contradiction | reflexivity].
Qed.

End MainProgram.

(** [main] and the log file.  [xrename.py docs --prefix N_ --log
    nodir/run.log]: the log file cannot be opened, the exception is not
    caught, nothing is renamed.  [xrename.py docs --dry-run --log
    docs/run.log]: the log file is created in the directory before it is
    listed, so that the run counts three files. *)
Example main_log_examples :
  forall rest,
    let H := simple_host rest in
    let w := initial_world Examples.fs_xy in
    fst (XRename.main Cases.args_log_nowhere w)
    = XRename.uncaught FileNotFoundError
    /\ w_fs (snd (XRename.main Cases.args_log_nowhere w)) = Examples.fs_xy
    /\ fst (XRename.main Cases.args_dry_log w)
       = {| XRename.out_stdout :=
              [ newline
                ++ "[Preview mode] 3 files are expected to be changed." ];
            XRename.out_stderr := [];
            XRename.out_exit := 0 |}
    /\ SimpleFS.lookup (w_fs (snd (XRename.main Cases.args_dry_log w)))
         ["docs"; "run.log"]
       = Some (SimpleFS.File "").
Proof. intros rest. vm_compute. repeat split. Qed.

(** ** Accounting of a run *)

Section Accounting.
Context {H : Host}.

Lemma loop_body_errors self tot index p c w c' w' :
  loop_body self tot index p c w = (inr c', w') ->
  c_errors c' =
    c_errors c + (if generation_raises self tot (index, p) then 1 else 0).
Proof.
  unfold loop_body, try_except, bind, generation_raises. cbn [fst snd].
  destruct (generate_new_name_result self (PyPath.name p) index tot w)
    as (w1 & -> & _ & _).
  destruct (new_name_of self (PyPath.name p) index tot) as [e | nm].
  - cbn. intros [= <- <-]. reflexivity.
  - destruct (rename_file_returns self p nm w1) as (b & w2 & ->).
    destruct b; cbn; intros [= <- <-]; cbn; lia.
Qed.

Lemma loop_errors self tot files : forall index c w c' w',
  loop self tot index files c w = (inr c', w') ->
  c_errors c' =
    c_errors c
    + Z.of_nat (length (filter (generation_raises self tot)
                               (enumerate_from index files))).
Proof.
  induction files as [| p rest IH]; intros index c w c' w'.
  - cbn. intros [= <- <-]. lia.
  - cbn [loop enumerate_from filter]. unfold bind.
    destruct (loop_body self tot index p c w) as [[e | c1] w1] eqn:E1;
      [discriminate |].
    intros E2. rewrite (IH _ _ _ _ _ E2), (loop_body_errors _ _ _ _ _ _ _ _ E1).
    destruct (generation_raises self tot (index, p)); cbn [length]; lia.
Qed.

(** X14. The error counter of a completed run is the number of
    candidates for which name generation raised; a failure of the rename
    call never reaches it.  Without a pattern the counter is 0. *)
Theorem errors_count_generation_failures self target w res w' :
  rename_files self target w = (inr res, w') ->
  exists entries,
    listing self (w_fs w) target = inr entries
    /\ errors res =
         Z.of_nat (length (filter (generation_raises self (total res))
                     (enumerate_from 0 (collect self (w_fs w) entries))))
    /\ (pattern self = "" -> errors res = 0).
Proof.
  intros Hrun.
  destruct (rename_files_inr _ _ _ _ _ Hrun)
    as (entries & c' & _ & _ & Hl & _ & E & ->). exists entries. split; [exact Hl |].
  apply loop_errors in E. cbn in E |- *. split; [exact E |].
  intros Hpat. rewrite E.
  rewrite (filter_ext_in _ (fun _ => false)), filter_false; [reflexivity |].
  intros ip _. unfold generation_raises, new_name_of. now rewrite Hpat.
Qed.

Lemma loop_body_monotone self tot index p c w c' w' :
  loop_body self tot index p c w = (inr c', w') ->
  c_renamed c <= c_renamed c' /\ c_skipped c <= c_skipped c'
  /\ c_errors c <= c_errors c'.
Proof.
  intros E.
  destruct (loop_body_one_bucket self tot index p c w)
    as (c2 & w2 & E2 & Hc).
  rewrite E in E2. injection E2 as <- <-.
  destruct Hc as [-> | [-> | ->]]; cbn; lia.
Qed.

Lemma loop_monotone self tot files : forall index c w c' w',
  loop self tot index files c w = (inr c', w') ->
  c_renamed c <= c_renamed c' /\ c_skipped c <= c_skipped c'
  /\ c_errors c <= c_errors c'.
Proof.
  induction files as [| p rest IH]; intros index c w c' w'.
  - cbn. intros [= <- <-]. lia.
  - cbn [loop]. unfold bind.
    destruct (loop_body self tot index p c w) as [[e | c1] w1] eqn:E1;
      [discriminate |].
    intros E2. apply loop_body_monotone in E1. apply IH in E2. lia.
Qed.

(** X15. Bounds of the counters.  In a completed run each of renamed,
    skipped and errors lies between 0 and total, and total is the number
    of listed entries that pass [_should_process_file], at most the
    number of listed entries. *)
Theorem counters_within_bounds self target w res w' :
  rename_files self target w = (inr res, w') ->
  0 <= renamed res <= total res
  /\ 0 <= skipped res <= total res
  /\ 0 <= errors res <= total res
  /\ exists entries,
       listing self (w_fs w) target = inr entries
       /\ total res =
            Z.of_nat (length (filter (_should_process_file self (w_fs w))
                                     entries))
       /\ total res <= Z.of_nat (length entries).
Proof.
  intros Hrun.
  destruct (rename_files_inr _ _ _ _ _ Hrun)
    as (entries & c' & _ & _ & Hl & _ & E & ->). cbn.
  pose proof (loop_monotone _ _ _ _ _ _ _ _ E) as (M1 & M2 & M3).
  destruct (loop_counts self (Z.of_nat (length (collect self (w_fs w) entries)))
              (collect self (w_fs w) entries) 0 zero_counters
              (logged INFO
                 (TotalFiles (Z.of_nat (length (collect self (w_fs w) entries))))
                 w)) as (c2 & w2 & E2 & S).
  rewrite E in E2. injection E2 as <- <-.
  unfold count_sum in S. cbn in M1, M2, M3, S.
  repeat split; try lia.
  exists entries. split; [exact Hl |].
  assert (L : length (collect self (w_fs w) entries)
              = length (filter (_should_process_file self (w_fs w)) entries)).
  { unfold collect. symmetry. apply Permutation_length, sort_perm. }
  rewrite L. split; [reflexivity |].
  apply inj_le, filter_length_le.
Qed.

Lemma loop_body_renamed self tot index p c w c' w' :
  dry_run self = false ->
  loop_body self tot index p c w = (inr c', w') ->
  exists calls,
    w_renames w' = (calls ++ w_renames w)%list
    /\ c_renamed c' =
         c_renamed c + Z.of_nat (length (filter call_succeeded calls)).
Proof.
  intros Hdry. unfold loop_body, try_except, bind.
  destruct (generate_new_name_result self (PyPath.name p) index tot w)
    as (w1 & -> & Hfs & Hcalls).
  destruct (new_name_of self (PyPath.name p) index tot) as [e | nm].
  - cbn. intros [= <- <-]. exists []. cbn. split; [auto | lia].
  - rewrite rename_file_cases, Hdry. cbn. rewrite <- Hcalls.
    destruct (String.eqb (PyPath.name p) nm); cbn;
      [intros [= <- <-]; exists []; cbn; split; [auto | lia] |].
    destruct (fs_stat_error (w_fs w1) _); cbn;
      [intros [= <- <-]; exists []; cbn; split; [auto | lia] |].
    destruct (fs_exists (w_fs w1) _); cbn;
      [intros [= <- <-]; exists []; cbn; split; [auto | lia] |].
    destruct (fs_rename (w_fs w1) p _) eqn:Er; cbn; intros [= <- <-];
      (eexists [_]; cbn; split; [reflexivity |]);
      unfold call_succeeded; cbn; rewrite Er; cbn; lia.
Qed.

Lemma loop_renamed self tot files : forall index c w c' w',
  dry_run self = false ->
  loop self tot index files c w = (inr c', w') ->
  exists calls,
    w_renames w' = (calls ++ w_renames w)%list
    /\ c_renamed c' =
         c_renamed c + Z.of_nat (length (filter call_succeeded calls)).
Proof.
  induction files as [| p rest IH]; intros index c w c' w' Hdry.
  - cbn. intros [= <- <-]. exists []. cbn. split; [auto | lia].
  - cbn [loop]. unfold bind.
    destruct (loop_body self tot index p c w) as [[e | c1] w1] eqn:E1;
      [discriminate |].
    intros E2.
    destruct (loop_body_renamed _ _ _ _ _ _ _ _ Hdry E1) as (k1 & Hc1 & R1).
    destruct (IH _ _ _ _ _ Hdry E2) as (k2 & Hc2 & R2).
    exists (k2 ++ k1)%list. split.
    + rewrite Hc2, Hc1. apply app_assoc.
    + rewrite R2, R1, filter_app, length_app. lia.
Qed.

(** X16. Without [dry_run], the renamed counter of a completed run is the
    number of [Path.rename] calls of the run that succeeded. *)
Theorem renamed_counts_successful_calls self target w res w' :
  dry_run self = false ->
  rename_files self target w = (inr res, w') ->
  exists calls,
    w_renames w' = (calls ++ w_renames w)%list
    /\ renamed res = Z.of_nat (length (filter call_succeeded calls)).
Proof.
  intros Hdry Hrun.
  destruct (rename_files_inr _ _ _ _ _ Hrun)
    as (entries & c' & _ & _ & Hl & _ & E & ->).
  destruct (loop_renamed _ _ _ _ _ _ _ _ Hdry E) as (calls & Hc & R).
  exists calls. split; [exact Hc |]. cbn in R |- *. lia.
Qed.

End Accounting.

(** ** Where renamed files go *)

Section Destinations.
Context {H : Host}.

(** Joining a directory with a plain name, then taking the name and the
    parent, gives the name and the directory back. *)
Lemma join_plain_name d nm :
  is_plain_name nm = true ->
  PyPath.name (PyPath.join d nm) = nm
  /\ PyPath.parent (PyPath.join d nm) = d.
Proof.
  intros Hnm. destruct (plain_name_parse nm Hnm) as (Hparse & Hname).
  unfold PyPath.join.
  assert (Hroot : PyPath.root_of nm = []).
  { pose proof Hnm as Hs. unfold is_plain_name in Hs.
    apply andb_true_iff in Hs. destruct Hs as (_ & Hs).
    apply negb_true_iff in Hs.
    destruct nm as [| c s]; [reflexivity |].
    cbn in Hs. apply orb_false_iff in Hs. destruct Hs as (Hc & _).
    unfold PyPath.root_of. cbn [PyPath.leading_slashes].
    now rewrite Hc. }
  rewrite Hroot, Hparse.
  destruct d as [| a d]; [split; [exact Hname | ] |].
  - cbn [app PyPath.parent]. cbn [PyPath.name] in Hname.
    destruct (PyPath.is_root_part nm) eqn:E; [| reflexivity].
    unfold is_plain_name in Hnm. rewrite <- Hname in Hnm at 1.
    discriminate Hnm.
  - split.
    + unfold PyPath.name.
      destruct d as [| b d]; [reflexivity |].
      change ((a :: b :: d) ++ [nm])%list with (a :: b :: (d ++ [nm]))%list.
      cbn iota. change (a :: b :: (d ++ [nm]))%list
        with ((a :: b :: d) ++ [nm])%list.
      apply last_last.
    + unfold PyPath.parent.
      destruct d as [| b d]; [reflexivity |].
      change ((a :: b :: d) ++ [nm])%list with (a :: b :: (d ++ [nm]))%list.
      cbn iota. change (a :: b :: (d ++ [nm]))%list
        with ((a :: b :: d) ++ [nm])%list.
      apply removelast_last.
Qed.

(** X17. Every rename call of a completed run goes from a candidate to
    the path made of the candidate's directory and the name generated for
    it; when that name is plain (not empty, not the single dot, without a
    slash), the destination is in the directory of the source and bears
    the generated name. *)
Theorem rename_keeps_directory self target w res w' :
  rename_files self target w = (inr res, w') ->
  exists entries calls,
    listing self (w_fs w) target = inr entries
    /\ w_renames w' = (calls ++ w_renames w)%list
    /\ Forall (fun call =>
          exists nm,
            In (rc_src call, inr nm)
               (name_mapping self (collect self (w_fs w) entries))
            /\ rc_dst call = PyPath.join (PyPath.parent (rc_src call)) nm
            /\ (is_plain_name nm = true ->
                PyPath.parent (rc_dst call) = PyPath.parent (rc_src call)
                /\ PyPath.name (rc_dst call) = nm))
        calls.
Proof.
  intros Hrun.
  destruct (rename_files_inr _ _ _ _ _ Hrun)
    as (entries & c' & _ & _ & Hl & _ & E & ->).
  destruct (loop_mapping _ _ _ _ _ _ _ _ E) as (calls & Hc & Hm).
  exists entries, calls. split; [exact Hl |]. split; [exact Hc |].
  eapply Forall_impl; [| exact Hm].
  intros call (nm & Hin & Hd). exists nm.
  split; [exact Hin |]. split; [exact Hd |].
  intros Hnm. rewrite Hd.
  destruct (join_plain_name (PyPath.parent (rc_src call)) nm Hnm). auto.
Qed.

End Destinations.

(** ** The further properties at concrete inputs *)

Ltac run_of r w :=
  let Hrun := fresh "Hrun" in
  let E := fresh "E" in
  assert (Hrun : match fst (@rename_files Examples.host r ["docs"] w) with
                 | inr _ => True
                 | inl _ => False
                 end) by (vm_compute; exact I);
  destruct (@rename_files Examples.host r ["docs"] w)
    as [[?e | res] w'] eqn:E; [destruct Hrun |]; clear Hrun.

Lemma sanitize_filename_no_invalid_char_witness :
  In "/"%char Utils.invalid_chars
  /\ PyStr.contains "/" (Utils.sanitize_filename "a/b<c") = false.
Proof.
  assert (Hin : In "/"%char Utils.invalid_chars)
    by (cbn; right; right; right; right; left; reflexivity).
  split; [exact Hin |].
  exact (sanitize_filename_no_invalid_char "a/b<c" "/" Hin).
Defined.

Lemma sanitize_filename_single_spaces_witness :
  Utils.sanitize_filename " a   b " = "a" ++ String " " "b"
  /\ PyStr.is_space " " = true
  /\ exists y b', "b" = String y b' /\ PyStr.is_space y = false.
Proof.
  split; [reflexivity |]. split; [reflexivity |].
  exact (proj2 (proj2 (sanitize_filename_single_spaces
                         " a   b " "a" " " "b" eq_refl eq_refl))).
Defined.

Lemma sanitize_filename_clean_name_witness :
  is_ascii_text "x_1.txt" = true
  /\ space_free "x_1.txt" = true
  /\ Utils.sanitize_filename "x_1.txt" = "x_1.txt".
Proof.
  split; [reflexivity |]. split; [reflexivity |].
  apply sanitize_filename_clean_name.
  - reflexivity.
  - intros c Hc. cbn in Hc.
    repeat destruct Hc as [<- | Hc]; try reflexivity. destruct Hc.
  - reflexivity.
  - discriminate.
  - intros t. do 8 (destruct t as [| ? t]; [discriminate |]). discriminate.
Defined.

Lemma no_option_run_changes_nothing_witness :
  no_option Cases.no_options
  /\ match @rename_files Examples.host Cases.no_options ["docs"]
             Examples.w_xy with
     | (inr res, w') => renamed res = 0 /\ skipped res = total res
     | (inl _, _) => False
     end.
Proof.
  assert (Hno : no_option Cases.no_options) by (repeat split).
  split; [exact Hno |].
  run_of Cases.no_options Examples.w_xy.
  destruct (@no_option_run_changes_nothing Examples.host Cases.no_options
              ["docs"] Examples.w_xy res w' Cases.entries_xy Hno eq_refl
              ltac:(repeat constructor) E) as (R & _ & S & _).
  split; assumption.
Defined.

Lemma rename_sources_are_candidates_witness :
  match @rename_files Examples.host Examples.prefix_real ["docs"]
          Examples.w_xy with
  | (inr res, w') =>
      exists calls,
        w_renames w' = (calls ++ w_renames Examples.w_xy)%list
        /\ subsequence (renamed_sources calls)
             (@collect Examples.host Examples.prefix_real Examples.fs_xy
                Cases.entries_xy)
  | (inl _, _) => False
  end.
Proof.
  run_of Examples.prefix_real Examples.w_xy.
  destruct (@rename_sources_are_candidates Examples.host
              Examples.prefix_real ["docs"] Examples.w_xy res w' E)
    as (entries & calls & Hl & Hc & Hs & _).
  injection Hl as <-. exists calls. split; assumption.
Defined.

Lemma numbering_fixed_width_injective_witness :
  String.length (PyInt.format_0d (PyInt.len_str 15) (2 + 1))
  = PyInt.len_str 15.
Proof.
  exact (proj1 (@numbering_fixed_width_injective Examples.host
                  Examples.numbered "img.jpg" 15 2 7 eq_refl eq_refl
                  ltac:(lia) ltac:(lia))).
Defined.

Lemma new_extension_is_normalised_witness :
  ".JPG" <> ""
  /\ @normalize_ext Examples.host ".JPG" <> ""
  /\ exists body,
       "a.jpg" = body ++ "." ++ "jpg"
       /\ (body <> "" ->
           PyPath.suffix_of_name "a.jpg" = ".jpg"
           /\ @_should_process_file Examples.host Examples.only_images
                Examples.fs_mixed ["pics"; "a.jpg"] = true).
Proof.
  assert (He : ".JPG" <> "") by discriminate.
  assert (Hne : @normalize_ext Examples.host ".JPG" <> "") by discriminate.
  split; [exact He |]. split; [exact Hne |].
  destruct (@new_extension_is_normalised Examples.host
              "" "" false ".JPG" "" false None false "a.txt" 0 1 "a.jpg"
              He Hne eq_refl) as (body & Hb & Hrest).
  exists body. split; [exact Hb |].
  intros Hbody. destruct (Hrest Hbody eq_refl) as (Hsuf & Hflt).
  split; [exact Hsuf |].
  exact (Hflt eq_refl "" "" false "" "" false ["jpg"; ".JPG"] true
           Examples.fs_mixed ["pics"; "a.jpg"]
           (or_intror (or_introl eq_refl)) eq_refl).
Defined.

Lemma main_dry_run_keeps_files_witness :
  XRename.a_dry_run Cases.args_dry_log = true
  /\ length (w_renames (snd (@XRename.main Examples.host Cases.args_dry_log
                               Examples.w_xy))) = 0%nat
  /\ w_fs (snd (@XRename.main Examples.host Cases.args_dry_log
                  Examples.w_xy))
     = w_fs (snd (@Utils.setup_logging Examples.host "docs/run.log"
                    Examples.w_xy))
  /\ XRename.a_log Examples.args_preview = ""
  /\ w_fs (snd (@XRename.main Examples.host Examples.args_preview
                  Examples.w_xy)) = Examples.fs_xy.
Proof.
  split; [reflexivity |].
  destruct (@main_dry_run_keeps_files Examples.host Cases.args_dry_log
              Examples.w_xy eq_refl) as (Hr & Hf & _).
  split; [rewrite Hr; reflexivity |]. split; [exact Hf |].
  split; [reflexivity |].
  exact (proj2 (proj2 (@main_dry_run_keeps_files Examples.host
                         Examples.args_preview Examples.w_xy eq_refl))
           eq_refl).
Defined.

Lemma filter_argument_entries_witness :
  XRename.a_filter Cases.args_filter = String.concat "," [".jpg"; "PNG"]
  /\ filter_ext (@XRename.make_renamer Examples.host Cases.args_filter)
     = Some ["jpg"; "png"].
Proof.
  split; [reflexivity |].
  exact (@filter_argument_entries Examples.host Cases.args_filter
           [".jpg"; "PNG"] ltac:(repeat constructor) eq_refl).
Defined.

Lemma errors_count_generation_failures_witness :
  match @rename_files Examples.host Examples.pattern_positional ["docs"]
          Examples.w_xy with
  | (inr res, w') =>
      exists entries,
        errors res =
          Z.of_nat (length
            (filter (@generation_raises Examples.host
                       Examples.pattern_positional (total res))
               (enumerate_from 0
                  (@collect Examples.host Examples.pattern_positional
                     Examples.fs_xy entries))))
  | (inl _, _) => False
  end.
Proof.
  run_of Examples.pattern_positional Examples.w_xy.
  destruct (@errors_count_generation_failures Examples.host
              Examples.pattern_positional ["docs"] Examples.w_xy res w' E)
    as (entries & _ & He & _).
  exists entries. exact He.
Defined.

Lemma counters_within_bounds_witness :
  match @rename_files Examples.host Examples.prefix_real ["docs"]
          Examples.w_xy with
  | (inr res, w') => 0 <= renamed res <= total res
  | (inl _, _) => False
  end.
Proof.
  run_of Examples.prefix_real Examples.w_xy.
  exact (proj1 (@counters_within_bounds Examples.host Examples.prefix_real
                  ["docs"] Examples.w_xy res w' E)).
Defined.

Lemma renamed_counts_successful_calls_witness :
  dry_run Examples.prefix_real = false
  /\ match @rename_files Examples.host Examples.prefix_real ["docs"]
             Examples.w_xy with
     | (inr res, w') =>
         exists calls,
           w_renames w' = (calls ++ w_renames Examples.w_xy)%list
           /\ renamed res
              = Z.of_nat (length (filter call_succeeded calls))
     | (inl _, _) => False
     end.
Proof.
  split; [reflexivity |].
  run_of Examples.prefix_real Examples.w_xy.
  exact (@renamed_counts_successful_calls Examples.host
           Examples.prefix_real ["docs"] Examples.w_xy res w' eq_refl E).
Defined.

Lemma rename_keeps_directory_witness :
  match @rename_files Examples.host Examples.prefix_real ["docs"]
          Examples.w_xy with
  | (inr res, w') =>
      exists calls,
        w_renames w' = (calls ++ w_renames Examples.w_xy)%list
  | (inl _, _) => False
  end.
Proof.
  run_of Examples.prefix_real Examples.w_xy.
  destruct (@rename_keeps_directory Examples.host Examples.prefix_real
              ["docs"] Examples.w_xy res w' E)
    as (entries & calls & _ & Hc & _).
  exists calls. exact Hc.
Defined.

Lemma rename_files_fails_only_at_start_witness :
  @rename_files Cases.guard_x Examples.prefix_real ["docs"]
    (@initial_world Cases.guard_x Examples.fs_xy)
  = (inl PermissionError, @initial_world Cases.guard_x Examples.fs_xy)
  /\ @rename_files Examples.host Examples.prefix_real ["nowhere"]
       Examples.w_xy
     = (inl ValueError, Examples.w_xy).
Proof.
  split.
  - apply (proj2 (@rename_files_fails_only_at_start Cases.guard_x
                    Examples.prefix_real ["docs"]
                    (@initial_world Cases.guard_x Examples.fs_xy)
                    PermissionError
                    (@initial_world Cases.guard_x Examples.fs_xy))).
    split; [reflexivity |]. right; right.
    split; [reflexivity |]. split; reflexivity.
  - apply (proj2 (@rename_files_fails_only_at_start Examples.host
                    Examples.prefix_real ["nowhere"] Examples.w_xy
                    ValueError Examples.w_xy)).
    split; [reflexivity |]. right; left.
    split; [reflexivity |]. split; reflexivity.
Defined.

Lemma main_exit_status_witness :
  (exists w0 res w',
     @Utils.setup_logging Examples.host
       (XRename.a_log Examples.args_preview) Examples.w_xy = (inr tt, w0)
     /\ fs_is_dir (w_fs w0) ["docs"] = true
     /\ @rename_files Examples.host
          (@XRename.make_renamer Examples.host Examples.args_preview)
          ["docs"] w0 = (inr res, w')
     /\ errors res = 0)
  /\ XRename.out_exit
       (fst (@XRename.main Examples.host Cases.args_log_nowhere
               Examples.w_xy)) = 1
  /\ XRename.out_exit
       (fst (@XRename.main Examples.host Cases.args_missing Examples.w_xy))
     = 1.
Proof.
  split; [| split].
  - destruct (proj1 (proj2 (@main_exit_status Examples.host
                              Examples.args_preview Examples.w_xy))
                eq_refl)
      as (w0 & res & w' & Hs & _ & _ & Hd & Hr & He).
    exists w0, res, w'. repeat split; assumption.
  - destruct (proj1 (@main_exit_status Examples.host Cases.args_log_nowhere
                       Examples.w_xy)) as [E | E]; [discriminate E | exact E].
  - destruct (proj1 (@main_exit_status Examples.host Cases.args_missing
                       Examples.w_xy)) as [E | E]; [discriminate E | exact E].
Defined.

Lemma main_without_summary_witness :
  XRename.out_exit
    (fst (@XRename.main Examples.host Cases.args_log_nowhere Examples.w_xy))
  = 1
  /\ w_renames
       (snd (@XRename.main Examples.host Cases.args_log_nowhere
               Examples.w_xy))
     = w_renames Examples.w_xy
  /\ XRename.out_stderr
       (fst (@XRename.main Examples.host Cases.args_log_nowhere
               Examples.w_xy))
     = [Traceback FileNotFoundError].
Proof.
  destruct (proj1 (@main_without_summary Examples.host
                     Cases.args_log_nowhere Examples.w_xy) eq_refl)
    as (He & _ & Hr & _).
  split; [exact He |]. split; [exact Hr | reflexivity].
Defined.
